(** * MetaMedAI: the three-stage research pipeline

    A shallow embedding of the orchestration and data-contract layer of
    MetaMedAI (src/app.py, src/src/chains/router_chain.py, the three agents
    and the two tools) together with the properties its specification
    states about it.

    Python values are modelled as they are at run time: a [str] is a
    sequence of Unicode code points, a [dict] is an insertion-ordered
    association list, exceptions are explicit results.  The collaborators
    the repository calls but does not define (the completion function, the
    Entrez client, the JSON codec, the clock, the file system, the Unicode
    case tables) are parameters of the definitions that use them. *)

From Stdlib Require Import String Ascii NArith ZArith Lia Bool Arith List.
Import ListNotations.

Set Implicit Arguments.

(* ================================================================== *)
(** ** Python strings *)
(* ================================================================== *)

Module PyStr.

(** A code point, and a Python [str]. *)
Definition char := N.
Definition pystr := list char.

(** Source literals are written as UTF-8 text; [py] decodes them into code
    points ([pending] continuation bytes still owed to [acc]). *)
Fixpoint utf8_decode (pending : nat) (acc : N) (bs : list N) : pystr :=
  match bs with
  | [] => []
  | b :: rest =>
      match pending with
      | O =>
          if (b <? 128)%N then b :: utf8_decode 0 0%N rest
          else if (b <? 224)%N then utf8_decode 1 (N.land b 31) rest
          else if (b <? 240)%N then utf8_decode 2 (N.land b 15) rest
          else utf8_decode 3 (N.land b 7) rest
      | S k =>
          let acc' := (acc * 64 + N.land b 63)%N in
          match k with
          | O => acc' :: utf8_decode 0 0%N rest
          | S _ => utf8_decode k acc' rest
          end
      end
  end.

Definition py (s : string) : pystr :=
  utf8_decode 0 0%N (map N_of_ascii (list_ascii_of_string s)).

(** [a == b] on two strings. *)
Fixpoint eqb (a b : pystr) : bool :=
  match a, b with
  | [], [] => true
  | x :: a', y :: b' => (x =? y)%N && eqb a' b'
  | _, _ => false
  end.

(** [s.startswith(p)]. *)
Fixpoint startswith (p s : pystr) : bool :=
  match p, s with
  | [], _ => true
  | x :: p', y :: s' => (x =? y)%N && startswith p' s'
  | _ :: _, [] => false
  end.

(** [sub in s]. *)
Fixpoint contains (sub s : pystr) : bool :=
  match s with
  | [] => startswith sub []
  | _ :: rest => startswith sub s || contains sub rest
  end.

(** [s.split(sep)] for a non-empty [sep] (the code only splits on the
    literals of three back-quotes and of one hyphen): a left-to-right scan
    for non-overlapping occurrences.  [skip] counts the characters of a
    matched separator still to be dropped, [acc] is the current segment,
    reversed. *)
Fixpoint split_go (sep : pystr) (skip : nat) (acc : pystr) (s : pystr)
  : list pystr :=
  match s with
  | [] => [rev acc]
  | c :: rest =>
      match skip with
      | S k => split_go sep k acc rest
      | O =>
          if startswith sep s
          then rev acc :: split_go sep (length sep - 1) [] rest
          else split_go sep 0 (c :: acc) rest
      end
  end.

Definition split (sep s : pystr) : list pystr := split_go sep 0 [] s.

(** [s.replace(old, new)] for a non-empty [old]: every non-overlapping
    occurrence, scanning from the left. *)
Fixpoint replace_go (old new : pystr) (skip : nat) (s : pystr) : pystr :=
  match s with
  | [] => []
  | c :: rest =>
      match skip with
      | S k => replace_go old new k rest
      | O =>
          if startswith old s
          then new ++ replace_go old new (length old - 1) rest
          else c :: replace_go old new 0 rest
      end
  end.

Definition replace (old new s : pystr) : pystr := replace_go old new 0 s.

(** [c.isspace()], the table of CPython's [_PyUnicode_IsWhitespace]. *)
Definition isspace (c : char) : bool :=
  ((9 <=? c) && (c <=? 13) || (28 <=? c) && (c <=? 32)
   || (c =? 133) || (c =? 160) || (c =? 5760)
   || (8192 <=? c) && (c <=? 8202)
   || (c =? 8232) || (c =? 8233) || (c =? 8239) || (c =? 8287)
   || (c =? 12288))%N.

Fixpoint lstrip (s : pystr) : pystr :=
  match s with
  | [] => []
  | c :: rest => if isspace c then lstrip rest else s
  end.

Definition rstrip (s : pystr) : pystr := rev (lstrip (rev s)).

(** [s.strip()]. *)
Definition strip (s : pystr) : pystr := rstrip (lstrip s).

(** [s[:n]]. *)
Definition slice_to (n : nat) (s : pystr) : pystr := firstn n s.

(** [sep.join(parts)]. *)
Fixpoint join (sep : pystr) (parts : list pystr) : pystr :=
  match parts with
  | [] => []
  | [p] => p
  | p :: rest => p ++ sep ++ join sep rest
  end.

(** Decimal digits of a natural number, as [str(n)] prints them. *)
Definition digit_char (d : nat) : char := N.of_nat (48 + d).

Fixpoint digits_go (fuel n : nat) (acc : pystr) : pystr :=
  match fuel with
  | O => acc
  | S f =>
      let acc' := digit_char (n mod 10) :: acc in
      if n / 10 =? 0 then acc' else digits_go f (n / 10) acc'
  end.

Definition str_of_nat (n : nat) : pystr := digits_go (S n) n [].

(** A number printed on [w] digits, zero padded on the left ([%02d]). *)
Fixpoint pad_go (w n : nat) (acc : pystr) : pystr :=
  match w with
  | O => acc
  | S w' => pad_go w' (n / 10) (digit_char (n mod 10) :: acc)
  end.

Definition zero_pad (w n : nat) : pystr := pad_go w n [].

Definition is_ascii (c : char) : bool := (c <? 128)%N.

Definition ascii_lower (c : char) : char :=
  if ((65 <=? c) && (c <=? 90))%N then (c + 32)%N else c.

Definition ascii_isdigit (c : char) : bool := ((48 <=? c) && (c <=? 57))%N.

(** The Unicode character database is not part of the repository.  What
    [str.lower] produces for the non-ASCII character at index [i] of [s]
    (one to three code points, depending on the context for a capital
    sigma) and which non-ASCII characters [str.isdigit] accepts are
    parameters; on ASCII both are the fixed rules above. *)
Section Unicode.

Variable unicode_lower : pystr -> nat -> pystr.
Variable unicode_isdigit : char -> bool.

Definition lower_at (s : pystr) (i : nat) (c : char) : pystr :=
  if is_ascii c then [ascii_lower c] else unicode_lower s i.

Fixpoint lower_from (s : pystr) (i : nat) (rest : pystr) : pystr :=
  match rest with
  | [] => []
  | c :: rest' => lower_at s i c ++ lower_from s (S i) rest'
  end.

(** [s.lower()]. *)
Definition lower (s : pystr) : pystr := lower_from s 0 s.

Definition char_isdigit (c : char) : bool :=
  if is_ascii c then ascii_isdigit c else unicode_isdigit c.

(** [s.isdigit()]: at least one character, all of them digits. *)
Definition isdigit (s : pystr) : bool :=
  match s with
  | [] => false
  | _ :: _ => forallb char_isdigit s
  end.

End Unicode.

(** A case table that leaves every non-ASCII character as it is (true of
    the CJK text the repository's literals use), for closed examples. *)
Definition caseless_lower (s : pystr) (i : nat) : pystr :=
  match nth_error s i with
  | Some c => [c]
  | None => []
  end.

Definition no_unicode_digit (c : char) : bool := false.

(** [s.upper()]: what [str.upper] produces for a non-ASCII character (one
    to three code points) is a parameter; unlike [str.lower] it does not
    depend on the neighbours of the character. *)
Section Upper.

Variable unicode_upper : char -> pystr.

Definition upper_char (c : char) : pystr :=
  if is_ascii c
  then [if ((97 <=? c) && (c <=? 122))%N then (c - 32)%N else c]
  else unicode_upper c.

Definition upper (s : pystr) : pystr := flat_map upper_char s.

End Upper.

Definition caseless_upper (c : char) : pystr := [c].

End PyStr.

Import PyStr.

(* ================================================================== *)
(** ** Python values, exceptions and results *)
(* ================================================================== *)

Module PyVal.

(** A Python [float] by its exact value: [FFin neg m e] is
    [(-1)^neg * m * 2^e]. *)
Inductive pyfloat :=
| FNan
| FInf (neg : bool)
| FFin (neg : bool) (m : N) (e : Z).

(** The values a JSON document decodes to, which is what the envelopes
    exchanged between the stages are made of.  A [dict] keeps its keys in
    insertion order. *)
#[warnings="-register-all"] Inductive pyval :=
| PNone
| PBool (b : bool)
| PInt (z : Z)
| PFloat (f : pyfloat)
| PStr (s : pystr)
| PList (l : list pyval)
| PDict (d : list (pystr * pyval)).

Definition pydict := list (pystr * pyval).

(** The exceptions below [Exception] that the embedded code can meet.
    [Exception] stands for any other one a collaborator raises, given by
    its [str()]. *)
Inductive exn :=
| KeyError (key : pystr)
| TypeError (msg : pystr)
| AttributeError (msg : pystr)
| IndexError (msg : pystr)
| JSONDecodeError (msg : pystr) (doc : pystr) (pos : nat)
| UnboundLocalError (msg : pystr)
| Exception (text : pystr).

(** The outcome of evaluating a Python expression. *)
Inductive result (A : Type) :=
| Ok (a : A)
| Raise (e : exn).

Arguments Ok {A} a.
Arguments Raise {A} e.

Definition bind {A B} (c : result A) (k : A -> result B) : result B :=
  match c with
  | Ok a => k a
  | Raise e => Raise e
  end.

(** [try: body / except Exception as e: handler e]. *)
Definition try_except {A} (body : result A) (handler : exn -> result A)
  : result A :=
  match body with
  | Ok a => Ok a
  | Raise e => handler e
  end.

Definition is_JSONDecodeError (e : exn) : bool :=
  match e with
  | JSONDecodeError _ _ _ => true
  | _ => false
  end.

Definition is_TypeError (e : exn) : bool :=
  match e with
  | TypeError _ => true
  | _ => false
  end.

(** [type(v).__name__]. *)
Definition type_name (v : pyval) : pystr :=
  match v with
  | PNone => py "NoneType"
  | PBool _ => py "bool"
  | PInt _ => py "int"
  | PFloat _ => py "float"
  | PStr _ => py "str"
  | PList _ => py "list"
  | PDict _ => py "dict"
  end.

(** [repr(key)] of a key made of printable characters other than quotes
    and backslashes, which every key the code subscripts with is. *)
Definition key_repr (k : pystr) : pystr := py "'" ++ k ++ py "'".

(** Line and column of [pos] in [doc], as [JSONDecodeError] computes
    them: [lineno = doc.count('\n', 0, pos) + 1] and [colno] counts from
    the last newline before [pos]. *)
Fixpoint line_col (doc : pystr) (pos : nat) (line col : nat) : nat * nat :=
  match pos, doc with
  | S p, c :: rest =>
      if (c =? 10)%N then line_col rest p (S line) 1
      else line_col rest p line (S col)
  | _, _ => (line, col)
  end.

(** [str(e)]; the texts are those of CPython 3.11. *)
Definition str_exn (e : exn) : pystr :=
  match e with
  | KeyError k => key_repr k
  | TypeError m | AttributeError m | IndexError m
  | UnboundLocalError m | Exception m => m
  | JSONDecodeError m doc pos =>
      let '(l, c) := line_col doc pos 1 1 in
      m ++ py ": line " ++ str_of_nat l ++ py " column " ++ str_of_nat c
        ++ py " (char " ++ str_of_nat pos ++ py ")"
  end.

Definition no_attribute (v : pyval) (attr : pystr) : exn :=
  AttributeError
    (py "'" ++ type_name v ++ py "' object has no attribute '" ++ attr
       ++ py "'").

(** [d[k]] on the association list: the first binding of [k]. *)
Fixpoint dict_lookup (k : pystr) (d : pydict) : option pyval :=
  match d with
  | [] => None
  | (k', v) :: rest => if PyStr.eqb k k' then Some v else dict_lookup k rest
  end.

(** [v[k]] with a string [k]. *)
Definition getitem (v : pyval) (k : pystr) : result pyval :=
  match v with
  | PDict d =>
      match dict_lookup k d with
      | Some x => Ok x
      | None => Raise (KeyError k)
      end
  | PStr _ => Raise (TypeError (py "string indices must be integers, not 'str'"))
  | PList _ =>
      Raise (TypeError (py "list indices must be integers or slices, not str"))
  | _ => Raise (TypeError (py "'" ++ type_name v
                             ++ py "' object is not subscriptable"))
  end.

(** [v.get(k, default)]. *)
Definition get (v : pyval) (k : pystr) (default : pyval) : result pyval :=
  match v with
  | PDict d =>
      match dict_lookup k d with
      | Some x => Ok x
      | None => Ok default
      end
  | _ => Raise (no_attribute v (py "get"))
  end.

(** [len(v)]. *)
Definition len (v : pyval) : result nat :=
  match v with
  | PStr s => Ok (length s)
  | PList l => Ok (length l)
  | PDict d => Ok (length d)
  | _ => Raise (TypeError (py "object of type '" ++ type_name v
                             ++ py "' has no len()"))
  end.

(** [bool(v)], the test of [if v] and [not v]. *)
Definition truthy (v : pyval) : bool :=
  match v with
  | PNone => false
  | PBool b => b
  | PInt z => negb (z =? 0)%Z
  | PFloat (FFin _ m _) => negb (m =? 0)%N
  | PFloat _ => true
  | PStr s => negb (PyStr.eqb s [])
  | PList l => match l with [] => false | _ => true end
  | PDict d => match d with [] => false | _ => true end
  end.

(** [v == s] for a string literal [s]: only a [str] equals a [str]. *)
Definition eq_str (v : pyval) (s : pystr) : bool :=
  match v with
  | PStr t => PyStr.eqb t s
  | _ => false
  end.

(** [v.strip()]. *)
Definition strip_method (v : pyval) : result pystr :=
  match v with
  | PStr s => Ok (strip s)
  | _ => Raise (no_attribute v (py "strip"))
  end.

(** [needle in v] for a string [needle]: a substring of a [str], an
    element of a [list], a key of a [dict]. *)
Definition contains_str (needle : pystr) (v : pyval) : result bool :=
  match v with
  | PStr s => Ok (PyStr.contains needle s)
  | PList l => Ok (existsb (fun x => eq_str x needle) l)
  | PDict d => Ok (existsb (fun kv => PyStr.eqb (fst kv) needle) d)
  | _ => Raise (TypeError (py "argument of type '" ++ type_name v
                             ++ py "' is not iterable"))
  end.

(** [l[i]] on a list: an [int] (or [bool]) index, counted from the end
    when negative. *)
Definition list_getitem (l : list pyval) (i : pyval) : result pyval :=
  let at_index (z : Z) :=
    let n := Z.of_nat (length l) in
    let z' := if (z <? 0)%Z then (z + n)%Z else z in
    if ((0 <=? z') && (z' <? n))%Z
    then match nth_error l (Z.to_nat z') with
         | Some x => Ok x
         | None => Raise (IndexError (py "list index out of range"))
         end
    else Raise (IndexError (py "list index out of range")) in
  match i with
  | PInt z => at_index z
  | PBool b => at_index (if b then 1 else 0)%Z
  | _ => Raise (TypeError (py "list indices must be integers or slices, not "
                             ++ type_name i))
  end.

(** Numbers by exact value, [NumFin z e] being [z * 2^e]; [bool] is a
    subclass of [int]. *)
Inductive number :=
| NumNan
| NumInf (neg : bool)
| NumFin (z : Z) (e : Z).

Definition as_number (v : pyval) : option number :=
  match v with
  | PBool b => Some (NumFin (if b then 1 else 0) 0)
  | PInt z => Some (NumFin z 0)
  | PFloat FNan => Some NumNan
  | PFloat (FInf neg) => Some (NumInf neg)
  | PFloat (FFin neg m e) =>
      Some (NumFin (if neg then - Z.of_N m else Z.of_N m) e)
  | _ => None
  end.

(** [a > b] on numbers; Python compares an [int] and a [float] exactly. *)
Definition num_gt (a b : number) : bool :=
  match a, b with
  | NumNan, _ | _, NumNan => false
  | NumInf na, NumInf nb => negb na && nb
  | NumInf na, NumFin _ _ => negb na
  | NumFin _ _, NumInf nb => nb
  | NumFin za ea, NumFin zb eb =>
      let m := Z.min ea eb in
      (zb * 2 ^ (eb - m) <? za * 2 ^ (ea - m))%Z
  end.

(** [a > b] on strings: lexicographic on code points. *)
Fixpoint str_gt (a b : pystr) : bool :=
  match a, b with
  | [], _ => false
  | _ :: _, [] => true
  | x :: a', y :: b' => (y <? x)%N || ((x =? y)%N && str_gt a' b')
  end.

Section Comparison.

(** [a > b] on two lists goes through Python's identity-or-equality
    test on the elements, which is not defined here: a parameter. *)
Variable list_gt : list pyval -> list pyval -> result bool.

(** [val > maxval], as [max] evaluates it. *)
Definition gt (a b : pyval) : result bool :=
  match as_number a, as_number b with
  | Some x, Some y => Ok (num_gt x y)
  | _, _ =>
      match a, b with
      | PStr s, PStr t => Ok (str_gt s t)
      | PList l, PList m => list_gt l m
      | _, _ =>
          Raise (TypeError (py "'>' not supported between instances of '"
                              ++ type_name a ++ py "' and '" ++ type_name b
                              ++ py "'"))
      end
  end.

(** The loop of [max(items, key=key)] once a first candidate is held:
    a later item replaces it only when its key is strictly greater. *)
Fixpoint max_loop {I : Type} (key : I -> result pyval) (items : list I)
         (maxitem : I) (maxval : pyval) : result I :=
  match items with
  | [] => Ok maxitem
  | item :: rest =>
      bind (key item) (fun val =>
      bind (gt val maxval) (fun greater =>
      if greater then max_loop key rest item val
      else max_loop key rest maxitem maxval))
  end.

(** [max(items, key=key, default=default)] over the items an iterable
    yields. *)
Definition max_by {I : Type} (key : I -> result pyval) (items : list I)
           (default : I) : result I :=
  match items with
  | [] => Ok default
  | first :: rest =>
      bind (key first) (fun val => max_loop key rest first val)
  end.

End Comparison.

(** A comparison of lists for closed examples, where no list is ever
    compared. *)
Definition no_list_gt (l m : list pyval) : result bool :=
  Raise (TypeError (py "'>' not supported between instances of 'list' and 'list'")).

End PyVal.

Import PyVal.

Notation "x <- c ;; k" := (bind c (fun x => k))
  (at level 61, c at next level, right associativity).

(* ================================================================== *)
(** ** The JSON decoder *)
(* ================================================================== *)

(** [json.loads] belongs to Python's standard library, not to the
    repository: the stages below take the decoder as a parameter.  [loads]
    is an executable model of it (the scanner of CPython 3.11's [_json])
    on which the stages can be run on concrete completions.  It leaves out
    the interpreter's recursion limit on nesting depth. *)
Module Json.

Inductive scan (A : Type) :=
| Scanned (a : A) (rest : pystr) (pos : nat)
| Stop (idx : nat)                   (* StopIteration(idx) *)
| Fail (e : exn)
| OutOfFuel.

Arguments Scanned {A} a rest pos.
Arguments Stop {A} idx.
Arguments Fail {A} e.
Arguments OutOfFuel {A}.

Definition is_ws (c : char) : bool :=
  ((c =? 32) || (c =? 9) || (c =? 10) || (c =? 13))%N.

Fixpoint skip_ws (s : pystr) (pos : nat) : pystr * nat :=
  match s with
  | c :: rest => if is_ws c then skip_ws rest (S pos) else (s, pos)
  | [] => (s, pos)
  end.

Definition hex_digit (c : char) : option N :=
  if ((48 <=? c) && (c <=? 57))%N then Some (c - 48)%N
  else if ((97 <=? c) && (c <=? 102))%N then Some (c - 87)%N
  else if ((65 <=? c) && (c <=? 70))%N then Some (c - 55)%N
  else None.

(** The four hexadecimal digits of a [\uXXXX] escape. *)
Definition hex4 (l : pystr) : option N :=
  match l with
  | [a; b; c; d] =>
      match hex_digit a, hex_digit b, hex_digit c, hex_digit d with
      | Some x, Some y, Some z, Some w =>
          Some (((x * 16 + y) * 16 + z) * 16 + w)%N
      | _, _, _, _ => None
      end
  | _ => None
  end.

Definition simple_escape (c : char) : option char :=
  if (c =? 34)%N then Some 34%N            (* quote *)
  else if (c =? 92)%N then Some 92%N       (* backslash *)
  else if (c =? 47)%N then Some 47%N       (* slash *)
  else if (c =? 98)%N then Some 8%N        (* b *)
  else if (c =? 102)%N then Some 12%N      (* f *)
  else if (c =? 110)%N then Some 10%N      (* n *)
  else if (c =? 114)%N then Some 13%N      (* r *)
  else if (c =? 116)%N then Some 9%N       (* t *)
  else None.

Definition is_high_surrogate (c : N) : bool :=
  ((55296 <=? c) && (c <=? 56319))%N.
Definition is_low_surrogate (c : N) : bool :=
  ((56320 <=? c) && (c <=? 57343))%N.
Definition join_surrogates (hi lo : N) : N :=
  (65536 + (N.land hi 1023 * 1024 + N.land lo 1023))%N.

Section Decoder.

(** The whole document, for the error reports. *)
Variable doc : pystr.

Definition errmsg {A} (msg : string) (pos : nat) : scan A :=
  Fail (JSONDecodeError (py msg) doc pos).

(** [scanstring]: the text after an opening quote at index [begin];
    [s] starts at index [pos], [acc] is the decoded text, reversed. *)
Fixpoint scanstring (fuel : nat) (begin : nat) (s : pystr) (pos : nat)
         (acc : pystr) : scan pystr :=
  match fuel with
  | O => OutOfFuel
  | S fuel' =>
      match s with
      | [] => errmsg "Unterminated string starting at" begin
      | c :: rest =>
          if (c =? 34)%N then Scanned (rev acc) rest (S pos)
          else if (c =? 92)%N then
            match rest with
            | [] => errmsg "Unterminated string starting at" begin
            | esc :: rest1 =>
                if (esc =? 117)%N then
                  (* \uXXXX, the u at index pos + 1 *)
                  (* the four digits must not end the document *)
                  match (if 5 <=? length rest1 then hex4 (firstn 4 rest1)
                         else None) with
                  | None => errmsg "Invalid \uXXXX escape" (S pos)
                  | Some hi =>
                      let rest2 := skipn 4 rest1 in
                      let single :=
                        scanstring fuel' begin rest2 (pos + 6) (hi :: acc) in
                      if is_high_surrogate hi
                         && (7 <=? length rest2)
                         && PyStr.startswith [92; 117]%N rest2
                      then
                        match hex4 (firstn 4 (skipn 2 rest2)) with
                        | None => errmsg "Invalid \uXXXX escape" (pos + 7)
                        | Some lo =>
                            if is_low_surrogate lo
                            then scanstring fuel' begin (skipn 6 rest2)
                                   (pos + 12)
                                   (join_surrogates hi lo :: acc)
                            else single
                        end
                      else single
                  end
                else
                  match simple_escape esc with
                  | Some d => scanstring fuel' begin rest1 (pos + 2) (d :: acc)
                  | None => errmsg "Invalid \escape" pos
                  end
            end
          else if (c <=? 31)%N then errmsg "Invalid control character at" pos
          else scanstring fuel' begin rest (S pos) (c :: acc)
      end
  end.

Fixpoint take_digits (s : pystr) (acc : pystr) : pystr * pystr :=
  match s with
  | c :: rest =>
      if ascii_isdigit c then take_digits rest (c :: acc) else (rev acc, s)
  | [] => (rev acc, s)
  end.

Definition digits_value (ds : pystr) : N :=
  fold_left (fun v c => (v * 10 + (c - 48))%N) ds 0%N.

(** The nearest [float] to [mant * 10^exp10], ties to even. *)
Definition round_div (n d : N) : N :=
  let q := (n / d)%N in
  let r := (n mod d)%N in
  if (d <? 2 * r)%N || ((2 * r =? d)%N && N.odd q) then (q + 1)%N else q.

Definition float_of_decimal (neg : bool) (mant : N) (exp10 : Z) : pyfloat :=
  if (mant =? 0)%N then FFin neg 0 0
  else
    let p := if (0 <=? exp10)%Z then (mant * 10 ^ Z.to_N exp10)%N else mant in
    let q := if (0 <=? exp10)%Z then 1%N else (10 ^ Z.to_N (- exp10))%N in
    let d := (Z.of_N (N.log2 p) - Z.of_N (N.log2 q))%Z in
    (* floor (log2 (p / q)) is d or d - 1 *)
    let ge := if (0 <=? d)%Z then (q * 2 ^ Z.to_N d <=? p)%N
              else (q <=? p * 2 ^ Z.to_N (- d))%N in
    let l := if ge then d else (d - 1)%Z in
    let e := Z.max (l - 52) (-1074) in
    let m := if (0 <=? e)%Z then round_div p (q * 2 ^ Z.to_N e)%N
             else round_div (p * 2 ^ Z.to_N (- e))%N q in
    let '(m, e) := if (m =? 2 ^ 53)%N then ((2 ^ 52)%N, (e + 1)%Z) else (m, e) in
    if (m =? 0)%N then FFin neg 0 0
    else if (971 <? e)%Z then FInf neg
    else FFin neg m e.

(** The interpreter's limit on the digits of an integer literal. *)
Definition int_max_str_digits : nat := 4300.

(** [_match_number]: an optional minus sign; a single 0 or a run of
    digits not starting with 0; optionally a point followed by digits;
    optionally e or E, an optional sign and digits. *)
Definition match_number (s : pystr) (pos : nat) : scan pyval :=
  let '(neg, s1) := match s with
                    | c :: r => if (c =? 45)%N then (true, r) else (false, s)
                    | [] => (false, s)
                    end in
  let int_part :=
    match s1 with
    | c :: r =>
        if (c =? 48)%N then Some ([c], r)
        else if ascii_isdigit c then Some (take_digits s1 []) else None
    | [] => None
    end in
  match int_part with
  | None => Stop pos
  | Some (ints, s2) =>
      let '(frac, s3) :=
        match s2 with
        | c :: ((d :: _) as r) =>
            if (c =? 46)%N && ascii_isdigit d then take_digits r []
            else ([], s2)
        | _ => ([], s2)
        end in
      let exp_part :=
        match s3 with
        | c :: r =>
            if (c =? 101)%N || (c =? 69)%N then
              let '(eneg, signed, r1) :=
                match r with
                | sg :: ((_ :: _) as r') =>
                    if (sg =? 45)%N then (true, true, r')
                    else if (sg =? 43)%N then (false, true, r')
                    else (false, false, r)
                | _ => (false, false, r)
                end in
              match take_digits r1 [] with
              | ([], _) => None
              | (ds, r2) => Some (eneg, signed, ds, r2)
              end
            else None
        | [] => None
        end in
      let sign_len := if neg then 1 else 0 in
      let frac_len := match frac with [] => 0 | _ => S (length frac) end in
      match frac, exp_part with
      | [], None =>
          if length ints <=? int_max_str_digits then
            let v := Z.of_N (digits_value ints) in
            Scanned (PInt (if neg then (- v)%Z else v)) s2
                    (pos + sign_len + length ints)
          else
            Fail (Exception
                    (py "Exceeds the limit (4300 digits) for integer string conversion: value has "
                       ++ str_of_nat (length ints)
                       ++ py " digits; use sys.set_int_max_str_digits() to increase the limit"))
      | _, None =>
          Scanned (PFloat (float_of_decimal neg (digits_value (ints ++ frac))
                             (- Z.of_nat (length frac))))
                  s3 (pos + sign_len + length ints + frac_len)
      | _, Some (eneg, signed, ds, rest) =>
          let ex := Z.of_N (digits_value ds) in
          Scanned (PFloat (float_of_decimal neg (digits_value (ints ++ frac))
                             ((if eneg then - ex else ex)
                              - Z.of_nat (length frac))))
                  rest
                  (pos + sign_len + length ints + frac_len + 1
                   + (if signed then 1 else 0) + length ds)
      end
  end.

(** [dict(pairs)]: a repeated key keeps its first position and takes the
    last value. *)
Fixpoint dict_set (k : pystr) (v : pyval) (d : pydict) : pydict :=
  match d with
  | [] => [(k, v)]
  | (k', v') :: rest =>
      if PyStr.eqb k k' then (k, v) :: rest else (k', v') :: dict_set k v rest
  end.

Definition keyword (kw : string) (v : pyval) (s : pystr) (pos : nat)
  : option (scan pyval) :=
  if PyStr.startswith (py kw) s
  then Some (Scanned v (skipn (length (py kw)) s) (pos + length (py kw)))
  else None.

Definition first_some {A} (l : list (option A)) (default : A) : A :=
  match flat_map (fun o => match o with Some a => [a] | None => [] end) l with
  | a :: _ => a
  | [] => default
  end.

(** [scan_once] and the loops of [_parse_object] and [_parse_array];
    [s] is the text from index [pos] on. *)
Fixpoint scan_once (fuel : nat) (s : pystr) (pos : nat) : scan pyval :=
  match fuel with
  | O => OutOfFuel
  | S fuel' =>
      match s with
      | [] => Stop pos
      | c :: rest =>
          if (c =? 34)%N then
            match scanstring (S (length rest)) pos rest (S pos) [] with
            | Scanned t r p => Scanned (PStr t) r p
            | Stop i => Stop i
            | Fail e => Fail e
            | OutOfFuel => OutOfFuel
            end
          else if (c =? 123)%N then
            let '(s1, p1) := skip_ws rest (S pos) in
            match s1 with
            | c1 :: r1 =>
                if (c1 =? 125)%N then Scanned (PDict []) r1 (S p1)
                else parse_object fuel' s1 p1 []
            | [] => parse_object fuel' s1 p1 []
            end
          else if (c =? 91)%N then
            let '(s1, p1) := skip_ws rest (S pos) in
            match s1 with
            | c1 :: r1 =>
                if (c1 =? 93)%N then Scanned (PList []) r1 (S p1)
                else parse_array fuel' s1 p1 []
            | [] => parse_array fuel' s1 p1 []
            end
          else
            first_some
              [ keyword "null" PNone s pos;
                keyword "true" (PBool true) s pos;
                keyword "false" (PBool false) s pos;
                keyword "NaN" (PFloat FNan) s pos;
                keyword "Infinity" (PFloat (FInf false)) s pos;
                keyword "-Infinity" (PFloat (FInf true)) s pos ]
              (match_number s pos)
      end
  end

with parse_object (fuel : nat) (s : pystr) (pos : nat) (acc : pydict)
  : scan pyval :=
  match fuel with
  | O => OutOfFuel
  | S fuel' =>
      match s with
      | c :: rest =>
          if (c =? 34)%N then
            match scanstring (S (length rest)) pos rest (S pos) [] with
            | Scanned key r p =>
                let '(s1, p1) := skip_ws r p in
                match s1 with
                | c1 :: r1 =>
                    if (c1 =? 58)%N then
                      let '(s2, p2) := skip_ws r1 (S p1) in
                      match scan_once fuel' s2 p2 with
                      | Scanned v r3 p3 =>
                          let acc' := dict_set key v acc in
                          let '(s4, p4) := skip_ws r3 p3 in
                          match s4 with
                          | c4 :: r4 =>
                              if (c4 =? 125)%N
                              then Scanned (PDict acc') r4 (S p4)
                              else if (c4 =? 44)%N then
                                let '(s5, p5) := skip_ws r4 (S p4) in
                                parse_object fuel' s5 p5 acc'
                              else errmsg "Expecting ',' delimiter" p4
                          | [] => errmsg "Expecting ',' delimiter" p4
                          end
                      | other => other
                      end
                    else errmsg "Expecting ':' delimiter" p1
                | [] => errmsg "Expecting ':' delimiter" p1
                end
            | Stop i => Stop i
            | Fail e => Fail e
            | OutOfFuel => OutOfFuel
            end
          else errmsg "Expecting property name enclosed in double quotes" pos
      | [] => errmsg "Expecting property name enclosed in double quotes" pos
      end
  end

with parse_array (fuel : nat) (s : pystr) (pos : nat) (acc : list pyval)
  : scan pyval :=
  match fuel with
  | O => OutOfFuel
  | S fuel' =>
      match scan_once fuel' s pos with
      | Scanned v r p =>
          let '(s1, p1) := skip_ws r p in
          match s1 with
          | c1 :: r1 =>
              if (c1 =? 93)%N then Scanned (PList (rev (v :: acc))) r1 (S p1)
              else if (c1 =? 44)%N then
                let '(s2, p2) := skip_ws r1 (S p1) in
                parse_array fuel' s2 p2 (v :: acc)
              else errmsg "Expecting ',' delimiter" p1
          | [] => errmsg "Expecting ',' delimiter" p1
          end
      | other => other
      end
  end.

End Decoder.

(** [json.loads(s)] for a [str]. *)
Definition loads (s : pystr) : result pyval :=
  if PyStr.startswith [65279%N] s
  then Raise (JSONDecodeError
                (py "Unexpected UTF-8 BOM (decode using utf-8-sig)") s 0)
  else
    let '(s0, p0) := skip_ws s 0 in
    match scan_once s (2 * length s + 2) s0 p0 with
    | Scanned v rest p =>
        let '(s1, p1) := skip_ws rest p in
        match s1 with
        | [] => Ok v
        | _ :: _ => Raise (JSONDecodeError (py "Extra data") s p1)
        end
    | Stop idx => Raise (JSONDecodeError (py "Expecting value") s idx)
    | Fail e => Raise e
    | OutOfFuel =>
        Raise (Exception (py "maximum recursion depth exceeded"))
    end.

End Json.

(* ================================================================== *)
(** ** xml.etree.ElementTree, as far as pubmed_tool.py uses it *)
(* ================================================================== *)

Module ElementTree.

(** An element: its tag, its attributes, the text before its first child
    ([None] when there is none) and its children.  The parser keeps
    neither comments nor processing instructions. *)
#[warnings="-register-all"] Inductive element :=
| Element (tag : pystr) (attrib : list (pystr * pystr))
          (text : option pystr) (children : list element).

Definition tag (e : element) : pystr :=
  match e with Element t _ _ _ => t end.
Definition attrib (e : element) : list (pystr * pystr) :=
  match e with Element _ a _ _ => a end.
Definition text (e : element) : option pystr :=
  match e with Element _ _ t _ => t end.
Definition children (e : element) : list element :=
  match e with Element _ _ _ c => c end.

(** [bool(e)]: an element is true when it has children. *)
Definition truthy (e : element) : bool :=
  match children e with
  | [] => false
  | _ :: _ => true
  end.

(** [e.get(key, default)]. *)
Fixpoint attrib_lookup (key : pystr) (a : list (pystr * pystr))
  : option pystr :=
  match a with
  | [] => None
  | (k, v) :: rest => if PyStr.eqb key k then Some v else attrib_lookup key rest
  end.

Definition get (e : element) (key default : pystr) : pystr :=
  match attrib_lookup key (attrib e) with
  | Some v => v
  | None => default
  end.

(** [list(e.iter())]: the element and its descendants in document
    order. *)
Fixpoint iter (e : element) : list element :=
  match e with
  | Element _ _ _ c =>
      e :: (fix iter_all (l : list element) : list element :=
              match l with
              | [] => []
              | x :: rest => iter x ++ iter_all rest
              end) c
  end.

(** The steps of a path: the children with a tag, or ("//") the proper
    descendants with a tag. *)
Inductive step :=
| Child (t : pystr)
| Descendant (t : pystr).

(** The selectors [ElementPath] builds for a path made of ".", "//" and
    tags, which the paths of the repository are: between two "/" a "."
    selects the element itself, an empty part opens "//tag", and a tag
    selects children. *)
Fixpoint steps (parts : list pystr) : list step :=
  match parts with
  | [] => []
  | part :: rest =>
      if PyStr.eqb part (py ".") then steps rest
      else if PyStr.eqb part [] then
        match rest with
        | [] => []
        | t :: rest' => Descendant t :: steps rest'
        end
      else Child part :: steps rest
  end.

Definition path (p : string) : list step := steps (split (py "/") (py p)).

Definition has_tag (t : pystr) (e : element) : bool := PyStr.eqb (tag e) t.

Definition select (s : step) (result : list element) : list element :=
  match s with
  | Child t => flat_map (fun e => filter (has_tag t) (children e)) result
  | Descendant t => flat_map (fun e => filter (has_tag t) (tl (iter e))) result
  end.

(** [e.findall(path)] and [e.find(path)]. *)
Definition findall (p : list step) (e : element) : list element :=
  fold_left (fun result s => select s result) p [e].

Definition find (p : list step) (e : element) : option element :=
  hd_error (findall p e).

End ElementTree.

(* ================================================================== *)
(** ** src/tools/pubmed_tool.py *)
(* ================================================================== *)

Module PubMedSearchTool.

(** The closed list of categories the prompt of the literature agent
    quotes. *)
Definition RESEARCH_METHOD_TYPES : list pystr :=
  [ py "横断面研究"; py "队列研究"; py "病例报告"; py "RCT研究";
    py "病例对照研究"; py "综述"; py "其他研究" ].

(** [__init__]: the address it stores in [Entrez.email] and the
    [max_papers] the tool ends with.  [base_init max_papers] is
    [super().__init__(max_papers=max_papers)], the constructor of the
    LangChain tool, which validates the value: it is the value stored in
    [self.max_papers], or the exception the constructor raises. *)
Definition __init__ (base_init : pyval -> result pyval) (config : pyval)
  : result (pyval * pyval) :=
  email <- getitem config (py "entrez_email") ;;
  agent <- get config (py "agent") (PDict []) ;;
  literature <- get agent (py "literature") (PDict []) ;;
  max_papers <- get literature (py "max_papers") (PInt 10) ;;
  stored_max_papers <- base_init max_papers ;;
  Ok (email, stored_max_papers).

Section Tool.

(** [self.max_papers], read from the configuration. *)
Variable max_papers : Z.

(** The Entrez client and the XML reader, which the repository calls
    but does not define: [esearch term retmax] is the [IdList] of
    [Entrez.read(Entrez.esearch(...))], [efetch ids] the text read from
    [Entrez.efetch(id=ids, ...)], and [parse_articles xml] the list of
    paper records that [ET.fromstring] and the loop over the articles
    build.  Each of them may raise. *)
Variable esearch : pystr -> Z -> result (list pystr).
Variable efetch : pystr -> result pystr.
Variable parse_articles : pystr -> result (list pyval).

(** The element of index [i] of the list in the [except] branch. *)
Definition mock_paper (i : nat) : pyval :=
  PDict
    [ (py "title", PStr (py "模拟论文" ++ str_of_nat i));
      (py "publish_date", PStr (py "2024-01-01"));
      (py "journal_name", PStr (py "模拟期刊"));
      (py "methods_original",
       PStr (py "随机对照试验（RCT）研究，选取100例患者分为实验组和对照组"));
      (py "conclusion", PStr (py "模拟结论：该治疗方案有效"));
      (py "authors", PList [PStr (py "Author A")]) ].

Definition mock_papers : list pyval := map mock_paper (seq 0 10).

(** The body of the [try]. *)
Definition search (keywords : pystr) : result pyval :=
  id_list <- esearch keywords max_papers ;;
  xml_data <- efetch (join (py ",") id_list) ;;
  papers <- parse_articles xml_data ;;
  Ok (PDict
        [ (py "status", PStr (py "success"));
          (py "message",
           PStr (py "成功检索到" ++ str_of_nat (length papers) ++ py "篇论文"));
          (py "data", PList papers) ]).

Definition _run (keywords : pystr) : pyval :=
  match search keywords with
  | Ok envelope => envelope
  | Raise e =>
      PDict
        [ (py "status", PStr (py "error"));
          (py "message",
           PStr (py "PubMed检索失败：" ++ str_exn e ++ py "，使用模拟数据"));
          (py "data", PList mock_papers) ]
  end.

End Tool.

Section Extraction.

Import ElementTree.

Variable unicode_upper : char -> pystr.

(** [ET.fromstring]. *)
Variable fromstring : pystr -> result element.

(** [sep.join(parts)] on a list whose items may be [None]. *)
Fixpoint str_items (i : nat) (parts : list (option pystr))
  : result (list pystr) :=
  match parts with
  | [] => Ok []
  | Some t :: rest =>
      items <- str_items (S i) rest ;;
      Ok (t :: items)
  | None :: _ =>
      Raise (TypeError (py "sequence item " ++ str_of_nat i
                          ++ py ": expected str instance, NoneType found"))
  end.

Definition join_items (sep : pystr) (parts : list (option pystr))
  : result pystr :=
  items <- str_items 0 parts ;;
  Ok (join sep items).

(** [parts.append(e.text)] when [e is not None]. *)
Definition text_if_found (e : option element) : list (option pystr) :=
  match e with
  | Some x => [text x]
  | None => []
  end.

Definition _extract_publish_date (article : element) : result pystr :=
  let pub_date := find (path ".//Journal/JournalIssue/PubDate") article in
  let pub_date :=
    match pub_date with
    | Some d => if truthy d then pub_date
                else find (path ".//ArticleDate") article
    | None => find (path ".//ArticleDate") article
    end in
  match pub_date with
  | Some d =>
      if truthy d then
        let year := find (path "Year") d in
        let month := find (path "Month") d in
        let day := find (path "Day") d in
        let parts := text_if_found year ++ text_if_found month
                       ++ text_if_found day in
        match parts with
        | [] => Ok (py "未知")
        | _ :: _ => join_items (py "-") parts
        end
      else Ok (py "未知")
  | None => Ok (py "未知")
  end.

Definition _extract_journal_name (article : element) : pyval :=
  match find (path ".//Journal/Title") article with
  | Some journal =>
      match text journal with
      | Some t => PStr t
      | None => PNone
      end
  | None => PStr (py "未知")
  end.

(** [e.text] as a condition: neither [None] nor empty. *)
Definition has_text (e : element) : bool :=
  match text e with
  | Some (_ :: _) => true
  | _ => false
  end.

(** [section.text.strip() if section.text else ""]. *)
Definition section_text (section : element) : pystr :=
  match text section with
  | Some ((_ :: _) as t) => strip t
  | _ => []
  end.

(** One round of the loop over the abstract's sections. *)
Definition record_section (abstract_sections : pydict) (section : element)
  : pydict :=
  let label := upper unicode_upper (get section (py "Label") []) in
  let text := section_text section in
  if PyStr.eqb label (py "METHODS")
  then Json.dict_set (py "methods") (PStr text) abstract_sections
  else if PyStr.eqb label (py "CONCLUSION")
  then Json.dict_set (py "conclusion") (PStr text) abstract_sections
  else abstract_sections.

(** [not abstract_sections.get(key)]. *)
Definition missing_or_empty (key : pystr) (abstract_sections : pydict)
  : bool :=
  match dict_lookup key abstract_sections with
  | Some v => negb (PyVal.truthy v)
  | None => true
  end.

Definition _extract_abstract_sections (article : element) : pydict :=
  let abstract_texts := findall (path ".//Abstract/AbstractText") article in
  let abstract_sections := fold_left record_section abstract_texts [] in
  let abstract_sections :=
    if missing_or_empty (py "methods") abstract_sections then
      let full_abstract :=
        join (py " ") (map section_text (filter has_text abstract_texts)) in
      Json.dict_set (py "methods")
        (PStr (match full_abstract with
               | [] => py "未提及"
               | _ :: _ => full_abstract
               end))
        abstract_sections
    else abstract_sections in
  if missing_or_empty (py "conclusion") abstract_sections
  then Json.dict_set (py "conclusion") (PStr (py "未提及")) abstract_sections
  else abstract_sections.

(** [f"{v}"] of a text that may be [None]. *)
Definition format_text (t : option pystr) : pystr :=
  match t with
  | Some s => s
  | None => py "None"
  end.

Definition none_has_no (attr : string) : exn :=
  AttributeError
    (py "'NoneType' object has no attribute '" ++ py attr ++ py "'").

(** One item of the list of authors, for an author with a [LastName]. *)
Definition author_name (author : element) : result pystr :=
  match find (path "LastName") author with
  | None => Raise (none_has_no "text")
  | Some last_name =>
      match find (path "Initials") author with
      | None => Raise (none_has_no "text")
      | Some initials =>
          Ok (format_text (text last_name) ++ py " "
                ++ format_text (text initials))
      end
  end.

(** [[f(x) for x in l]] when [f] may raise. *)
Fixpoint comprehension {A B} (f : A -> result B) (l : list A)
  : result (list B) :=
  match l with
  | [] => Ok []
  | x :: rest =>
      y <- f x ;;
      ys <- comprehension f rest ;;
      Ok (y :: ys)
  end.

Definition has_last_name (author : element) : bool :=
  match find (path "LastName") author with
  | Some _ => true
  | None => false
  end.

(** The record built for one article, in the order the dict display
    evaluates its values. *)
Definition paper (article : element) : result pyval :=
  let abstract_info := PDict (_extract_abstract_sections article) in
  title <-
    match find (path "ArticleTitle") article with
    | Some _ =>
        match find (path "ArticleTitle") article with
        | Some t =>
            match text t with
            | Some s => Ok (strip s)
            | None => Raise (none_has_no "strip")
            end
        | None => Raise (none_has_no "text")
        end
    | None => Ok (py "未知标题")
    end ;;
  publish_date <- _extract_publish_date article ;;
  let journal_name := _extract_journal_name article in
  methods <- getitem abstract_info (py "methods") ;;
  conclusion <- getitem abstract_info (py "conclusion") ;;
  authors <- comprehension author_name
               (filter has_last_name
                  (findall (path "AuthorList/Author") article)) ;;
  Ok (PDict
        [ (py "title", PStr title);
          (py "publish_date", PStr publish_date);
          (py "journal_name", journal_name);
          (py "methods_original", methods);
          (py "conclusion", conclusion);
          (py "authors",
           PList (match authors with
                  | [] => [PStr (py "未知作者")]
                  | _ :: _ => map PStr authors
                  end)) ]).

(** The loop of [_run] over the articles of the parsed document. *)
Definition papers (root : element) : result (list pyval) :=
  comprehension paper
    (findall (path ".//PubmedArticle/MedlineCitation/Article") root).

(** What [_run] does with the text it fetched. *)
Definition read_articles (xml_data : pystr) : result (list pyval) :=
  root <- fromstring xml_data ;;
  papers root.

End Extraction.

End PubMedSearchTool.

(* ================================================================== *)
(** ** src/tools/data_process_tool.py *)
(* ================================================================== *)

Module DataProcessTool.

(** [__init__]: the two settings it reads, and the directory it creates.
    [base_init config plot_format save_path] is
    [super().__init__(config=config, plot_format=plot_format,
    save_path=save_path)], the constructor of the LangChain tool, which
    validates its fields: it is the pair stored in [self.plot_format] and
    [self.save_path], or the exception the constructor raises.
    [makedirs path] is [os.makedirs(path, exist_ok=True)]. *)
Definition __init__
           (base_init : pyval -> pyval -> pyval -> result (pyval * pyval))
           (makedirs : pyval -> result unit) (config : pyval)
  : result (pyval * pyval) :=
  agent <- getitem config (py "agent") ;;
  data <- getitem agent (py "data") ;;
  plot_format <- getitem data (py "plot_format") ;;
  agent2 <- getitem config (py "agent") ;;
  data2 <- getitem agent2 (py "data") ;;
  save_path <- getitem data2 (py "save_path") ;;
  stored <- base_init config plot_format save_path ;;
  _ <- makedirs (snd stored) ;;
  Ok stored.

Section Tool.

Variable unicode_isdigit : char -> bool.

Definition unknown : pystr := py "未知".

(** The body of the [try] of [_parse_publish_year].  On a value that is
    not a [str] either the membership test or the method call that
    follows it raises. *)
Definition parse_year (date_str : pyval) : result pystr :=
  has_sep <- contains_str (py "-") date_str ;;
  match date_str with
  | PStr s =>
      if has_sep then Ok (hd [] (split (py "-") s))
      else if isdigit unicode_isdigit s && (length s =? 4) then Ok s
      else Ok unknown
  | _ =>
      Raise (no_attribute date_str
               (if has_sep then py "split" else py "isdigit"))
  end.

Definition _parse_publish_year (date_str : pyval) : pystr :=
  if negb (truthy date_str) || eq_str date_str unknown then unknown
  else
    match parse_year date_str with
    | Ok year => year
    | Raise _ => unknown
    end.

End Tool.

End DataProcessTool.

(* ================================================================== *)
(** ** The clean-up of a completion *)
(* ================================================================== *)

(** Every place that decodes a completion repeats the same lines:
    [text = text.strip()], then, if it starts with three back-quotes,
    [text = text.split(fence)[1].replace("json", "").strip()]. *)
Definition fence : pystr := py "```".

Definition unwrap_fence (text : pystr) : pystr :=
  if startswith fence text
  then strip (replace (py "json") [] (nth 1 (split fence text) []))
  else text.

Definition strip_markdown (text : pystr) : pystr := unwrap_fence (strip text).

(* ================================================================== *)
(** ** src/agents/literature_agent.py *)
(* ================================================================== *)

Module LiteratureAgent.

(** A call of the constructor of a client: its class and its keyword
    arguments.  It also names the client the call returns. *)
Inductive llm_client :=
| ChatOpenAI (kwargs : pydict)
| ChatZhipuAI (kwargs : pydict)
| OpenAI (kwargs : pydict).

(** The [float] 0.1. *)
Definition one_tenth : pyfloat := FFin false 7205759403792794 (-56).

(** [_init_llm].  [format_value v] is the text an f-string prints for
    [v].  [construct call] is the outcome of the constructor call, made
    by LangChain or the OpenAI library: the classes validate their
    arguments, so the call returns or raises.  The [ValueError] of an
    unsupported type is the [Exception] with its text. *)
Definition _init_llm (format_value : pyval -> pystr)
           (construct : llm_client -> result unit) (config : pyval)
  : result llm_client :=
  llm_config <- getitem config (py "llm") ;;
  kind <- getitem llm_config (py "type") ;;
  if eq_str kind (py "tongyi") then
    tongyi <- getitem llm_config (py "tongyi") ;;
    model_name <- getitem tongyi (py "model_name") ;;
    tongyi2 <- getitem llm_config (py "tongyi") ;;
    api_key <- getitem tongyi2 (py "api_key") ;;
    tongyi3 <- getitem llm_config (py "tongyi") ;;
    base_url <- getitem tongyi3 (py "base_url") ;;
    let client := ChatOpenAI [ (py "model", model_name);
                               (py "api_key", api_key);
                               (py "base_url", base_url);
                               (py "temperature", PFloat one_tenth) ] in
    _ <- construct client ;;
    Ok client
  else
    kind2 <- getitem llm_config (py "type") ;;
    if eq_str kind2 (py "zhipu") then
      zhipu <- getitem llm_config (py "zhipu") ;;
      api_key <- getitem zhipu (py "api_key") ;;
      zhipu2 <- getitem llm_config (py "zhipu") ;;
      model <- getitem zhipu2 (py "model") ;;
      let client := ChatZhipuAI [ (py "api_key", api_key);
                                  (py "model", model);
                                  (py "temperature", PInt 0) ] in
      _ <- construct client ;;
      Ok client
    else
      kind3 <- getitem llm_config (py "type") ;;
      if eq_str kind3 (py "chatglm") then
        chatglm <- getitem llm_config (py "chatglm") ;;
        api_base <- getitem chatglm (py "api_base") ;;
        chatglm2 <- getitem llm_config (py "chatglm") ;;
        api_key <- getitem chatglm2 (py "api_key") ;;
        chatglm3 <- getitem llm_config (py "chatglm") ;;
        model <- getitem chatglm3 (py "model") ;;
        let client := OpenAI [ (py "openai_api_base", api_base);
                               (py "openai_api_key", api_key);
                               (py "model_name", model);
                               (py "temperature", PInt 0) ] in
        _ <- construct client ;;
        Ok client
      else
        kind4 <- getitem llm_config (py "type") ;;
        Raise (Exception (py "不支持的LLM类型：" ++ format_value kind4)).

(** [__init__]: the client, and the address and [max_papers] of the
    search tool.  [_init_agent llm max_papers] is the call
    [self._init_agent()], which quotes [self.tool.max_papers] in its
    prompt and builds the agent and its executor with LangChain: it
    returns or raises. *)
Definition __init__ (format_value : pyval -> pystr)
           (construct : llm_client -> result unit)
           (base_init : pyval -> result pyval)
           (_init_agent : llm_client -> pyval -> result unit)
           (config : pyval) : result (llm_client * (pyval * pyval)) :=
  llm <- _init_llm format_value construct config ;;
  tool <- PubMedSearchTool.__init__ base_init config ;;
  _ <- _init_agent llm (snd tool) ;;
  Ok (llm, tool).

Section Classification.

Variable unicode_lower : pystr -> nat -> pystr.

(** [any(keyword in text for keyword in keywords)]. *)
Definition any_keyword (keywords : list pystr) (text : pystr) : bool :=
  existsb (fun keyword => contains keyword text) keywords.

Definition rct_keywords : list pystr :=
  [py "rct"; py "randomized controlled trial"; py "随机对照试验"].
Definition cohort_keywords : list pystr :=
  [py "cohort"; py "队列"; py "前瞻性"; py "回顾性队列"].
Definition case_control_keywords : list pystr :=
  [py "case-control"; py "病例对照"].
Definition cross_sectional_keywords : list pystr :=
  [py "cross-sectional"; py "横断面"; py "现况调查"].
Definition case_report_keywords : list pystr :=
  [py "case report"; py "病例报告"; py "个案报告"].

Definition RCT : pystr := py "RCT研究".
Definition cohort : pystr := py "队列研究".
Definition case_control : pystr := py "病例对照研究".
Definition cross_sectional : pystr := py "横断面研究".
Definition case_report : pystr := py "病例报告".
Definition other : pystr := py "其他研究".

Definition _classify_research_method (method_text : pystr) : pystr :=
  let method_text_lower := lower unicode_lower method_text in
  if any_keyword rct_keywords method_text_lower then RCT
  else if any_keyword cohort_keywords method_text_lower then cohort
  else if any_keyword case_control_keywords method_text_lower
       then case_control
  else if any_keyword cross_sectional_keywords method_text_lower
       then cross_sectional
  else if any_keyword case_report_keywords method_text_lower
       then case_report
  else other.

End Classification.

Section Agent.

(** [json.loads]. *)
Variable json_loads : pystr -> result pyval.

(** [self.agent_executor.invoke({"input": text})["output"]]: the text
    the completion function ends on, or the exception the call raises. *)
Variable agent_executor_invoke : pystr -> result pystr.

Definition error_envelope (message : pystr) : pyval :=
  PDict [ (py "status", PStr (py "error"));
          (py "message", PStr message);
          (py "data", PList []) ].

Definition unbound_result : exn :=
  UnboundLocalError
    (py "cannot access local variable 'result' where it is not associated with a value").

(** [run].  The first handler reads [result['output']]: when it is the
    call of the completion function that raised a [JSONDecodeError],
    [result] is not bound yet and the handler itself raises. *)
Definition run (keywords : pystr) : result pyval :=
  match agent_executor_invoke
          (py "检索关键词为：" ++ keywords
             ++ py "，严格按照要求返回结构化JSON结果") with
  | Raise e =>
      if is_JSONDecodeError e then Raise unbound_result
      else Ok (error_envelope (py "Agent执行失败：" ++ str_exn e))
  | Ok output =>
      match json_loads (strip_markdown output) with
      | Ok structured_result => Ok structured_result
      | Raise e =>
          if is_JSONDecodeError e
          then Ok (error_envelope
                     (py "结果解析失败：" ++ str_exn e ++ py "，原始输出："
                        ++ output))
          else Ok (error_envelope (py "Agent执行失败：" ++ str_exn e))
      end
  end.

End Agent.

End LiteratureAgent.

(* ================================================================== *)
(** ** src/agents/data_agent.py *)
(* ================================================================== *)

Module DataAgent.

(** [__init__]: the plot format and directory of the tool it builds.
    [_init_agent llm] is the call [self._init_agent()], which builds the
    agent and its executor with LangChain: it returns or raises. *)
Definition __init__
           (base_init : pyval -> pyval -> pyval -> result (pyval * pyval))
           (makedirs : pyval -> result unit)
           (_init_agent : LiteratureAgent.llm_client -> result unit)
           (config : pyval) (llm : LiteratureAgent.llm_client)
  : result (pyval * pyval) :=
  tool <- DataProcessTool.__init__ base_init makedirs config ;;
  _ <- _init_agent llm ;;
  Ok tool.

Section Agent.

Variable json_loads : pystr -> result pyval.

(** [json.dumps(value, ensure_ascii=False)]. *)
Variable json_dumps : pyval -> pystr.

Variable agent_executor_invoke : pystr -> result pystr.

Definition error_envelope (message : pystr) : pyval :=
  PDict [ (py "status", PStr (py "error"));
          (py "message", PStr message);
          (py "statistic", PDict []);
          (py "plot_paths", PList []) ].

(** The body of the [try]. *)
Definition process (papers_data : pyval) : result pyval :=
  input_str <-
    match papers_data with
    | PDict _ => Ok (json_dumps papers_data)
    | _ =>
        text <- strip_method papers_data ;;
        let input_str := unwrap_fence text in
        _ <- json_loads input_str ;;
        Ok input_str
    end ;;
  output <- agent_executor_invoke
              (py "处理以下论文数据：" ++ input_str
                 ++ py "，分析类型为all，生成完整的统计结果和可视化图表") ;;
  json_loads (strip_markdown output).

Definition run (papers_data : pyval) : pyval :=
  match process papers_data with
  | Ok structured_result => structured_result
  | Raise e =>
      if is_JSONDecodeError e
      then error_envelope
             (py "输入数据格式错误（非有效JSON）：" ++ str_exn e)
      else error_envelope (py "数据Agent执行失败：" ++ str_exn e)
  end.

End Agent.

End DataAgent.

(* ================================================================== *)
(** ** src/agents/report_agent.py *)
(* ================================================================== *)

Module ReportAgent.

(** What [datetime.now()] returns, down to the second. *)
Record datetime := {
  year : nat;
  month : nat;
  day : nat;
  hour : nat;
  minute : nat;
  second : nat
}.

(** The year is printed on four digits, the other fields on two. *)
Definition valid_datetime (t : datetime) : Prop :=
  year t < 100 * 100 /\ month t < 100 /\ day t < 100
  /\ hour t < 100 /\ minute t < 100 /\ second t < 100.

(** [t.strftime("%Y%m%d_%H%M%S")]. *)
Definition strftime (t : datetime) : pystr :=
  zero_pad 4 (year t) ++ zero_pad 2 (month t) ++ zero_pad 2 (day t)
    ++ py "_"
    ++ zero_pad 2 (hour t) ++ zero_pad 2 (minute t) ++ zero_pad 2 (second t).

(** [os.path.join(a, b)] of [posixpath]. *)
Definition path_join (a b : pystr) : pystr :=
  if startswith (py "/") b then b
  else if PyStr.eqb a [] || startswith (py "/") (rev a) then a ++ b
  else a ++ py "/" ++ b.

(** [keywords.replace(" ", "_").replace("/", "_").replace("\\", "_")[:20]]. *)
Definition safe_keywords (keywords : pystr) : pystr :=
  slice_to 20
    (replace (py "\") (py "_")
       (replace (py "/") (py "_")
          (replace (py " ") (py "_") keywords))).

Definition report_filename (keywords : pystr) (timestamp : pystr) : pystr :=
  py "research_report_" ++ safe_keywords keywords ++ py "_" ++ timestamp
    ++ py ".md".

(** [__init__]: the directory it reads from the configuration and
    creates.  [_init_chain llm] is the call [self._init_chain()], which
    builds the prompt and the chain with LangChain before the
    configuration is read: it returns or raises. *)
Definition __init__ (_init_chain : LiteratureAgent.llm_client -> result unit)
           (makedirs : pyval -> result unit) (config : pyval)
           (llm : LiteratureAgent.llm_client) : result pyval :=
  _ <- _init_chain llm ;;
  agent <- getitem config (py "agent") ;;
  report <- getitem agent (py "report") ;;
  save_path <- getitem report (py "save_path") ;;
  _ <- makedirs save_path ;;
  Ok save_path.

Section Agent.

Variable json_loads : pystr -> result pyval.

(** [json.dumps(value, ensure_ascii=False, indent=2)]. *)
Variable json_dumps_indent : pyval -> pystr.

(** [self.chain.run({...})] on the keywords and the two serialized
    inputs: the report the completion function writes. *)
Variable chain_run : pystr -> pystr -> pystr -> result pystr.

(** [config["agent"]["report"]["save_path"]]. *)
Variable save_path : pystr.

(** [datetime.now()] at the time of the call. *)
Variable now : datetime.

(** [open(path, "w").write(content)]. *)
Variable write_file : pystr -> pystr -> result unit.

Definition _parse_input_data (data : pyval) : result pyval :=
  match data with
  | PDict _ => Ok data
  | _ =>
      match (clean_data <- strip_method data ;;
             json_loads (unwrap_fence clean_data)) with
      | Ok parsed => Ok parsed
      | Raise e =>
          if is_JSONDecodeError e || is_TypeError e then Ok (PDict [])
          else Raise e
      end
  end.

Definition report_path (keywords : pystr) : pystr :=
  path_join save_path (report_filename keywords (strftime now)).

(** The body of the [try]. *)
Definition generate (keywords : pystr)
           (literature_data data_process_data : pyval) : result pyval :=
  lit_data <- _parse_input_data literature_data ;;
  data_data <- _parse_input_data data_process_data ;;
  report_content <- chain_run keywords (json_dumps_indent lit_data)
                              (json_dumps_indent data_data) ;;
  let timestamp := strftime now in
  let path := report_path keywords in
  _ <- write_file path report_content ;;
  statistic <- get data_data (py "statistic") (PDict []) ;;
  total_papers <- get statistic (py "total_papers") (PInt 0) ;;
  plot_paths <- get data_data (py "plot_paths") (PList []) ;;
  plot_count <- len plot_paths ;;
  Ok (PDict
        [ (py "status", PStr (py "success"));
          (py "message", PStr (py "报告生成成功，已保存至：" ++ path));
          (py "report_content", PStr report_content);
          (py "report_path", PStr path);
          (py "metadata",
           PDict [ (py "keywords", PStr keywords);
                   (py "generate_time", PStr timestamp);
                   (py "total_papers", total_papers);
                   (py "plot_count", PInt (Z.of_nat plot_count)) ]) ]).

Definition run (keywords : pystr)
           (literature_data data_process_data : pyval) : pyval :=
  match generate keywords literature_data data_process_data with
  | Ok envelope => envelope
  | Raise e =>
      PDict [ (py "status", PStr (py "error"));
              (py "message", PStr (py "报告生成失败：" ++ str_exn e));
              (py "report_content", PStr []);
              (py "report_path", PStr []);
              (py "metadata", PDict []) ]
  end.

End Agent.

End ReportAgent.

(* ================================================================== *)
(** ** src/chains/router_chain.py *)
(* ================================================================== *)

Module ResearchRouterChain.

Inductive stage := Literature | Data | Report.

(** A computation of [run]: it may raise, and it records which stages it
    has invoked, in order. *)
Definition M (A : Type) : Type := list stage -> result A * list stage.

Definition ret {A} (a : A) : M A := fun log => (Ok a, log).

Definition lift {A} (r : result A) : M A := fun log => (r, log).

Definition bindM {A B} (m : M A) (k : A -> M B) : M B :=
  fun log =>
    match m log with
    | (Ok a, log') => k a log'
    | (Raise e, log') => (Raise e, log')
    end.

(** The call of a stage, whose outcome is [r]. *)
Definition invoke {A} (s : stage) (r : result A) : M A :=
  fun log => (r, log ++ [s]).

Notation "x <~ c ;; k" := (bindM c (fun x => k))
  (at level 61, c at next level, right associativity).

Definition unknown_method : pystr := py "未知".

(** What [__init__] settles when it builds the three agents. *)
Record settings := {
  llm : LiteratureAgent.llm_client;
  entrez_email : pyval;
  max_papers : pyval;
  plot_format : pyval;
  plot_dir : pyval;
  report_dir : pyval
}.

Section Construction.

(** The calls the constructors make into LangChain, the client
    libraries and [os], each of which returns or raises, as the
    constructors of the agents and tools name them. *)
Variable format_value : pyval -> pystr.
Variable construct : LiteratureAgent.llm_client -> result unit.
Variable pubmed_base_init : pyval -> result pyval.
Variable literature_init_agent :
  LiteratureAgent.llm_client -> pyval -> result unit.
Variable data_base_init : pyval -> pyval -> pyval -> result (pyval * pyval).
Variable data_init_agent : LiteratureAgent.llm_client -> result unit.
Variable report_init_chain : LiteratureAgent.llm_client -> result unit.
Variable makedirs : pyval -> result unit.

(** [__init__]: the three agents in the order it builds them, the data
    and report agents with the client of the literature agent. *)
Definition __init__ (config : pyval) : result settings :=
  literature_agent <-
    LiteratureAgent.__init__ format_value construct pubmed_base_init
      literature_init_agent config ;;
  data_tool <-
    DataAgent.__init__ data_base_init makedirs data_init_agent config
      (fst literature_agent) ;;
  reports <-
    ReportAgent.__init__ report_init_chain makedirs config
      (fst literature_agent) ;;
  Ok {| llm := fst literature_agent;
        entrez_email := fst (snd literature_agent);
        max_papers := snd (snd literature_agent);
        plot_format := fst data_tool;
        plot_dir := snd data_tool;
        report_dir := reports |}.

End Construction.

Section Chain.

(** The three stages, as [__init__] builds them. *)
Variable literature_agent_run : pystr -> result pyval.
Variable data_agent_run : pyval -> result pyval.
Variable report_agent_run : pystr -> pyval -> pyval -> result pyval.

Variable list_gt : list pyval -> list pyval -> result bool.

(** [status not in ["success", "warning"]]. *)
Definition not_success_or_warning (status : pyval) : bool :=
  negb (existsb (eq_str status) [py "success"; py "warning"]).

(** [max(dist, key=lambda k: dist[k], default="未知")], where [dist] is
    the object [data_result["statistic"]["methods_classified_distribution"]]
    that the key function reads again.  A [dict] yields its keys, a
    [list] its elements, a [str] its characters; any other value is not
    iterable. *)
Definition main_research_method (dist : pyval) : result pyval :=
  match dist with
  | PDict d =>
      k <- max_by list_gt (fun k => getitem dist k) (map fst d)
             unknown_method ;;
      Ok (PStr k)
  | PList l =>
      max_by list_gt (fun i => list_getitem l i) l (PStr unknown_method)
  | PStr s =>
      c <- max_by list_gt (fun c => getitem dist c)
             (map (fun c => [c]) s) unknown_method ;;
      Ok (PStr c)
  | _ => Raise (TypeError (py "'" ++ type_name dist
                             ++ py "' object is not iterable"))
  end.

Definition failed (stage_name : pystr) (message : pyval)
           (results : pydict) : pyval :=
  PDict [ (py "chain_status", PStr (py "failed"));
          (py "stage", PStr stage_name);
          (py "message", message);
          (py "results", PDict results) ].

(** The dict built after the third stage, and the arguments of the
    closing [print]. *)
Definition final_result (keywords : pystr)
           (lit_result data_result report_result : pyval) : result pyval :=
  report_status <- getitem report_result (py "status") ;;
  let success := eq_str report_status (py "success") in
  statistic <- getitem data_result (py "statistic") ;;
  total_papers <- get statistic (py "total_papers") (PInt 0) ;;
  dist <- get statistic (py "methods_classified_distribution") (PDict []) ;;
  main_method <- main_research_method dist ;;
  report_path <- getitem report_result (py "report_path") ;;
  plot_paths <- getitem data_result (py "plot_paths") ;;
  _ <- len plot_paths ;;
  Ok (PDict
        [ (py "chain_status",
           PStr (if success then py "success" else py "failed"));
          (py "stage",
           PStr (if negb success then py "report_agent" else py "completed"));
          (py "message", PStr (py "完整Agent链执行完成，报告已生成"));
          (py "results",
           PDict [ (py "literature_result", lit_result);
                   (py "data_result", data_result);
                   (py "report_result", report_result) ]);
          (py "summary",
           PDict [ (py "keywords", PStr keywords);
                   (py "total_papers", total_papers);
                   (py "main_research_method", main_method);
                   (py "report_path", report_path);
                   (py "plot_paths", plot_paths) ]) ]).

(** The body of the [try] of [run]. *)
Definition pipeline (keywords : pystr) : M pyval :=
  lit_result <~ invoke Literature (literature_agent_run keywords) ;;
  lit_status <~ lift (getitem lit_result (py "status")) ;;
  if not_success_or_warning lit_status then
    message <~ lift (getitem lit_result (py "message")) ;;
    ret (failed (py "literature_agent") message [])
  else
    data_result <~ invoke Data (data_agent_run lit_result) ;;
    data_status <~ lift (getitem data_result (py "status")) ;;
    if negb (eq_str data_status (py "success")) then
      message <~ lift (getitem data_result (py "message")) ;;
      ret (failed (py "data_agent") message
             [ (py "literature_result", lit_result);
               (py "data_result", data_result) ])
    else
      report_result <~ invoke Report
                         (report_agent_run keywords lit_result data_result) ;;
      lift (final_result keywords lit_result data_result report_result).

(** The dict the [except] branch of [run] returns. *)
Definition crashed (e : exn) : pyval :=
  failed (py "full_chain") (PStr (py "Agent链执行失败：" ++ str_exn e)) [].

(** [run]: the result it returns, and the stages it has invoked. *)
Definition run (keywords : pystr) : pyval * list stage :=
  match pipeline keywords [] with
  | (Ok result, log) => (result, log)
  | (Raise e, log) => (crashed e, log)
  end.

End Chain.

End ResearchRouterChain.

(* ================================================================== *)
(** ** src/app.py *)
(* ================================================================== *)

Module App.

Section Endpoint.

(** [request.get_json()]. *)
Variable get_json : result pyval.

(** [ResearchRouterChain(config).run(keywords)]. *)
Variable chain : pyval -> pystr -> result pyval.

Definition rejected (stage_name message : string) : pyval :=
  PDict [ (py "chain_status", PStr (py "failed"));
          (py "stage", PStr (py stage_name));
          (py "message", PStr (py message)) ].

(** [isinstance(v, int)]: [bool] is a subclass of [int]. *)
Definition as_int (v : pyval) : option Z :=
  match v with
  | PInt z => Some z
  | PBool b => Some (if b then 1 else 0)%Z
  | _ => None
  end.

(** [not isinstance(max_papers, int) or max_papers < 1]. *)
Definition bad_max_papers (max_papers : pyval) : bool :=
  match as_int max_papers with
  | Some z => (z <? 1)%Z
  | None => true
  end.

(** The dict assigned to [config]. *)
Definition build_config (llm_config agent_config pubmed_config : pyval)
  : result pyval :=
  model_name <- getitem llm_config (py "model_name") ;;
  api_key <- getitem llm_config (py "api_key") ;;
  base_url <- getitem llm_config (py "base_url") ;;
  max_papers <- getitem agent_config (py "max_papers") ;;
  email <- getitem pubmed_config (py "email") ;;
  Ok (PDict
        [ (py "llm",
           PDict [ (py "type", PStr (py "tongyi"));
                   (py "tongyi",
                    PDict [ (py "model_name", model_name);
                            (py "api_key", api_key);
                            (py "base_url", base_url) ]) ]);
          (py "agent",
           PDict [ (py "literature", PDict [ (py "max_papers", max_papers) ]);
                   (py "data",
                    PDict [ (py "plot_format", PStr (py "png"));
                            (py "save_path", PStr (py "./plots")) ]);
                   (py "report",
                    PDict [ (py "save_path", PStr (py "./reports")) ]) ]);
          (py "entrez_email", email) ]).

(** The body of the [try] of [research]. *)
Definition handle : result pyval :=
  request_data <- get_json ;;
  if negb (truthy request_data)
  then Ok (rejected "request" "请求参数为空，请检查输入")
  else
    raw_keywords <- get request_data (py "keywords") (PStr []) ;;
    keywords <- strip_method raw_keywords ;;
    llm_config <- get request_data (py "llm_config") (PDict []) ;;
    agent_config <- get request_data (py "agent_config") (PDict []) ;;
    pubmed_config <- get request_data (py "pubmed_config") (PDict []) ;;
    if negb (truthy (PStr keywords))
    then Ok (rejected "params" "检索关键词不能为空")
    else
      api_key <- get llm_config (py "api_key") PNone ;;
      if negb (truthy api_key)
      then Ok (rejected "params" "LLM API Key不能为空")
      else
        base_url <- get llm_config (py "base_url") PNone ;;
        if negb (truthy base_url)
        then Ok (rejected "params" "LLM Base URL不能为空")
        else
          model_name <- get llm_config (py "model_name") PNone ;;
          if negb (truthy model_name)
          then Ok (rejected "params" "模型名称不能为空")
          else
            max_papers <- get agent_config (py "max_papers") (PInt 10) ;;
            if bad_max_papers max_papers
            then Ok (rejected "params" "检索数量必须是大于0的整数")
            else
              email <- get pubmed_config (py "email") PNone ;;
              bad_email <-
                (if negb (truthy email) then Ok true
                 else
                   email' <- getitem pubmed_config (py "email") ;;
                   has_at <- contains_str (py "@") email' ;;
                   Ok (negb has_at)) ;;
              if (bad_email : bool)
              then Ok (rejected "params" "请输入有效的PubMed邮箱")
              else
                config <- build_config llm_config agent_config
                            pubmed_config ;;
                chain config keywords.

Definition research : pyval :=
  match handle with
  | Ok response => response
  | Raise e =>
      PDict [ (py "chain_status", PStr (py "failed"));
              (py "stage", PStr (py "server"));
              (py "message", PStr (py "服务器处理失败：" ++ str_exn e)) ]
  end.

End Endpoint.

End App.

(* ================================================================== *)
(** ** src/callbacks/log_handler.py *)
(* ================================================================== *)

Module AgentLogHandler.

(** The two attributes of a handler; [start_time] is [None] until a
    chain starts. *)
Record handler := {
  logs : list pyval;
  start_time : option pyfloat
}.

Definition __init__ : handler := {| logs := []; start_time := None |}.

Section Handler.

(** [clock n] is what the call number [n] of [time.time()] returns, and
    [float_sub] the difference of two floats. *)
Variable clock : nat -> pyfloat.
Variable float_sub : pyfloat -> pyfloat -> pyfloat.

(** A handler together with the number of clock readings made so far. *)
Definition state : Type := handler * nat.

Definition append (entry : pyval) (self : handler) : handler :=
  {| logs := logs self ++ [entry]; start_time := start_time self |}.

Definition on_chain_start (serialized inputs : pyval) (st : state)
  : result unit * state :=
  let '(self, n) := st in
  let self := {| logs := logs self; start_time := Some (clock n) |} in
  match get serialized (py "name") (PStr (py "unknown")) with
  | Raise e => (Raise e, (self, S n))
  | Ok chain_name =>
      (Ok tt,
       (append (PDict [ (py "type", PStr (py "chain_start"));
                        (py "chain_name", chain_name);
                        (py "inputs", inputs);
                        (py "timestamp", PFloat (clock (S n))) ]) self,
        S (S n)))
  end.

Definition on_chain_end (outputs : pyval) (st : state)
  : result unit * state :=
  let '(self, n) := st in
  match start_time self with
  | None =>
      (Raise (TypeError
                (py "unsupported operand type(s) for -: 'float' and 'NoneType'")),
       (self, S n))
  | Some started =>
      let elapsed := float_sub (clock n) started in
      (Ok tt,
       (append (PDict [ (py "type", PStr (py "chain_end"));
                        (py "outputs", outputs);
                        (py "elapsed_time", PFloat elapsed);
                        (py "timestamp", PFloat (clock (S n))) ]) self,
        S (S n)))
  end.

Definition on_tool_start (serialized input_str : pyval) (st : state)
  : result unit * state :=
  let '(self, n) := st in
  match get serialized (py "name") (PStr (py "unknown")) with
  | Raise e => (Raise e, (self, n))
  | Ok tool_name =>
      (Ok tt,
       (append (PDict [ (py "type", PStr (py "tool_start"));
                        (py "tool_name", tool_name);
                        (py "input", input_str);
                        (py "timestamp", PFloat (clock n)) ]) self,
        S n))
  end.

Definition on_tool_end (output_str : pyval) (st : state)
  : result unit * state :=
  let '(self, n) := st in
  (Ok tt,
   (append (PDict [ (py "type", PStr (py "tool_end"));
                    (py "output", output_str);
                    (py "timestamp", PFloat (clock n)) ]) self,
    S n)).

Definition on_error (error : exn) (st : state) : result unit * state :=
  let '(self, n) := st in
  (Ok tt,
   (append (PDict [ (py "type", PStr (py "error"));
                    (py "error", PStr (str_exn error));
                    (py "timestamp", PFloat (clock n)) ]) self,
    S n)).

Definition get_logs (self : handler) : list pyval := logs self.

End Handler.

End AgentLogHandler.

(* ================================================================== *)
(** ** Notions the properties are stated with *)
(* ================================================================== *)

Definition ascii_upper (c : char) : char :=
  if ((97 <=? c) && (c <=? 122))%N then (c - 32)%N else c.

(** [recase mask t]: [t] with the letters that [mask] marks in upper
    case.  Every way of writing an all-lower-case [t] in mixed case is
    [recase mask t] for some [mask]. *)
Fixpoint recase (mask : list bool) (t : pystr) : pystr :=
  match t with
  | [] => []
  | c :: t' =>
      match mask with
      | true :: mask' => ascii_upper c :: recase mask' t'
      | false :: mask' => c :: recase mask' t'
      | [] => t
      end
  end.

(** The classification rule as the specification words it: the triggers
    of each category, in priority order, and the first category one of
    whose triggers occurs in the lower-cased text. *)
Definition priority_table : list (list pystr * pystr) :=
  [ (LiteratureAgent.rct_keywords, LiteratureAgent.RCT);
    (LiteratureAgent.cohort_keywords, LiteratureAgent.cohort);
    (LiteratureAgent.case_control_keywords, LiteratureAgent.case_control);
    (LiteratureAgent.cross_sectional_keywords, LiteratureAgent.cross_sectional);
    (LiteratureAgent.case_report_keywords, LiteratureAgent.case_report) ].

Definition known_triggers : list pystr := flat_map fst priority_table.

Fixpoint first_category (table : list (list pystr * pystr)) (lowered : pystr)
  : pystr :=
  match table with
  | [] => LiteratureAgent.other
  | (triggers, category) :: rest =>
      if LiteratureAgent.any_keyword triggers lowered then category
      else first_category rest lowered
  end.

(** A status on which the specification lets the pipeline go on. *)
Definition proceeds (status : pyval) : bool :=
  eq_str status (py "success") || eq_str status (py "warning").

(** A distribution mapping with integer counts, as a [dict]. *)
Definition distribution (d : list (pystr * Z)) : pydict :=
  map (fun kc => (fst kc, PInt (snd kc))) d.

(** [k] is the first key of [d] that carries the greatest count. *)
Definition first_maximum (d : list (pystr * Z)) (k : pystr) : Prop :=
  exists before c after,
    d = before ++ (k, c) :: after
    /\ (forall kc, In kc before -> (snd kc < c)%Z)
    /\ (forall kc, In kc after -> (snd kc <= c)%Z).

(** JSON text written with apostrophes standing for the double quotes. *)
Definition json_text (s : string) : pystr :=
  map (fun c => if (c =? 39)%N then 34%N else c) (py s).

(** What [run] returns once the third stage has been invoked, and what it
    returns when the message of a failing envelope is read. *)
Definition closing (list_gt : list pyval -> list pyval -> result bool)
           (keywords : pystr) (lit dat : pyval) (report : result pyval)
  : pyval :=
  match report with
  | Raise e => ResearchRouterChain.crashed e
  | Ok rep =>
      match ResearchRouterChain.final_result list_gt keywords lit dat rep with
      | Ok r => r
      | Raise e => ResearchRouterChain.crashed e
      end
  end.

Definition or_crashed (r : result pyval) (k : pyval -> pyval) : pyval :=
  match r with
  | Ok v => k v
  | Raise e => ResearchRouterChain.crashed e
  end.

(** The shape of a result of [run], with the stages it may come with. *)
Definition well_formed_result (result : pyval)
           (invoked : list ResearchRouterChain.stage) : Prop :=
  exists status stage_name message results,
    getitem result (py "chain_status") = Ok (PStr status)
    /\ getitem result (py "stage") = Ok (PStr stage_name)
    /\ getitem result (py "message") = Ok message
    /\ getitem result (py "results") = Ok (PDict results)
    /\ ((status = py "success" /\ stage_name = py "completed"
         /\ invoked = [ResearchRouterChain.Literature;
                       ResearchRouterChain.Data;
                       ResearchRouterChain.Report])
        \/ (status = py "failed"
            /\ ((stage_name = py "literature_agent"
                 /\ invoked = [ResearchRouterChain.Literature])
                \/ (stage_name = py "data_agent"
                    /\ invoked = [ResearchRouterChain.Literature;
                                  ResearchRouterChain.Data])
                \/ (stage_name = py "report_agent"
                    /\ invoked = [ResearchRouterChain.Literature;
                                  ResearchRouterChain.Data;
                                  ResearchRouterChain.Report])
                \/ (stage_name = py "full_chain"
                    /\ results = []
                    /\ (invoked = [ResearchRouterChain.Literature]
                        \/ invoked = [ResearchRouterChain.Literature;
                                      ResearchRouterChain.Data]
                        \/ invoked = [ResearchRouterChain.Literature;
                                      ResearchRouterChain.Data;
                                      ResearchRouterChain.Report]))))).

(** The answers the endpoint gives without running the chain. *)
Definition refusal (stage_name message : pystr) : pyval :=
  PDict [ (py "chain_status", PStr (py "failed"));
          (py "stage", PStr stage_name);
          (py "message", PStr message) ].

(** The configuration the endpoint hands to the chain. *)
Definition chain_config (model_name api_key base_url max_papers email : pyval)
  : pyval :=
  PDict
    [ (py "llm",
       PDict [ (py "type", PStr (py "tongyi"));
               (py "tongyi",
                PDict [ (py "model_name", model_name);
                        (py "api_key", api_key);
                        (py "base_url", base_url) ]) ]);
      (py "agent",
       PDict [ (py "literature", PDict [ (py "max_papers", max_papers) ]);
               (py "data",
                PDict [ (py "plot_format", PStr (py "png"));
                        (py "save_path", PStr (py "./plots")) ]);
               (py "report",
                PDict [ (py "save_path", PStr (py "./reports")) ]) ]);
      (py "entrez_email", email) ].

(** The envelope [ReportAgent.run] returns when its [try] raises [e]. *)
Definition report_error_envelope (e : exn) : pyval :=
  PDict [ (py "status", PStr (py "error"));
          (py "message", PStr (py "报告生成失败：" ++ str_exn e));
          (py "report_content", PStr []);
          (py "report_path", PStr []);
          (py "metadata", PDict []) ].

(** What the three [replace] calls of the report's file name do to one
    character. *)
Definition sanitize (c : char) : char :=
  if ((c =? 32) || (c =? 47) || (c =? 92))%N then 95%N else c.

(** A section of an abstract whose label, once upper-cased, is [label]. *)
Definition labelled (unicode_upper : char -> pystr) (label : pystr)
           (section : ElementTree.element) : bool :=
  PyStr.eqb (upper unicode_upper (ElementTree.get section (py "Label") []))
    label.

(** The stripped text of the last section with a label; empty when there
    is none. *)
Definition last_labelled (unicode_upper : char -> pystr) (label : pystr)
           (sections : list ElementTree.element) : pystr :=
  match rev (filter (labelled unicode_upper label) sections) with
  | section :: _ => PubMedSearchTool.section_text section
  | [] => []
  end.

(** [s or default] on strings. *)
Definition or_else (s default : pystr) : pystr :=
  match s with
  | [] => default
  | _ :: _ => s
  end.

(** The texts of the first [Year], [Month] and [Day] children of a date
    element, joined by "-". *)
Definition date_parts (d : ElementTree.element) : result pystr :=
  match PubMedSearchTool.text_if_found
          (ElementTree.find (ElementTree.path "Year") d)
          ++ PubMedSearchTool.text_if_found
               (ElementTree.find (ElementTree.path "Month") d)
          ++ PubMedSearchTool.text_if_found
               (ElementTree.find (ElementTree.path "Day") d) with
  | [] => Ok (py "未知")
  | parts => PubMedSearchTool.join_items (py "-") parts
  end.

(** A record of the list the search returns. *)
Definition paper_record (p : pyval) : Prop :=
  exists title publish_date journal_name methods conclusion authors,
    p = PDict [ (py "title", PStr title);
                (py "publish_date", PStr publish_date);
                (py "journal_name", journal_name);
                (py "methods_original", PStr methods);
                (py "conclusion", PStr conclusion);
                (py "authors", PList (map PStr authors)) ]
    /\ (journal_name = PNone \/ exists name, journal_name = PStr name)
    /\ methods <> [] /\ conclusion <> [] /\ authors <> [].

(** The calls a callback manager makes on a handler. *)
Inductive event :=
| ChainStart (serialized inputs : pyval)
| ChainEnd (outputs : pyval)
| ToolStart (serialized input_str : pyval)
| ToolEnd (output_str : pyval)
| Error (error : exn).

(** The ["type"] a call is logged under. *)
Definition kind (ev : event) : pystr :=
  match ev with
  | ChainStart _ _ => py "chain_start"
  | ChainEnd _ => py "chain_end"
  | ToolStart _ _ => py "tool_start"
  | ToolEnd _ => py "tool_end"
  | Error _ => py "error"
  end.

Definition is_chain_start (ev : event) : bool :=
  match ev with
  | ChainStart _ _ => true
  | _ => false
  end.

Definition handle_event (clock : nat -> pyfloat)
           (float_sub : pyfloat -> pyfloat -> pyfloat) (ev : event)
           (st : AgentLogHandler.state) : result unit * AgentLogHandler.state :=
  match ev with
  | ChainStart serialized inputs =>
      AgentLogHandler.on_chain_start clock serialized inputs st
  | ChainEnd outputs => AgentLogHandler.on_chain_end clock float_sub outputs st
  | ToolStart serialized input_str =>
      AgentLogHandler.on_tool_start clock serialized input_str st
  | ToolEnd output_str => AgentLogHandler.on_tool_end clock output_str st
  | Error error => AgentLogHandler.on_error clock error st
  end.

(** The handler after a sequence of calls, whether they raised or not. *)
Definition replay_events (clock : nat -> pyfloat)
           (float_sub : pyfloat -> pyfloat -> pyfloat) (events : list event)
           (st : AgentLogHandler.state) : AgentLogHandler.state :=
  fold_left (fun st ev => snd (handle_event clock float_sub ev st)) events st.

(** [ResearchRouterChain(config).run(keywords)], as the endpoint calls
    it.  [new_chain config] is [ResearchRouterChain(config)]: the chain
    it builds, or the exception it raises; the three agents are those of
    the chain. *)
Definition run_chain {chain : Type}
           (new_chain : pyval -> result chain)
           (literature_agent_run : chain -> pystr -> result pyval)
           (data_agent_run : chain -> pyval -> result pyval)
           (report_agent_run : chain -> pystr -> pyval -> pyval
                               -> result pyval)
           (list_gt : list pyval -> list pyval -> result bool)
           (config : pyval) (keywords : pystr) : result pyval :=
  self <- new_chain config ;;
  Ok (fst (ResearchRouterChain.run (literature_agent_run self)
             (data_agent_run self) (report_agent_run self) list_gt
             keywords)).

(** The stages a response can name. *)
Definition stage_names : list pystr :=
  [ py "request"; py "params"; py "server"; py "literature_agent";
    py "data_agent"; py "report_agent"; py "full_chain"; py "completed" ].

(** What the page that called the endpoint can rely on. *)
Definition response_shape (response : pyval) : Prop :=
  exists status stage_name message,
    getitem response (py "chain_status") = Ok (PStr status)
    /\ getitem response (py "stage") = Ok (PStr stage_name)
    /\ getitem response (py "message") = Ok message
    /\ In stage_name stage_names
    /\ ((status = py "success" /\ stage_name = py "completed")
        \/ (status = py "failed" /\ stage_name <> py "completed")).

(** An ASCII character that lower-casing leaves alone. *)
Definition lower_fixed (c : char) : bool :=
  is_ascii c && (ascii_lower c =? c)%N.

(* ================================================================== *)
(** ** Concrete collaborators and envelopes *)
(* ================================================================== *)

(** Stand-ins for the collaborators and sample envelopes, on which the
    definitions above are run. *)

Definition throttled_esearch (term : pystr) (retmax : Z)
  : result (list pystr) :=
  Raise (Exception (py "HTTP Error 429: Too Many Requests")).

Definition idle_efetch (ids : pystr) : result pystr := Ok [].

Definition idle_parse_articles (xml : pystr) : result (list pyval) := Ok [].

Definition envelope (status message : string) (payload : pydict) : pyval :=
  PDict ((py "status", PStr (py status))
           :: (py "message", PStr (py message)) :: payload).

Definition literature_success : pyval :=
  envelope "success" "成功检索到0篇论文" [ (py "data", PList []) ].


Definition tied_distribution : list (pystr * Z) :=
  [ (py "RCT研究", 2%Z); (py "队列研究", 2%Z) ].

Definition data_payload : pydict :=
  [ (py "statistic",
     PDict [ (py "total_papers", PInt 4);
             (py "methods_classified_distribution",
              PDict (distribution tied_distribution)) ]);
    (py "plot_paths", PList [PStr (py "./plots/methods_classified_distribution.png")]) ].

Definition data_success : pyval := envelope "success" "数据处理完成" data_payload.



Definition report_success : pyval :=
  envelope "success" "报告生成成功"
    [ (py "report_content", PStr (py "# 报告"));
      (py "report_path", PStr (py "./reports/research_report_x_20240101_000000.md"));
      (py "metadata", PDict []) ].


(** Stages that return a fixed envelope. *)
Definition literature_returns (e : pyval) (keywords : pystr) : result pyval :=
  Ok e.
Definition data_returns (e : pyval) (lit_result : pyval) : result pyval :=
  Ok e.
Definition report_returns (e : pyval) (keywords : pystr)
           (lit_result data_result : pyval) : result pyval :=
  Ok e.

(** A completion function that ends on a fixed text. *)
Definition completes_with (output : pystr) (input : pystr) : result pystr :=
  Ok output.

(** A serializer stand-in; the completions above do not read their input. *)
Definition plain_dumps (v : pyval) : pystr := py "{}".

(** A JSON object, the same object inside a fence with a language tag,
    and a completion that is no JSON at all. *)
Definition sample_object : pystr :=
  json_text "{'status': 'success', 'message': 'json parsed', 'data': []}".

Definition fenced_sample_object : pystr :=
  fence ++ py "json" ++ [10%N] ++ sample_object ++ [10%N] ++ fence.

Definition malformed_completion : pystr := py "Sorry, I could not find any papers.".

(** A request body whose [agent_config] has no [max_papers]. *)
Definition request_without_max_papers : pyval :=
  PDict
    [ (py "keywords", PStr (py "diabetes mellitus"));
      (py "llm_config",
       PDict [ (py "api_key", PStr (py "sk-test"));
               (py "base_url", PStr (py "https://llm.example/v1"));
               (py "model_name", PStr (py "qwen-plus")) ]);
      (py "agent_config", PDict []);
      (py "pubmed_config", PDict [ (py "email", PStr (py "a@b.org")) ]) ].

(** A chain stand-in that would report success if it were run. *)
Definition accepting_chain (config : pyval) (keywords : pystr) : result pyval :=
  Ok (PDict [ (py "chain_status", PStr (py "success")) ]).

Definition new_year_2024 : ReportAgent.datetime :=
  {| ReportAgent.year := 2024; ReportAgent.month := 1; ReportAgent.day := 1;
     ReportAgent.hour := 0; ReportAgent.minute := 0; ReportAgent.second := 0 |}.

Definition one_second_later : ReportAgent.datetime :=
  {| ReportAgent.year := 2024; ReportAgent.month := 1; ReportAgent.day := 1;
     ReportAgent.hour := 0; ReportAgent.minute := 0; ReportAgent.second := 1 |}.

(** Collaborators that raise. *)
Definition connection_reset : exn := Exception (py "Connection reset by peer").

Definition disk_full : exn := Exception (py "[Errno 28] No space left on device").

Definition raising_report (e : exn) (keywords : pystr)
           (lit_result data_result : pyval) : result pyval :=
  Raise e.

Definition raising_completion (e : exn) (input : pystr) : result pystr :=
  Raise e.

(** A report chain that writes a fixed text, and two file systems. *)
Definition chain_writes (content : pystr)
           (keywords literature_data data_process_data : pystr)
  : result pystr :=
  Ok content.

Definition writable (path content : pystr) : result unit := Ok tt.

Definition unwritable (e : exn) (path content : pystr) : result unit :=
  Raise e.

Definition makedirs_succeeds (path : pyval) : result unit := Ok tt.

(** Library constructors that accept what they are given and store it
    unchanged. *)
Definition client_accepted (call : LiteratureAgent.llm_client) : result unit :=
  Ok tt.

Definition stored_as_given (max_papers : pyval) : result pyval :=
  Ok max_papers.

Definition fields_as_given (config plot_format save_path : pyval)
  : result (pyval * pyval) :=
  Ok (plot_format, save_path).

Definition literature_agent_built (llm : LiteratureAgent.llm_client)
           (max_papers : pyval) : result unit :=
  Ok tt.

Definition agent_built (llm : LiteratureAgent.llm_client) : result unit :=
  Ok tt.

(** A client constructor that refuses its arguments. *)
Definition client_refused (e : exn) (call : LiteratureAgent.llm_client)
  : result unit :=
  Raise e.

(** An f-string stand-in, exact on [str] values. *)
Definition format_str (v : pyval) : pystr :=
  match v with
  | PStr s => s
  | _ => type_name v
  end.

(** A leaf element with a text, and an element with children only. *)
Definition leaf (t text : string) : ElementTree.element :=
  ElementTree.Element (py t) [] (Some (py text)) [].

Definition node (t : string) (children : list ElementTree.element) : ElementTree.element :=
  ElementTree.Element (py t) [] None children.

(** An article as PubMed describes it: the journal issue is dated March
    2021, the electronic publication December 2020; the second author is
    a group. *)
Definition sample_article : ElementTree.element :=
  node "Article"
    [ node "Journal"
        [ node "JournalIssue"
            [ node "PubDate" [ leaf "Year" "2021"; leaf "Month" "Mar" ] ];
          leaf "Title" "The Lancet" ];
      leaf "ArticleTitle" " Aspirin in primary prevention. ";
      node "Abstract"
        [ ElementTree.Element (py "AbstractText") [ (py "Label", py "Methods") ]
            (Some (py "Randomized controlled trial.")) [];
          ElementTree.Element (py "AbstractText") [ (py "Label", py "CONCLUSIONS") ]
            (Some (py "Aspirin reduced events.")) [] ];
      node "AuthorList"
        [ node "Author" [ leaf "LastName" "Smith"; leaf "Initials" "J" ];
          node "Author" [ leaf "CollectiveName" "ASPREE Group" ] ];
      node "ArticleDate"
        [ leaf "Year" "2020"; leaf "Month" "12"; leaf "Day" "01" ] ].

(** The same article with an author who has no initials. *)
Definition incomplete_article : ElementTree.element :=
  node "Article"
    [ leaf "ArticleTitle" "Aspirin in primary prevention.";
      node "AuthorList"
        [ node "Author" [ leaf "LastName" "Smith"; leaf "Initials" "J" ];
          node "Author" [ leaf "LastName" "Madonna" ] ] ].

Definition document (articles : list ElementTree.element) : ElementTree.element :=
  node "PubmedArticleSet"
    (map (fun article =>
            node "PubmedArticle" [ node "MedlineCitation" [ article ] ])
       articles).

(** An Entrez client that finds the given identifiers, and a reader that
    returns a fixed tree. *)
Definition finds (ids : list pystr) (term : pystr) (retmax : Z)
  : result (list pystr) :=
  Ok ids.

Definition parses_to (root : ElementTree.element) (xml_data : pystr) : result ElementTree.element :=
  Ok root.

Definition sample_date : ElementTree.element :=
  node "PubDate" [ leaf "Year" "2021"; leaf "Month" "Mar" ].

Definition sample_record : pyval :=
  PDict [ (py "title", PStr (py "Aspirin in primary prevention."));
          (py "publish_date", PStr (py "2021-Mar"));
          (py "journal_name", PStr (py "The Lancet"));
          (py "methods_original", PStr (py "Randomized controlled trial."));
          (py "conclusion", PStr (py "未提及"));
          (py "authors", PList [PStr (py "Smith J")]) ].


(** A clock that advances by one second at each reading, and the
    difference of two of its readings. *)
Definition ticking (n : nat) : pyfloat := FFin false (N.of_nat n) 0.

Definition seconds_between (later earlier : pyfloat) : pyfloat :=
  match later, earlier with
  | FFin false m 0%Z, FFin false m' 0%Z =>
      if (m' <=? m)%N then FFin false (m - m') 0 else FFin true (m' - m) 0
  | _, _ => FNan
  end.

Definition named (name : string) : pyval :=
  PDict [ (py "name", PStr (py name)) ].

(* ================================================================== *)
(** * Properties *)
(* ================================================================== *)

Unset Implicit Arguments.

(* ------------------------------------------------------------------ *)
(** ** Strings *)
(* ------------------------------------------------------------------ *)

(** *** Strings *)

Lemma pystr_eqb_eq (a b : pystr) : PyStr.eqb a b = true <-> a = b.
Proof.
  revert b; induction a as [|x a IH]; intros [|y b]; simpl; split;
    try congruence; try reflexivity.
  - rewrite andb_true_iff, N.eqb_eq, IH. intros [-> ->]; reflexivity.
  - intros [= -> ->]. rewrite N.eqb_refl. simpl. apply IH. reflexivity.
Qed.

Lemma pystr_eqb_refl (a : pystr) : PyStr.eqb a a = true.
Proof. apply pystr_eqb_eq; reflexivity. Qed.

Lemma startswith_app (p s : pystr) : startswith p (p ++ s) = true.
Proof.
  induction p as [|x p IH]; simpl; [reflexivity|].
  rewrite N.eqb_refl; exact IH.
Qed.

Lemma contains_prefix (sub s : pystr) :
  startswith sub s = true -> contains sub s = true.
Proof.
  destruct s; simpl; intros H; [exact H|]. rewrite H; reflexivity.
Qed.

Lemma contains_app (sub a b : pystr) : contains sub (a ++ sub ++ b) = true.
Proof.
  induction a as [|x a IH]; simpl.
  - apply contains_prefix, startswith_app.
  - rewrite IH. apply orb_true_r.
Qed.

Lemma contains_single (c : char) (s : pystr) :
  contains [c] s = existsb (N.eqb c) s.
Proof.
  induction s as [|x s IH]; simpl; [reflexivity|].
  rewrite IH, andb_true_r. reflexivity.
Qed.

(** *** Lower-casing *)

Section LowerFacts.
Variable unicode_lower : pystr -> nat -> pystr.

Lemma lower_from_app (s : pystr) (i : nat) (a b : pystr) :
  lower_from unicode_lower s i (a ++ b)
  = lower_from unicode_lower s i a
      ++ lower_from unicode_lower s (i + length a) b.
Proof.
  revert i; induction a as [|x a IH]; intros i; simpl.
  - rewrite Nat.add_0_r; reflexivity.
  - rewrite IH, <- app_assoc. do 3 f_equal. lia.
Qed.

Lemma lower_from_ascii (s : pystr) (i : nat) (v : pystr) :
  forallb is_ascii v = true ->
  lower_from unicode_lower s i v = map ascii_lower v.
Proof.
  revert i; induction v as [|x v IH]; intros i; simpl; [reflexivity|].
  rewrite andb_true_iff; intros [Hx Hv].
  unfold lower_at; rewrite Hx; simpl. f_equal. apply IH, Hv.
Qed.

(** An ASCII stretch of a text is lower-cased in place. *)
Lemma lower_ascii_infix (pre v post : pystr) :
  forallb is_ascii v = true ->
  exists a b,
    lower unicode_lower (pre ++ v ++ post) = a ++ map ascii_lower v ++ b.
Proof.
  intros Hv. unfold lower.
  rewrite lower_from_app, lower_from_app, (lower_from_ascii _ _ _ Hv).
  eauto.
Qed.
End LowerFacts.

Lemma ascii_lower_upper (c : char) :
  lower_fixed c = true ->
  is_ascii (ascii_upper c) = true /\ ascii_lower (ascii_upper c) = c.
Proof.
  unfold lower_fixed, is_ascii, ascii_lower, ascii_upper.
  rewrite andb_true_iff, N.ltb_lt.
  intros [Hlt Hfix].
  destruct ((97 <=? c) && (c <=? 122))%N eqn:Hlow.
  - apply andb_true_iff in Hlow as [H1 H2].
    apply N.leb_le in H1, H2.
    assert (Hup : ((65 <=? c - 32) && (c - 32 <=? 90))%N = true).
    { apply andb_true_iff; split; apply N.leb_le; lia. }
    rewrite Hup. split; [apply N.ltb_lt|]; lia.
  - split; [apply N.ltb_lt; exact Hlt|].
    apply N.eqb_eq in Hfix. exact Hfix.
Qed.

Lemma recase_ascii (mask : list bool) (t : pystr) :
  forallb lower_fixed t = true ->
  forallb is_ascii (recase mask t) = true
  /\ map ascii_lower (recase mask t) = t.
Proof.
  revert mask; induction t as [|c t IH]; intros mask; simpl.
  - destruct mask as [|[] ?]; auto.
  - rewrite andb_true_iff; intros [Hc Ht].
    assert (Hplain : is_ascii c = true /\ ascii_lower c = c).
    { unfold lower_fixed in Hc. apply andb_true_iff in Hc as [? Hc].
      apply N.eqb_eq in Hc. auto. }
    assert (Hall : forallb is_ascii t = true /\ map ascii_lower t = t).
    { specialize (IH []). destruct t; [auto|]. simpl in IH. apply IH, Ht. }
    destruct mask as [|[] mask]; simpl.
    + destruct Hplain as [-> ->], Hall as [-> ->]; auto.
    + destruct (ascii_lower_upper c Hc) as [-> ->].
      destruct (IH mask Ht) as [-> ->]; auto.
    + destruct Hplain as [-> ->]. destruct (IH mask Ht) as [-> ->]; auto.
Qed.

(* ------------------------------------------------------------------ *)
(** ** Research-method classification *)
(* ------------------------------------------------------------------ *)

Import LiteratureAgent.

Section ClassificationFacts.
Variable unicode_lower : pystr -> nat -> pystr.

Lemma classify_first_category (text : pystr) :
  _classify_research_method unicode_lower text
  = first_category priority_table (lower unicode_lower text).
Proof.
  unfold _classify_research_method, priority_table. simpl.
  repeat match goal with
         | |- context [if ?b then _ else _] => destruct b; [reflexivity|]
         end.
  reflexivity.
Qed.

Lemma first_category_none (table : list (list pystr * pystr)) (t : pystr) :
  (forall trigger, In trigger (flat_map fst table) ->
                   contains trigger t = false) ->
  first_category table t = other.
Proof.
  induction table as [|[triggers category] table IH]; simpl; intros H;
    [reflexivity|].
  assert (Hnone : any_keyword triggers t = false).
  { unfold any_keyword. apply not_true_is_false. intros Hex.
    apply existsb_exists in Hex as (kw & Hin & Hkw).
    rewrite H in Hkw; [discriminate|]. apply in_or_app; left; exact Hin. }
  rewrite Hnone. apply IH. intros kw Hin. apply H, in_or_app; right; exact Hin.
Qed.

Lemma classify_rct_trigger (text trigger : pystr) :
  In trigger rct_keywords ->
  contains trigger (lower unicode_lower text) = true ->
  _classify_research_method unicode_lower text = RCT.
Proof.
  intros Hin Hc. unfold _classify_research_method.
  assert (H : any_keyword rct_keywords (lower unicode_lower text) = true).
  { apply existsb_exists. exists trigger; auto. }
  rewrite H; reflexivity.
Qed.

(** Claim C5.  Research-method classification is a deterministic,
    case-insensitive keyword rule with a fixed priority: the category
    returned for a text is the first one, in the order RCT, cohort,
    case-control, cross-sectional, case-report, one of whose triggers
    occurs in the lower-cased text, and "other" when there is none.  In
    particular a text that contains "randomized controlled trial" written
    in any mix of upper and lower case is classified RCT, and a text
    whose lower-cased form contains none of the known triggers is
    classified "other". *)
Theorem classification_is_a_priority_keyword_rule (text : pystr) :
  _classify_research_method unicode_lower text
  = first_category priority_table (lower unicode_lower text)
  /\ (forall (mask : list bool) (before after : pystr),
         _classify_research_method unicode_lower
           (before ++ recase mask (py "randomized controlled trial") ++ after)
         = RCT)
  /\ ((forall trigger, In trigger known_triggers ->
                       contains trigger (lower unicode_lower text) = false) ->
      _classify_research_method unicode_lower text = other).
Proof.
  split; [apply classify_first_category|]. split.
  - intros mask before after.
    destruct (recase_ascii mask (py "randomized controlled trial"))
      as [Hascii Hlow]; [reflexivity|].
    destruct (lower_ascii_infix unicode_lower before _ after Hascii)
      as (a & b & Heq).
    apply classify_rct_trigger with (trigger := py "randomized controlled trial").
    + simpl; auto.
    + rewrite Heq, Hlow. apply contains_app.
  - intros Hnone. rewrite classify_first_category.
    apply first_category_none, Hnone.
Qed.

(** Claim C10.  Triggers are matched as raw substrings of the
    lower-cased text, not as words: whenever the lower-cased text
    contains "rct" anywhere, also inside a longer word such as
    "infarct", the category is RCT, whatever later triggers the text
    contains as well. *)
Theorem rct_substring_classifies_as_RCT (text : pystr) :
  contains (py "rct") (lower unicode_lower text) = true ->
  _classify_research_method unicode_lower text = RCT.
Proof.
  apply classify_rct_trigger. simpl; auto.
Qed.
End ClassificationFacts.

(** C5 at a text without any trigger. *)
Lemma classification_witness :
  _classify_research_method caseless_lower (py "Retrospective chart audit of 40 patients")
  = other.
Proof.
  apply (classification_is_a_priority_keyword_rule caseless_lower
           (py "Retrospective chart audit of 40 patients")).
  intros trigger Hin.
  repeat (destruct Hin as [<- | Hin]; [vm_compute; reflexivity|]).
  destruct Hin.
Defined.

(** C10 at a text where "rct" only occurs inside "infarct", next to a
    cohort trigger. *)
Lemma infarct_witness :
  any_keyword cohort_keywords
    (lower caseless_lower (py "Infarct size in a prospective cohort")) = true
  /\ _classify_research_method caseless_lower
       (py "Infarct size in a prospective cohort") = RCT.
Proof.
  split; [vm_compute; reflexivity|].
  apply (rct_substring_classifies_as_RCT caseless_lower
           (py "Infarct size in a prospective cohort")).
  vm_compute; reflexivity.
Defined.

(* ------------------------------------------------------------------ *)
(** ** Publish year *)
(* ------------------------------------------------------------------ *)

(** *** Splitting *)

(** The first segment of a split on one character. *)
Lemma split_char_first (c : char) (acc seg rest : pystr) :
  existsb (N.eqb c) seg = false ->
  hd [] (split_go [c] 0 acc (seg ++ c :: rest)) = rev acc ++ seg.
Proof.
  revert acc; induction seg as [|x seg IH]; intros acc; simpl.
  - intros _. rewrite N.eqb_refl. simpl. rewrite app_nil_r. reflexivity.
  - rewrite orb_false_iff; intros [Hx Hseg].
    rewrite Hx. simpl. rewrite IH by exact Hseg. simpl.
    rewrite <- app_assoc. reflexivity.
Qed.

Lemma existsb_split (c : char) (s : pystr) :
  existsb (N.eqb c) s = true ->
  exists seg rest, s = seg ++ c :: rest /\ existsb (N.eqb c) seg = false.
Proof.
  induction s as [|x s IH]; simpl; [discriminate|].
  destruct (N.eqb c x) eqn:Hx.
  - apply N.eqb_eq in Hx; subst x. intros _. exists [], s. auto.
  - simpl. intros H. destruct (IH H) as (seg & rest & -> & Hseg).
    exists (x :: seg), rest. simpl. rewrite Hx, Hseg. auto.
Qed.

Import DataProcessTool.

Section YearFacts.
Variable unicode_isdigit : char -> bool.

Lemma digits_have_no_hyphen (s : pystr) :
  forallb (char_isdigit unicode_isdigit) s = true ->
  contains (py "-") s = false.
Proof.
  change (py "-") with [45%N]. rewrite contains_single.
  induction s as [|x s IH]; cbn [existsb forallb]; [reflexivity|].
  rewrite andb_true_iff; intros [Hx Hs]. rewrite (IH Hs), orb_false_r.
  destruct (N.eqb 45 x) eqn:E; [|reflexivity].
  apply N.eqb_eq in E; subst x. discriminate Hx.
Qed.

Lemma parse_year_not_str (v : pyval) :
  (forall s, v <> PStr s) ->
  _parse_publish_year unicode_isdigit v = unknown.
Proof.
  intros Hv. unfold _parse_publish_year, parse_year.
  destruct v as [| b | z | f | s | l | d]; simpl;
    try reflexivity;
    try (destruct (negb _); reflexivity).
  - exfalso; apply (Hv s); reflexivity.
Qed.

(** Claim C6.  The publish year of a record: a date string that
    contains a hyphen maps to its first segment ("2023-05" gives
    "2023"); a string of exactly four digits maps to itself ("2023"
    gives "2023"); the empty string, [None] and every other shape,
    whether another string or a value that is not a string, map to
    "unknown" (未知). *)
Theorem publish_year_derivation :
  (forall s : pystr,
      contains (py "-") s = true ->
      exists seg rest,
        s = seg ++ py "-" ++ rest
        /\ contains (py "-") seg = false
        /\ _parse_publish_year unicode_isdigit (PStr s) = seg)
  /\ (forall s : pystr,
         length s = 4 ->
         forallb (char_isdigit unicode_isdigit) s = true ->
         _parse_publish_year unicode_isdigit (PStr s) = s)
  /\ _parse_publish_year unicode_isdigit (PStr []) = unknown
  /\ _parse_publish_year unicode_isdigit PNone = unknown
  /\ (forall s : pystr,
         contains (py "-") s = false ->
         isdigit unicode_isdigit s && (length s =? 4) = false ->
         _parse_publish_year unicode_isdigit (PStr s) = unknown)
  /\ (forall v : pyval,
         (forall s, v <> PStr s) ->
         _parse_publish_year unicode_isdigit v = unknown)
  /\ _parse_publish_year unicode_isdigit (PStr (py "2023-05")) = py "2023"
  /\ _parse_publish_year unicode_isdigit (PStr (py "2023")) = py "2023".
Proof.
  assert (Hseg : forall seg rest : pystr,
             contains (py "-") seg = false ->
             _parse_publish_year unicode_isdigit (PStr (seg ++ py "-" ++ rest))
             = seg).
  { intros seg rest Hno.
    assert (Hhas : contains (py "-") (seg ++ py "-" ++ rest) = true)
      by apply contains_app.
    assert (Hfirst : hd [] (split (py "-") (seg ++ py "-" ++ rest)) = seg).
    { unfold split. change (py "-" ++ rest) with (45%N :: rest).
      change (py "-") with [45%N].
      rewrite split_char_first; [reflexivity|].
      rewrite <- contains_single. exact Hno. }
    remember (seg ++ py "-" ++ rest) as s eqn:Hs.
    assert (Hne : PyStr.eqb s [] = false).
    { subst s. destruct seg; reflexivity. }
    assert (Hunk : PyStr.eqb s unknown = false).
    { apply not_true_is_false. intros E. apply pystr_eqb_eq in E.
      rewrite E in Hhas. discriminate Hhas. }
    unfold _parse_publish_year, parse_year. simpl.
    rewrite Hne, Hunk, Hhas. simpl. exact Hfirst. }
  assert (Hfour : forall s : pystr,
             length s = 4 ->
             forallb (char_isdigit unicode_isdigit) s = true ->
             _parse_publish_year unicode_isdigit (PStr s) = s).
  { intros s Hlen Hdig.
    unfold _parse_publish_year, parse_year. simpl.
    rewrite (digits_have_no_hyphen _ Hdig).
    assert (Hne : PyStr.eqb s [] = false).
    { destruct s; [discriminate Hlen | reflexivity]. }
    assert (Hunk : PyStr.eqb s unknown = false).
    { apply not_true_is_false. intros E. apply pystr_eqb_eq in E.
      rewrite E in Hlen. discriminate Hlen. }
    rewrite Hne, Hunk. simpl.
    unfold isdigit. destruct s; [discriminate Hlen|].
    rewrite Hdig, Hlen. reflexivity. }
  split.
  { intros s Hhas. change (py "-") with [45%N] in Hhas.
    rewrite contains_single in Hhas.
    destruct (existsb_split 45%N s Hhas) as (seg & rest & -> & Hno).
    rewrite <- contains_single in Hno.
    exists seg, rest. split; [reflexivity|]. split; [exact Hno|].
    apply Hseg, Hno. }
  split; [exact Hfour|].
  split; [reflexivity|]. split; [reflexivity|].
  split; [|split; [apply parse_year_not_str|split]].
  - intros s Hno Hshape.
    unfold _parse_publish_year, parse_year. simpl.
    rewrite Hno, Hshape.
    destruct (negb (PyStr.eqb s [])); simpl;
      destruct (PyStr.eqb s unknown); reflexivity.
  - apply (Hseg (py "2023") (py "05")). reflexivity.
  - apply Hfour; reflexivity.
Qed.
End YearFacts.

(** C6 at three dates. *)
Lemma publish_year_witness :
  (exists seg rest,
      py "2021-11-30" = seg ++ py "-" ++ rest
      /\ contains (py "-") seg = false
      /\ _parse_publish_year no_unicode_digit (PStr (py "2021-11-30")) = seg)
  /\ _parse_publish_year no_unicode_digit (PStr (py "1998")) = py "1998"
  /\ _parse_publish_year no_unicode_digit (PStr (py "May 2020")) = unknown.
Proof.
  destruct (publish_year_derivation no_unicode_digit)
    as (Hseg & Hfour & _ & _ & Hother & _).
  split; [|split].
  - apply Hseg. reflexivity.
  - apply Hfour; reflexivity.
  - apply Hother; reflexivity.
Defined.

(* ------------------------------------------------------------------ *)
(** ** The fallback of the search tool *)
(* ------------------------------------------------------------------ *)

Import PubMedSearchTool.

Section FallbackFacts.
Variable max_papers : Z.
Variable esearch : pystr -> Z -> result (list pystr).
Variable efetch : pystr -> result pystr.
Variable parse_articles : pystr -> result (list pyval).

(** The body of the [try] raises as soon as one of the three calls
    does. *)
Lemma search_raises (keywords : pystr) (e : exn) :
  esearch keywords max_papers = Raise e
  \/ (exists ids,
         esearch keywords max_papers = Ok ids
         /\ (efetch (join (py ",") ids) = Raise e
             \/ exists xml,
                 efetch (join (py ",") ids) = Ok xml
                 /\ parse_articles xml = Raise e)) ->
  search max_papers esearch efetch parse_articles keywords = Raise e.
Proof.
  unfold search.
  intros [H | (ids & H & [H' | (xml & H' & H'')])]; rewrite H; simpl;
    try reflexivity; rewrite H'; simpl; try reflexivity.
  rewrite H''; reflexivity.
Qed.

(** Claim C4.  Whatever exception the search call, the fetch call or
    the reading of the fetched records raises, the tool does not
    propagate it: it returns an envelope with status "error" whose
    message contains the text of the exception, together with the same
    ten placeholder papers, whose fields are fixed (the title carries the
    index of the paper). *)
Theorem search_failure_yields_error_with_mock_data
        (keywords : pystr) (e : exn) :
  esearch keywords max_papers = Raise e
  \/ (exists ids,
         esearch keywords max_papers = Ok ids
         /\ (efetch (join (py ",") ids) = Raise e
             \/ exists xml,
                 efetch (join (py ",") ids) = Ok xml
                 /\ parse_articles xml = Raise e)) ->
  let message := py "PubMed检索失败：" ++ str_exn e ++ py "，使用模拟数据" in
  _run max_papers esearch efetch parse_articles keywords
  = PDict [ (py "status", PStr (py "error"));
            (py "message", PStr message);
            (py "data", PList mock_papers) ]
  /\ contains (str_exn e) message = true
  /\ length mock_papers = 10
  /\ (forall i, i < 10 ->
        nth_error mock_papers i
        = Some (PDict
                  [ (py "title", PStr (py "模拟论文" ++ str_of_nat i));
                    (py "publish_date", PStr (py "2024-01-01"));
                    (py "journal_name", PStr (py "模拟期刊"));
                    (py "methods_original",
                     PStr (py "随机对照试验（RCT）研究，选取100例患者分为实验组和对照组"));
                    (py "conclusion", PStr (py "模拟结论：该治疗方案有效"));
                    (py "authors", PList [PStr (py "Author A")]) ])).
Proof.
  intros Hraise message. apply search_raises in Hraise.
  unfold _run. rewrite Hraise.
  split; [reflexivity|]. split; [apply contains_app|].
  split; [reflexivity|].
  intros i Hi.
  do 10 (destruct i as [|i]; [reflexivity|]). lia.
Qed.
End FallbackFacts.

(* ------------------------------------------------------------------ *)
(** ** Report paths *)
(* ------------------------------------------------------------------ *)

(** *** Fixed-width numbers *)

Lemma pad_go_acc (w n : nat) (acc : pystr) :
  pad_go w n acc = pad_go w n [] ++ acc.
Proof.
  revert n acc; induction w as [|w IH]; intros n acc; cbn [pad_go]; [reflexivity|].
  rewrite IH, (IH _ [_]), <- app_assoc. reflexivity.
Qed.

Lemma zero_pad_length (w n : nat) : length (zero_pad w n) = w.
Proof.
  unfold zero_pad. revert n; induction w as [|w IH]; intros n; cbn [pad_go];
    [reflexivity|].
  rewrite pad_go_acc, length_app, IH. cbn [length]. lia.
Qed.

Lemma digit_char_inj (a b : nat) :
  digit_char a = digit_char b -> a = b.
Proof. unfold digit_char. intros H. apply Nat2N.inj in H. lia. Qed.

Lemma zero_pad_inj (w n m : nat) :
  n < 10 ^ w -> m < 10 ^ w -> zero_pad w n = zero_pad w m -> n = m.
Proof.
  unfold zero_pad. revert n m; induction w as [|w IH]; intros n m Hn Hm.
  - rewrite Nat.pow_0_r in Hn, Hm. lia.
  - cbn [pad_go]. rewrite (pad_go_acc w (n / 10)), (pad_go_acc w (m / 10)).
    intros H. apply app_inj_tail in H as [Hhi Hlo].
    apply digit_char_inj in Hlo.
    rewrite Nat.pow_succ_r' in Hn, Hm.
    apply IH in Hhi; try (apply Nat.Div0.div_lt_upper_bound; lia).
    rewrite (Nat.div_mod_eq n 10), (Nat.div_mod_eq m 10). lia.
Qed.

Lemma app_inj_length {A} (a a' b b' : list A) :
  length a = length a' -> a ++ b = a' ++ b' -> a = a' /\ b = b'.
Proof.
  revert a'; induction a as [|x a IH]; intros [|y a']; simpl;
    try discriminate; auto.
  intros [= Hlen] [= -> H]. destruct (IH _ Hlen H) as [-> ->]. auto.
Qed.

Import ReportAgent.

Lemma strftime_inj (t1 t2 : datetime) :
  valid_datetime t1 -> valid_datetime t2 ->
  strftime t1 = strftime t2 -> t1 = t2.
Proof.
  destruct t1 as [y1 mo1 d1 h1 mi1 s1], t2 as [y2 mo2 d2 h2 mi2 s2].
  unfold valid_datetime, strftime;
    cbn [year month day hour minute second].
  intros (Hy1 & Hmo1 & Hd1 & Hh1 & Hmi1 & Hs1)
         (Hy2 & Hmo2 & Hd2 & Hh2 & Hmi2 & Hs2) H.
  apply app_inj_length in H as [Hy H]; [|rewrite !zero_pad_length; reflexivity].
  apply app_inj_length in H as [Hmo H]; [|rewrite !zero_pad_length; reflexivity].
  apply app_inj_length in H as [Hd H]; [|rewrite !zero_pad_length; reflexivity].
  apply app_inj_length in H as [_ H]; [|reflexivity].
  apply app_inj_length in H as [Hh H]; [|rewrite !zero_pad_length; reflexivity].
  apply app_inj_length in H as [Hmi Hs]; [|rewrite !zero_pad_length; reflexivity].
  change (100 * 100) with (10 ^ 4) in Hy1, Hy2.
  change 100 with (10 ^ 2) in *.
  apply zero_pad_inj in Hy, Hmo, Hd, Hh, Hmi, Hs; try assumption.
  subst. reflexivity.
Qed.

(** *** Replacing one character by another *)

Lemma replace_char (c d : char) (s : pystr) :
  replace [c] [d] s = map (fun x => if (c =? x)%N then d else x) s.
Proof.
  unfold replace. induction s as [|x s IH]; simpl; [reflexivity|].
  rewrite andb_true_r. destruct (c =? x)%N; simpl; rewrite IH; reflexivity.
Qed.

Lemma in_firstn {A} (n : nat) (l : list A) (x : A) :
  In x (firstn n l) -> In x l.
Proof.
  revert l; induction n as [|n IH]; intros [|y l]; simpl; try tauto.
  intros [->|H]; auto.
Qed.

Lemma safe_keywords_chars (keywords : pystr) (c : char) :
  In c (safe_keywords keywords) -> c <> 32%N /\ c <> 47%N /\ c <> 92%N.
Proof.
  unfold safe_keywords, slice_to. intros Hin. apply in_firstn in Hin.
  change (py "\") with [92%N] in Hin. change (py "/") with [47%N] in Hin.
  change (py " ") with [32%N] in Hin. change (py "_") with [95%N] in Hin.
  rewrite !replace_char, !map_map in Hin.
  apply in_map_iff in Hin as (x & <- & _).
  destruct (32 =? x)%N eqn:E1; [cbn; repeat split; discriminate|].
  destruct (47 =? x)%N eqn:E2; [cbn; repeat split; discriminate|].
  destruct (92 =? x)%N eqn:E3; [cbn; repeat split; discriminate|].
  apply N.eqb_neq in E1, E2, E3. repeat split; congruence.
Qed.

Lemma path_join_inj (a b b' : pystr) :
  startswith (py "/") b = false -> startswith (py "/") b' = false ->
  path_join a b = path_join a b' -> b = b'.
Proof.
  unfold path_join. intros -> ->.
  destruct (PyStr.eqb a [] || startswith (py "/") (rev a)); intros H.
  - apply app_inv_head in H. exact H.
  - apply app_inv_head in H. apply app_inv_head in H. exact H.
Qed.

Lemma safe_keywords_map (keywords : pystr) :
  safe_keywords keywords = map sanitize (firstn 20 keywords).
Proof.
  unfold safe_keywords, slice_to.
  change (py "\") with [92%N]. change (py "/") with [47%N].
  change (py " ") with [32%N]. change (py "_") with [95%N].
  rewrite !replace_char, !map_map, firstn_map.
  apply map_ext. intros c. unfold sanitize.
  destruct (N.eqb_spec 32 c) as [<-|H1]; [reflexivity|].
  destruct (N.eqb_spec 47 c) as [<-|H2]; [reflexivity|].
  destruct (N.eqb_spec 92 c) as [<-|H3]; [reflexivity|].
  destruct (N.eqb_spec c 32) as [->|_]; [congruence|].
  destruct (N.eqb_spec c 47) as [->|_]; [congruence|].
  destruct (N.eqb_spec c 92) as [->|_]; [congruence|].
  reflexivity.
Qed.

(** Claim C8.  The report is saved under
    [research_report_<prefix>_<timestamp>.md] in the report directory,
    the prefix being the first 20 characters of the keywords with every
    space, slash and backslash replaced by an underscore (so it has at
    most 20 characters, none of them one of these three), and the
    timestamp the time of the generation down to the second; so that for
    every keyword two generations whose timestamps differ (in any field
    down to the second) are saved under distinct paths. *)
Theorem report_paths_differ_when_timestamps_differ
        (save_path keywords : pystr) (t1 t2 : datetime) :
  valid_datetime t1 -> valid_datetime t2 -> t1 <> t2 ->
  report_path save_path t1 keywords <> report_path save_path t2 keywords
  /\ (forall t,
         report_path save_path t keywords
         = path_join save_path
             (py "research_report_" ++ map sanitize (firstn 20 keywords)
                ++ py "_" ++ strftime t ++ py ".md"))
  /\ length (map sanitize (firstn 20 keywords)) <= 20
  /\ (forall c, In c (map sanitize (firstn 20 keywords)) ->
                c <> 32%N /\ c <> 47%N /\ c <> 92%N).
Proof.
  intros Hv1 Hv2 Hneq.
  split; [|split; [|split]].
  - intros H. apply Hneq. unfold report_path in H.
    apply path_join_inj in H; try reflexivity.
    unfold report_filename in H.
    apply app_inv_head in H. apply app_inv_head in H. apply app_inv_head in H.
    apply app_inv_tail in H. apply strftime_inj; assumption.
  - intros t. unfold report_path, report_filename.
    rewrite safe_keywords_map. reflexivity.
  - rewrite <- safe_keywords_map. unfold safe_keywords, slice_to.
    apply firstn_le_length.
  - rewrite <- safe_keywords_map. apply safe_keywords_chars.
Qed.

(* ------------------------------------------------------------------ *)
(** ** The orchestrator *)
(* ------------------------------------------------------------------ *)

Import ResearchRouterChain.

Lemma not_success_or_warning_proceeds (status : pyval) :
  not_success_or_warning status = negb (proceeds status).
Proof.
  unfold not_success_or_warning, proceeds. simpl. rewrite orb_false_r.
  reflexivity.
Qed.

Section ChainFacts.
Variable literature_agent_run : pystr -> result pyval.
Variable data_agent_run : pyval -> result pyval.
Variable report_agent_run : pystr -> pyval -> pyval -> result pyval.
Variable list_gt : list pyval -> list pyval -> result bool.

Let run := run literature_agent_run data_agent_run report_agent_run list_gt.

(** [run], one stage at a time. *)
Lemma run_unfold (keywords : pystr) :
  run keywords =
  match literature_agent_run keywords with
  | Raise e => (crashed e, [Literature])
  | Ok lit =>
      match getitem lit (py "status") with
      | Raise e => (crashed e, [Literature])
      | Ok lit_status =>
          if proceeds lit_status then
            match data_agent_run lit with
            | Raise e => (crashed e, [Literature; Data])
            | Ok dat =>
                match getitem dat (py "status") with
                | Raise e => (crashed e, [Literature; Data])
                | Ok data_status =>
                    if eq_str data_status (py "success") then
                      (closing list_gt keywords lit dat
                         (report_agent_run keywords lit dat),
                       [Literature; Data; Report])
                    else
                      (or_crashed (getitem dat (py "message"))
                         (fun m => failed (py "data_agent") m
                                     [ (py "literature_result", lit);
                                       (py "data_result", dat) ]),
                       [Literature; Data])
                end
            end
          else
            (or_crashed (getitem lit (py "message"))
               (fun m => failed (py "literature_agent") m []),
             [Literature])
      end
  end.
Proof.
  unfold run, ResearchRouterChain.run, pipeline, bindM, invoke, lift, ret,
    closing, or_crashed.
  destruct (literature_agent_run keywords) as [lit|e]; [|reflexivity].
  cbn [app].
  destruct (getitem lit (py "status")) as [st|e]; [|reflexivity].
  rewrite not_success_or_warning_proceeds.
  destruct (proceeds st); cbn [negb].
  - destruct (data_agent_run lit) as [dat|e]; [|reflexivity].
    cbn [app].
    destruct (getitem dat (py "status")) as [dst|e]; [|reflexivity].
    destruct (eq_str dst (py "success")); cbn [negb].
    + destruct (report_agent_run keywords lit dat) as [rep|e]; [|reflexivity].
      cbn [app].
      destruct (final_result list_gt keywords lit dat rep); reflexivity.
    + destruct (getitem dat (py "message")); reflexivity.
  - destruct (getitem lit (py "message")); reflexivity.
Qed.
End ChainFacts.

(** *** The dominant method *)

Lemma distribution_keys (d : list (pystr * Z)) :
  map fst (distribution d) = map fst d.
Proof. unfold distribution. rewrite map_map. reflexivity. Qed.

Lemma distribution_lookup (d : list (pystr * Z)) (k : pystr) (c : Z) :
  NoDup (map fst d) -> In (k, c) d ->
  dict_lookup k (distribution d) = Some (PInt c).
Proof.
  induction d as [|[k' c'] d IH]; simpl; [tauto|].
  intros Hnd [[= -> ->]|Hin].
  - rewrite pystr_eqb_refl. reflexivity.
  - inversion Hnd as [|? ? Hnotin Hnd']; subst.
    destruct (PyStr.eqb k k') eqn:E.
    + apply pystr_eqb_eq in E; subst k'. exfalso. apply Hnotin.
      apply in_map_iff. exists (k, c). auto.
    + apply IH; assumption.
Qed.

Lemma gt_int (list_gt : list pyval -> list pyval -> result bool) (a b : Z) :
  gt list_gt (PInt a) (PInt b) = Ok (b <? a)%Z.
Proof.
  unfold gt. cbn [as_number num_gt]. rewrite Z.min_id, Z.sub_diag.
  change (2 ^ 0)%Z with 1%Z. rewrite !Z.mul_1_r. reflexivity.
Qed.

Section DominantFacts.
Variable list_gt : list pyval -> list pyval -> result bool.

Lemma max_loop_first_maximum (d : list (pystr * Z)) :
  NoDup (map fst d) ->
  forall rest before bk bc after,
    d = before ++ (bk, bc) :: after ++ rest ->
    (forall kc, In kc before -> (snd kc < bc)%Z) ->
    (forall kc, In kc after -> (snd kc <= bc)%Z) ->
    exists k,
      max_loop list_gt (fun k => getitem (PDict (distribution d)) k)
               (map fst rest) bk (PInt bc) = Ok k
      /\ first_maximum d k.
Proof.
  intros Hnd rest.
  induction rest as [|[k c] rest IH]; intros before bk bc after Hd Hb Ha.
  - exists bk. split; [reflexivity|].
    rewrite app_nil_r in Hd. exists before, bc, after. auto.
  - cbn [map fst max_loop getitem].
    rewrite (distribution_lookup d k c Hnd).
    2:{ rewrite Hd. apply in_or_app. right. right.
        apply in_or_app. right. left. reflexivity. }
    cbn [bind]. rewrite gt_int. cbn [bind].
    destruct (bc <? c)%Z eqn:E.
    + apply Z.ltb_lt in E.
      apply (IH (before ++ (bk, bc) :: after) k c []).
      * rewrite Hd, <- app_assoc. reflexivity.
      * intros kc Hin. apply in_app_or in Hin as [Hin|[<-|Hin]].
        -- specialize (Hb kc Hin). lia.
        -- exact E.
        -- specialize (Ha kc Hin). lia.
      * intros kc [].
    + apply Z.ltb_ge in E.
      apply (IH before bk bc (after ++ [(k, c)])).
      * rewrite Hd, <- app_assoc. reflexivity.
      * exact Hb.
      * intros kc Hin. apply in_app_or in Hin as [Hin|[<-|[]]].
        -- apply Ha, Hin.
        -- exact E.
Qed.

(** The method [run] reports is the first key with the greatest count,
    and the sentinel when there is none. *)
Lemma main_research_method_spec (d : list (pystr * Z)) :
  NoDup (map fst d) ->
  exists k,
    main_research_method list_gt (PDict (distribution d)) = Ok (PStr k)
    /\ (d = [] -> k = unknown_method)
    /\ (d <> [] -> first_maximum d k).
Proof.
  intros Hnd. unfold main_research_method. rewrite distribution_keys.
  destruct d as [|[k0 c0] rest].
  - exists unknown_method. split; [reflexivity|]. split; [auto|congruence].
  - assert (Hget : getitem (PDict (distribution ((k0, c0) :: rest))) k0
                   = Ok (PInt c0)).
    { cbn [getitem].
      rewrite (distribution_lookup ((k0, c0) :: rest) k0 c0 Hnd)
        by (left; reflexivity).
      reflexivity. }
    cbn [map fst max_by]. rewrite Hget. cbn [bind].
    destruct (max_loop_first_maximum ((k0, c0) :: rest) Hnd rest [] k0 c0 [])
      as (k & Hk & Hmax); try reflexivity; try (intros kc []).
    exists k. rewrite Hk. cbn [bind]. split; [reflexivity|].
    split; [discriminate|auto].
Qed.
End DominantFacts.

Lemma get_of_dict (v : pyval) (k : pystr) (default r : pyval) :
  get v k default = Ok r ->
  forall k' default', exists r', get v k' default' = Ok r'.
Proof.
  destruct v; try discriminate. intros _ k' default'. simpl.
  destruct (dict_lookup k' d); eauto.
Qed.

Section SummaryFacts.
Variable literature_agent_run : pystr -> result pyval.
Variable data_agent_run : pyval -> result pyval.
Variable report_agent_run : pystr -> pyval -> pyval -> result pyval.
Variable list_gt : list pyval -> list pyval -> result bool.

Let run := run literature_agent_run data_agent_run report_agent_run list_gt.

(** The dict [run] builds when every read after the third stage
    succeeds. *)
Lemma final_result_shape (keywords : pystr) (lit dat rep r : pyval) :
  final_result list_gt keywords lit dat rep = Ok r ->
  exists report_status total_papers main_method report_path plot_paths,
    getitem rep (py "status") = Ok report_status
    /\ r = PDict
             [ (py "chain_status",
                PStr (if eq_str report_status (py "success")
                      then py "success" else py "failed"));
               (py "stage",
                PStr (if negb (eq_str report_status (py "success"))
                      then py "report_agent" else py "completed"));
               (py "message", PStr (py "完整Agent链执行完成，报告已生成"));
               (py "results",
                PDict [ (py "literature_result", lit);
                        (py "data_result", dat);
                        (py "report_result", rep) ]);
               (py "summary",
                PDict [ (py "keywords", PStr keywords);
                        (py "total_papers", total_papers);
                        (py "main_research_method", main_method);
                        (py "report_path", report_path);
                        (py "plot_paths", plot_paths) ]) ].
Proof.
  unfold final_result.
  destruct (getitem rep (py "status")) as [rst|]; [|discriminate].
  cbn [bind].
  destruct (getitem dat (py "statistic")) as [stat|]; [|discriminate].
  cbn [bind].
  destruct (get stat (py "total_papers") (PInt 0)) as [total|];
    [|discriminate].
  cbn [bind].
  destruct (get stat (py "methods_classified_distribution") (PDict []))
    as [dist|]; [|discriminate].
  cbn [bind].
  destruct (main_research_method list_gt dist) as [main|]; [|discriminate].
  cbn [bind].
  destruct (getitem rep (py "report_path")) as [path|]; [|discriminate].
  cbn [bind].
  destruct (getitem dat (py "plot_paths")) as [plots|]; [|discriminate].
  cbn [bind].
  destruct (len plots); [|discriminate].
  cbn [bind]. intros [= <-].
  exists rst, total, main, path, plots. split; reflexivity.
Qed.

(** Claim C7.  On full success of the pipeline the summary's dominant
    method is the key of [methods_classified_distribution] with the
    greatest count, the first such key in the mapping's order when
    several tie, and "unknown" (未知) when the mapping is empty or
    absent; so RCT: 2, cohort: 2 with RCT inserted first resolves to
    RCT.  The mapping is a dict, whose keys are distinct, and its counts
    are integers. *)
Theorem full_success_reports_first_maximum_method
        (keywords : pystr) (lit lit_status dat data_status stat : pyval)
        (d : list (pystr * Z)) (plots : pyval) (n : nat)
        (rep report_status path : pyval) :
  literature_agent_run keywords = Ok lit ->
  getitem lit (py "status") = Ok lit_status ->
  proceeds lit_status = true ->
  data_agent_run lit = Ok dat ->
  getitem dat (py "status") = Ok data_status ->
  eq_str data_status (py "success") = true ->
  getitem dat (py "statistic") = Ok stat ->
  get stat (py "methods_classified_distribution") (PDict [])
  = Ok (PDict (distribution d)) ->
  NoDup (map fst d) ->
  getitem dat (py "plot_paths") = Ok plots ->
  len plots = Ok n ->
  report_agent_run keywords lit dat = Ok rep ->
  getitem rep (py "status") = Ok report_status ->
  eq_str report_status (py "success") = true ->
  getitem rep (py "report_path") = Ok path ->
  (exists k summary,
      getitem (fst (run keywords)) (py "chain_status")
      = Ok (PStr (py "success"))
      /\ getitem (fst (run keywords)) (py "summary") = Ok summary
      /\ getitem summary (py "main_research_method") = Ok (PStr k)
      /\ (d = [] -> k = py "未知")
      /\ (d <> [] -> first_maximum d k))
  /\ main_research_method list_gt
       (PDict (distribution [ (py "RCT研究", 2%Z); (py "队列研究", 2%Z) ]))
     = Ok (PStr (py "RCT研究")).
Proof.
  intros Hlit Hst Hgo Hdat Hdst Hok Hstat Hdist Hnd Hplots Hlen
         Hrep Hrst Hrok Hpath.
  split; [|reflexivity].
  destruct (main_research_method_spec list_gt d Hnd) as (k & Hk & He & Hne).
  destruct (get_of_dict _ _ _ _ Hdist (py "total_papers") (PInt 0))
    as (total & Htotal).
  assert (Hfinal :
            final_result list_gt keywords lit dat rep
            = Ok (PDict
                    [ (py "chain_status", PStr (py "success"));
                      (py "stage", PStr (py "completed"));
                      (py "message",
                       PStr (py "完整Agent链执行完成，报告已生成"));
                      (py "results",
                       PDict [ (py "literature_result", lit);
                               (py "data_result", dat);
                               (py "report_result", rep) ]);
                      (py "summary",
                       PDict [ (py "keywords", PStr keywords);
                               (py "total_papers", total);
                               (py "main_research_method", PStr k);
                               (py "report_path", path);
                               (py "plot_paths", plots) ]) ])).
  { unfold final_result.
    rewrite Hrst; cbn [bind]. rewrite Hstat; cbn [bind].
    rewrite Htotal; cbn [bind]. rewrite Hdist; cbn [bind].
    rewrite Hk; cbn [bind]. rewrite Hpath; cbn [bind].
    rewrite Hplots; cbn [bind]. rewrite Hlen; cbn [bind].
    rewrite Hrok. reflexivity. }
  exists k. eexists.
  unfold run. rewrite run_unfold, Hlit, Hst, Hgo, Hdat, Hdst, Hok, Hrep.
  cbn [fst closing]. rewrite Hfinal.
  split; [reflexivity|]. split; [reflexivity|]. split; [reflexivity|].
  split; assumption.
Qed.
End SummaryFacts.

(** C7 at a run whose distribution is tied between two methods. *)
Lemma dominant_method_witness :
  exists k summary,
    getitem (fst (run (literature_returns literature_success)
                      (data_returns data_success)
                      (report_returns report_success)
                      no_list_gt (py "diabetes")))
            (py "summary") = Ok summary
    /\ getitem summary (py "main_research_method") = Ok (PStr k)
    /\ first_maximum tied_distribution k.
Proof.
  destruct (full_success_reports_first_maximum_method
              (literature_returns literature_success)
              (data_returns data_success)
              (report_returns report_success)
              no_list_gt (py "diabetes")
              literature_success (PStr (py "success"))
              data_success (PStr (py "success"))
              (PDict [ (py "total_papers", PInt 4);
                       (py "methods_classified_distribution",
                        PDict (distribution tied_distribution)) ])
              tied_distribution
              (PList [PStr (py "./plots/methods_classified_distribution.png")])
              1
              report_success (PStr (py "success"))
              (PStr (py "./reports/research_report_x_20240101_000000.md")))
    as [(k & summary & _ & Hs & Hm & _ & Hmax) _];
    try reflexivity.
  - repeat constructor; simpl; intuition discriminate.
  - exists k, summary. split; [exact Hs|]. split; [exact Hm|].
    apply Hmax. discriminate.
Defined.

Section TransitionFacts.
Variable literature_agent_run : pystr -> result pyval.
Variable data_agent_run : pyval -> result pyval.
Variable report_agent_run : pystr -> pyval -> pyval -> result pyval.
Variable list_gt : list pyval -> list pyval -> result bool.

Let run := run literature_agent_run data_agent_run report_agent_run list_gt.




End TransitionFacts.



(* ------------------------------------------------------------------ *)
(** ** The clean-up of a fenced completion *)
(* ------------------------------------------------------------------ *)

Lemma startswith_head (p s : pystr) (c : char) :
  startswith (c :: p) s = true -> exists s', s = c :: s'.
Proof.
  destruct s as [|y s]; simpl; [discriminate|].
  rewrite andb_true_iff, N.eqb_eq. intros [-> _]. eauto.
Qed.

Lemma split_fence_first (acc s rest : pystr) :
  existsb (N.eqb 96) s = false ->
  hd [] (split_go fence 0 acc (s ++ fence ++ rest)) = rev acc ++ s.
Proof.
  revert acc; induction s as [|c s IH]; intros acc.
  - intros _. cbn. rewrite app_nil_r. reflexivity.
  - cbn [existsb]. rewrite orb_false_iff. intros [Hc Hs].
    cbn [app split_go].
    assert (Hno : startswith fence (c :: s ++ fence ++ rest) = false).
    { change fence with [96%N; 96%N; 96%N]. cbn [startswith].
      rewrite Hc. reflexivity. }
    rewrite Hno, IH by exact Hs. cbn [rev]. rewrite <- app_assoc.
    reflexivity.
Qed.

Lemma replace_absent (old new s : pystr) :
  contains old s = false -> replace old new s = s.
Proof.
  unfold replace. induction s as [|c s IH]; [reflexivity|].
  cbn [contains replace_go]. rewrite orb_false_iff. intros [H1 H2].
  rewrite H1, IH by exact H2. reflexivity.
Qed.

Lemma startswith_snoc (p s : pystr) (c : char) :
  existsb (N.eqb c) p = false -> p <> [] ->
  startswith p (s ++ [c]) = startswith p s.
Proof.
  revert s; induction p as [|x p IH]; intros s Hc Hp; [congruence|].
  cbn [existsb] in Hc. apply orb_false_iff in Hc as [Hx Hc].
  destruct s as [|y s]; cbn [app startswith].
  - rewrite N.eqb_sym, Hx. reflexivity.
  - destruct p as [|x' p]; [reflexivity|].
    rewrite IH by (auto; discriminate). reflexivity.
Qed.

Lemma contains_snoc (p s : pystr) (c : char) :
  existsb (N.eqb c) p = false -> p <> [] ->
  contains p (s ++ [c]) = contains p s.
Proof.
  intros Hc Hp. induction s as [|y s IH].
  - cbn [app contains]. destruct p as [|x p]; [congruence|].
    cbn [existsb] in Hc. apply orb_false_iff in Hc as [Hx _].
    cbn [startswith]. rewrite N.eqb_sym, Hx. reflexivity.
  - change ((y :: s) ++ [c]) with (y :: (s ++ [c])).
    cbn [contains]. rewrite IH.
    change (y :: s ++ [c]) with ((y :: s) ++ [c]).
    rewrite startswith_snoc by assumption. reflexivity.
Qed.

Lemma lstrip_snoc_space (s : pystr) (c : char) :
  isspace c = true ->
  lstrip (s ++ [c]) = match lstrip s with [] => [] | l => l ++ [c] end.
Proof.
  intros Hc. induction s as [|y s IH]; cbn [app lstrip].
  - rewrite Hc. reflexivity.
  - destruct (isspace y); [exact IH | reflexivity].
Qed.

Lemma rstrip_snoc_space (s : pystr) (c : char) :
  isspace c = true -> rstrip (s ++ [c]) = rstrip s.
Proof.
  intros Hc. unfold rstrip. rewrite rev_app_distr. cbn [rev app lstrip].
  rewrite Hc. reflexivity.
Qed.

Lemma strip_between_newlines (x : pystr) :
  strip (10%N :: x ++ [10%N]) = strip x.
Proof.
  unfold strip. change (lstrip (10%N :: x ++ [10%N])) with (lstrip (x ++ [10%N])).
  rewrite lstrip_snoc_space by reflexivity.
  destruct (lstrip x) as [|y l] eqn:E; [reflexivity|].
  apply rstrip_snoc_space. reflexivity.
Qed.

Lemma lstrip_incl (s : pystr) (c : char) : In c (lstrip s) -> In c s.
Proof.
  induction s as [|y s IH]; cbn [lstrip]; [auto|].
  destruct (isspace y); [right; auto | auto].
Qed.

Lemma strip_incl (s : pystr) (c : char) : In c (strip s) -> In c s.
Proof.
  unfold strip, rstrip. intros H. apply in_rev, lstrip_incl, in_rev in H.
  apply lstrip_incl, H.
Qed.

Lemma rstrip_snoc_other (s : pystr) (c : char) :
  isspace c = false -> rstrip (s ++ [c]) = s ++ [c].
Proof.
  intros Hc. unfold rstrip. rewrite rev_app_distr. cbn [rev app lstrip].
  rewrite Hc. cbn [rev]. rewrite rev_involutive. reflexivity.
Qed.

Lemma strip_fenced (m : pystr) :
  strip (fence ++ m ++ fence) = fence ++ m ++ fence.
Proof.
  unfold strip.
  assert (Hl : lstrip (fence ++ m ++ fence) = fence ++ m ++ fence)
    by reflexivity.
  rewrite Hl.
  assert (Hsplit : fence ++ m ++ fence
                   = (fence ++ m ++ [96%N; 96%N]) ++ [96%N]).
  { rewrite <- !app_assoc. reflexivity. }
  rewrite Hsplit. apply rstrip_snoc_other. reflexivity.
Qed.

(** A fenced completion, with or without the language tag, is cleaned to
    the stripped body when the body has no back-quote and no occurrence
    of "json". *)
Lemma strip_markdown_fenced (tagged : bool) (x : pystr) :
  existsb (N.eqb 96) x = false ->
  contains (py "json") x = false ->
  strip_markdown
    (fence ++ ((if tagged then py "json" else []) ++ [10%N] ++ x ++ [10%N])
       ++ fence)
  = strip_markdown x.
Proof.
  intros Htick Hjson.
  set (tag := if tagged then py "json" else []).
  assert (Hplain : strip_markdown x = strip x).
  { unfold strip_markdown, unwrap_fence.
    destruct (startswith fence (strip x)) eqn:E; [|reflexivity].
    apply startswith_head in E as (s' & E).
    assert (Hin : In 96%N x) by (apply strip_incl; rewrite E; left; reflexivity).
    assert (Hex : existsb (N.eqb 96) x = true).
    { apply existsb_exists. exists 96%N. auto. }
    congruence. }
  rewrite Hplain. unfold strip_markdown. rewrite strip_fenced.
  unfold unwrap_fence. rewrite startswith_app.
  match goal with
  | |- context [nth 1 ?l ?d] =>
      assert (Hbody : nth 1 l d = tag ++ [10%N] ++ x ++ [10%N])
  end.
  { set (body := tag ++ [10%N] ++ x ++ [10%N]).
    change (nth 0 (split_go fence 0 [] (body ++ fence)) [] = body).
    match goal with
    | |- nth 0 ?l _ = _ =>
        assert (Hhd : hd [] l = body); [|destruct l; exact Hhd]
    end.
    pose proof (split_fence_first [] body []) as H.
    rewrite app_nil_r in H. apply H.
    unfold body, tag. rewrite !existsb_app.
    destruct tagged; cbn; rewrite orb_false_r; exact Htick. }
  rewrite Hbody.
  match goal with
  | |- context [replace ?old ?new ?body] =>
      assert (Hrepl : replace old new body = 10%N :: x ++ [10%N])
  end.
  { assert (Hrest : contains (py "json") (10%N :: x ++ [10%N]) = false).
    { cbn [contains]. rewrite contains_snoc, Hjson by (reflexivity || discriminate).
      reflexivity. }
    destruct tagged; unfold tag.
    - change (py "json" ++ [10%N] ++ x ++ [10%N])
        with (106%N :: 115%N :: 111%N :: 110%N :: 10%N :: x ++ [10%N]).
      unfold replace. cbn [replace_go startswith py]. 
      change (startswith (py "json")
                (106%N :: 115%N :: 111%N :: 110%N :: 10%N :: x ++ [10%N]))
        with true. cbn iota. cbn [app].
      change (length (py "json") - 1) with 3.
      cbn [replace_go].
      apply (replace_absent (py "json") [] _ Hrest).
    - apply (replace_absent (py "json") [] _ Hrest). }
  rewrite Hrepl. apply strip_between_newlines.
Qed.


(** On such a body, once the decoder accepts it, the literature stage
    returns the same record for the fenced completion and for the bare
    one. *)
Lemma fenced_completion_decodes_like_its_body
      (json_loads : pystr -> result pyval)
      (tagged : bool) (x keywords : pystr) (v : pyval) :
  existsb (N.eqb 96) x = false ->
  contains (py "json") x = false ->
  json_loads (strip_markdown x) = Ok v ->
  LiteratureAgent.run json_loads (completes_with x) keywords = Ok v
  /\ LiteratureAgent.run json_loads
       (completes_with
          (fence ++ ((if tagged then py "json" else []) ++ [10%N] ++ x
                       ++ [10%N]) ++ fence))
       keywords = Ok v.
Proof.
  intros Htick Hjson Hv. unfold LiteratureAgent.run, completes_with.
  rewrite (strip_markdown_fenced tagged x Htick Hjson), Hv. auto.
Qed.

(* ------------------------------------------------------------------ *)
(** ** Decoding completions, and the endpoint *)
(* ------------------------------------------------------------------ *)

Lemma contains_at_end (sub a b c : pystr) :
  contains sub (a ++ b ++ c ++ sub) = true.
Proof.
  rewrite (app_assoc b), (app_assoc a).
  pose proof (contains_app sub (a ++ b ++ c) []) as H.
  rewrite app_nil_r in H. exact H.
Qed.

Section ParsingFacts.
Variable json_loads : pystr -> result pyval.
Variable json_dumps : pyval -> pystr.

(** Claim C2, as amended.  A completion that the JSON decoder rejects
    after the clean-up never makes a stage raise, but the three sites
    differ: the literature stage returns an error envelope whose message
    is the decoder's diagnostic followed by the raw completion; the data
    stage returns an error envelope whose message carries the diagnostic
    only, for a malformed completion as for a malformed input string;
    the report stage turns a malformed input into an empty record and
    reports no error. *)
Theorem malformed_completion_is_contained_by_each_stage
        (raw : pystr) (e : exn) :
  json_loads (strip_markdown raw) = Raise e ->
  is_JSONDecodeError e = true ->
  (* literature stage: an error envelope that quotes the completion *)
  (forall agent_executor_invoke keywords,
      agent_executor_invoke
        (py "检索关键词为：" ++ keywords
           ++ py "，严格按照要求返回结构化JSON结果") = Ok raw ->
      let message :=
        py "结果解析失败：" ++ str_exn e ++ py "，原始输出：" ++ raw in
      LiteratureAgent.run json_loads agent_executor_invoke keywords
      = Ok (PDict [ (py "status", PStr (py "error"));
                    (py "message", PStr message);
                    (py "data", PList []) ])
      /\ contains raw message = true)
  (* data stage: an error envelope that carries the diagnostic only *)
  /\ (forall agent_executor_invoke (papers : pydict),
         agent_executor_invoke
           (py "处理以下论文数据：" ++ json_dumps (PDict papers)
              ++ py "，分析类型为all，生成完整的统计结果和可视化图表")
         = Ok raw ->
         DataAgent.run json_loads json_dumps agent_executor_invoke
           (PDict papers)
         = PDict [ (py "status", PStr (py "error"));
                   (py "message",
                    PStr (py "输入数据格式错误（非有效JSON）：" ++ str_exn e));
                   (py "statistic", PDict []);
                   (py "plot_paths", PList []) ])
  /\ (forall agent_executor_invoke,
         DataAgent.run json_loads json_dumps agent_executor_invoke (PStr raw)
         = PDict [ (py "status", PStr (py "error"));
                   (py "message",
                    PStr (py "输入数据格式错误（非有效JSON）：" ++ str_exn e));
                   (py "statistic", PDict []);
                   (py "plot_paths", PList []) ])
  (* report stage: the input degrades to an empty record *)
  /\ ReportAgent._parse_input_data json_loads (PStr raw) = Ok (PDict []).
Proof.
  intros Hbad Hjson. split; [|split; [|split]].
  - intros invoke keywords Hout message.
    unfold LiteratureAgent.run. rewrite Hout, Hbad, Hjson.
    split; [reflexivity|].
    apply contains_at_end.
  - intros invoke papers Hout.
    unfold DataAgent.run, DataAgent.process. cbn [bind].
    rewrite Hout. cbn [bind]. rewrite Hbad, Hjson. reflexivity.
  - intros invoke.
    unfold DataAgent.run, DataAgent.process. cbn [strip_method bind].
    fold (strip_markdown raw). rewrite Hbad. cbn [bind]. rewrite Hjson.
    reflexivity.
  - unfold ReportAgent._parse_input_data. cbn [strip_method bind].
    fold (strip_markdown raw). rewrite Hbad, Hjson. reflexivity.
Qed.
End ParsingFacts.

(** C2, as amended, at a completion in plain English. *)
Lemma malformed_completion_witness :
  LiteratureAgent.run Json.loads (completes_with malformed_completion)
    (py "diabetes")
  = Ok (PDict
          [ (py "status", PStr (py "error"));
            (py "message",
             PStr (py "结果解析失败：Expecting value: line 1 column 1 (char 0)，原始输出：Sorry, I could not find any papers."));
            (py "data", PList []) ]).
Proof.
  assert (Hbad : Json.loads (strip_markdown malformed_completion)
                 = Raise (JSONDecodeError (py "Expecting value")
                            malformed_completion 0))
    by (vm_compute; reflexivity).
  destruct (malformed_completion_is_contained_by_each_stage
              Json.loads plain_dumps malformed_completion
              (JSONDecodeError (py "Expecting value") malformed_completion 0)
              Hbad eq_refl) as [Hlit _].
  destruct (Hlit (completes_with malformed_completion) (py "diabetes") eq_refl)
    as [Hrun _].
  rewrite Hrun. vm_compute. reflexivity.
Defined.

(** Claim C2 as stated fails: on a completion that is no JSON the data
    stage's error message does not contain the raw text, and the report
    stage's input parsing returns an empty record instead of an error. *)
Lemma data_and_report_stages_drop_the_raw_completion :
  exists message,
    DataAgent.run Json.loads plain_dumps (completes_with malformed_completion)
      literature_success
    = PDict [ (py "status", PStr (py "error"));
              (py "message", PStr message);
              (py "statistic", PDict []);
              (py "plot_paths", PList []) ]
    /\ contains malformed_completion message = false
    /\ ReportAgent._parse_input_data Json.loads (PStr malformed_completion)
       = Ok (PDict []).
Proof.
  eexists. split; [vm_compute; reflexivity|].
  split; vm_compute; reflexivity.
Qed.

(** Claim C3 fails on the code.  The sample object decodes to a record
    whose message is "json parsed"; wrapped in a fence with a "json" tag,
    the same object comes out of the literature stage with the message
    " parsed": the clean-up deletes every occurrence of "json" in the
    fenced segment, not only the leading tag, so the cleaned text is not
    the body. *)
Lemma fence_removal_erases_json_inside_the_body :
  Json.loads sample_object
  = Ok (PDict [ (py "status", PStr (py "success"));
                (py "message", PStr (py "json parsed"));
                (py "data", PList []) ])
  /\ LiteratureAgent.run Json.loads (completes_with sample_object)
       (py "diabetes")
     = Json.loads sample_object
  /\ LiteratureAgent.run Json.loads (completes_with fenced_sample_object)
       (py "diabetes")
     = Ok (PDict [ (py "status", PStr (py "success"));
                   (py "message", PStr (py " parsed"));
                   (py "data", PList []) ])
  /\ strip_markdown fenced_sample_object <> sample_object.
Proof.
  split; [vm_compute; reflexivity|].
  split; [vm_compute; reflexivity|].
  split; [vm_compute; reflexivity|].
  vm_compute. discriminate.
Qed.

Section EndpointFacts.
Variable chain : pyval -> pystr -> result pyval.

(** Claim C9.  A request that is valid in every other respect and
    whose [agent_config] has no "max_papers" passes the validation,
    which reads the bound with the default 10; building the
    configuration then subscripts [agent_config] with "max_papers" and
    raises [KeyError], so the endpoint answers chain_status "failed",
    stage "server", whatever the chain would have returned. *)
Theorem missing_max_papers_passes_validation_then_fails
        (request : pydict) (keywords : pystr)
        (llm_config pubmed_config api_key base_url model_name email : pyval)
        (agent_config : pydict) :
  request <> [] ->
  get (PDict request) (py "keywords") (PStr []) = Ok (PStr keywords) ->
  strip keywords <> [] ->
  get (PDict request) (py "llm_config") (PDict []) = Ok llm_config ->
  getitem llm_config (py "api_key") = Ok api_key ->
  truthy api_key = true ->
  getitem llm_config (py "base_url") = Ok base_url ->
  truthy base_url = true ->
  getitem llm_config (py "model_name") = Ok model_name ->
  truthy model_name = true ->
  get (PDict request) (py "pubmed_config") (PDict []) = Ok pubmed_config ->
  getitem pubmed_config (py "email") = Ok email ->
  truthy email = true ->
  contains_str (py "@") email = Ok true ->
  get (PDict request) (py "agent_config") (PDict []) = Ok (PDict agent_config) ->
  dict_lookup (py "max_papers") agent_config = None ->
  get (PDict agent_config) (py "max_papers") (PInt 10) = Ok (PInt 10)
  /\ App.bad_max_papers (PInt 10) = false
  /\ App.build_config llm_config (PDict agent_config) pubmed_config
     = Raise (KeyError (py "max_papers"))
  /\ App.research (Ok (PDict request)) chain
     = PDict [ (py "chain_status", PStr (py "failed"));
               (py "stage", PStr (py "server"));
               (py "message", PStr (py "服务器处理失败：'max_papers'")) ].
Proof.
  intros Hreq Hkw Hstrip Hllm Hak Hakt Hbu Hbut Hmn Hmnt Hpub Hem Hemt Hat
         Hagent Hnone.
  assert (Hdefault :
            get (PDict agent_config) (py "max_papers") (PInt 10)
            = Ok (PInt 10)).
  { cbn [get]. rewrite Hnone. reflexivity. }
  assert (Hconfig :
            App.build_config llm_config (PDict agent_config) pubmed_config
            = Raise (KeyError (py "max_papers"))).
  { unfold App.build_config. rewrite Hmn, Hak, Hbu. cbn [bind getitem].
    rewrite Hnone. reflexivity. }
  split; [exact Hdefault|]. split; [reflexivity|]. split; [exact Hconfig|].
  assert (Hget : forall (v r : pyval) k,
             getitem v k = Ok r -> get v k PNone = Ok r).
  { intros v r k. destruct v; try discriminate. cbn [getitem get].
    destruct (dict_lookup k d); [auto|discriminate]. }
  unfold App.research, App.handle. cbn [bind truthy].
  destruct request as [|entry request]; [congruence|]. cbn [negb].
  rewrite Hkw. cbn [bind strip_method]. rewrite Hllm, Hagent, Hpub.
  cbn [bind truthy].
  destruct (strip keywords) as [|c rest] eqn:Hs; [congruence|].
  cbn [PyStr.eqb negb].
  rewrite (Hget _ _ _ Hak). cbn [bind]. rewrite Hakt. cbn [negb].
  rewrite (Hget _ _ _ Hbu). cbn [bind]. rewrite Hbut. cbn [negb].
  rewrite (Hget _ _ _ Hmn). cbn [bind]. rewrite Hmnt. cbn [negb].
  rewrite Hdefault. cbn [bind].
  change (App.bad_max_papers (PInt 10)) with false. cbn iota.
  rewrite (Hget _ _ _ Hem). cbn [bind]. rewrite Hemt. cbn [negb].
  rewrite Hem. cbn [bind]. rewrite Hat. cbn [bind negb].
  rewrite Hconfig. reflexivity.
Qed.
End EndpointFacts.

(** C9 at a request with an empty [agent_config]. *)
Lemma missing_max_papers_witness :
  App.research (Ok request_without_max_papers) accepting_chain
  = PDict [ (py "chain_status", PStr (py "failed"));
            (py "stage", PStr (py "server"));
            (py "message", PStr (py "服务器处理失败：'max_papers'")) ].
Proof.
  refine (proj2 (proj2 (proj2
    (missing_max_papers_passes_validation_then_fails accepting_chain
       [ (py "keywords", PStr (py "diabetes mellitus"));
         (py "llm_config",
          PDict [ (py "api_key", PStr (py "sk-test"));
                  (py "base_url", PStr (py "https://llm.example/v1"));
                  (py "model_name", PStr (py "qwen-plus")) ]);
         (py "agent_config", PDict []);
         (py "pubmed_config", PDict [ (py "email", PStr (py "a@b.org")) ]) ]
       (py "diabetes mellitus")
       (PDict [ (py "api_key", PStr (py "sk-test"));
                (py "base_url", PStr (py "https://llm.example/v1"));
                (py "model_name", PStr (py "qwen-plus")) ])
       (PDict [ (py "email", PStr (py "a@b.org")) ])
       (PStr (py "sk-test"))
       (PStr (py "https://llm.example/v1"))
       (PStr (py "qwen-plus"))
       (PStr (py "a@b.org"))
       []
       _ _ _ _ _ _ _ _ _ _ _ _ _ _ _ _))));
    try reflexivity; vm_compute; discriminate.
Defined.

(* ------------------------------------------------------------------ *)
(** ** Further instances *)
(* ------------------------------------------------------------------ *)

(** C4 at a search that is refused by the server. *)
Lemma search_failure_witness :
  PubMedSearchTool._run 10 throttled_esearch idle_efetch idle_parse_articles
    (py "diabetes")
  = PDict
      [ (py "status", PStr (py "error"));
        (py "message",
         PStr (py "PubMed检索失败：HTTP Error 429: Too Many Requests，使用模拟数据"));
        (py "data", PList PubMedSearchTool.mock_papers) ].
Proof.
  destruct (search_failure_yields_error_with_mock_data
              10 throttled_esearch idle_efetch idle_parse_articles
              (py "diabetes")
              (Exception (py "HTTP Error 429: Too Many Requests"))
              (or_introl eq_refl)) as [Hrun _].
  rewrite Hrun. vm_compute. reflexivity.
Defined.

(** C8 at two generations one second apart. *)
Lemma report_path_witness :
  ReportAgent.report_path (py "./reports") new_year_2024 (py "type 2/diabetes")
  <> ReportAgent.report_path (py "./reports") one_second_later
       (py "type 2/diabetes").
Proof.
  apply (report_paths_differ_when_timestamps_differ
           (py "./reports") (py "type 2/diabetes")
           new_year_2024 one_second_later).
  - unfold ReportAgent.valid_datetime. cbn. repeat split; lia.
  - unfold ReportAgent.valid_datetime. cbn. repeat split; lia.
  - discriminate.
Defined.

(* ================================================================== *)
(** ** The result of the orchestrator *)
(* ================================================================== *)

Section OrchestratorInvariants.
Variable literature_agent_run : pystr -> result pyval.
Variable data_agent_run : pyval -> result pyval.
Variable report_agent_run : pystr -> pyval -> pyval -> result pyval.
Variable list_gt : list pyval -> list pyval -> result bool.

Let run := run literature_agent_run data_agent_run report_agent_run list_gt.

Lemma crashed_well_formed (e : exn) (invoked : list stage) :
  invoked = [Literature] \/ invoked = [Literature; Data]
  \/ invoked = [Literature; Data; Report] ->
  well_formed_result (crashed e) invoked.
Proof.
  intros H. unfold well_formed_result, crashed, failed.
  do 4 eexists. repeat (split; [reflexivity|]).
  right. split; [reflexivity|]. do 3 right. auto.
Qed.

Lemma run_keeps_the_result_shape (keywords : pystr) :
  well_formed_result (fst (run keywords)) (snd (run keywords)).
Proof.
  unfold run. rewrite run_unfold.
  destruct (literature_agent_run keywords) as [lit|e];
    [|apply crashed_well_formed; auto].
  destruct (getitem lit (py "status")) as [st|e];
    [|apply crashed_well_formed; auto].
  destruct (proceeds st).
  - destruct (data_agent_run lit) as [dat|e];
      [|apply crashed_well_formed; auto].
    destruct (getitem dat (py "status")) as [dst|e];
      [|apply crashed_well_formed; auto].
    destruct (eq_str dst (py "success")); cbn [fst snd].
    + unfold closing.
      destruct (report_agent_run keywords lit dat) as [rep|e];
        [|apply crashed_well_formed; auto].
      destruct (final_result list_gt keywords lit dat rep) as [r|e] eqn:Hf;
        [|apply crashed_well_formed; auto].
      destruct (final_result_shape _ _ _ _ _ _ Hf)
        as (rst & total & main & path & plots & _ & ->).
      unfold well_formed_result. do 4 eexists.
      repeat (split; [reflexivity|]).
      destruct (eq_str rst (py "success")); cbn [negb].
      * left. auto.
      * right. split; [reflexivity|]. right. right. left. auto.
    + unfold or_crashed.
      destruct (getitem dat (py "message")) as [m|e];
        [|apply crashed_well_formed; auto].
      unfold well_formed_result, failed. do 4 eexists.
      repeat (split; [reflexivity|]).
      right. split; [reflexivity|]. right. left. auto.
  - cbn [fst snd]. unfold or_crashed.
    destruct (getitem lit (py "message")) as [m|e];
      [|apply crashed_well_formed; auto].
    unfold well_formed_result, failed. do 4 eexists.
    repeat (split; [reflexivity|]).
    right. split; [reflexivity|]. left. auto.
Qed.

(** X1 (router_chain.py, [run]).  Whatever the three stages do, [run]
    returns a dict with a string [chain_status], a string [stage], a
    [message] and a dict [results]; the status is "success" only with
    the stage "completed" and after all three stages were invoked, and
    each failure stage comes with exactly the stages invoked up to it,
    in the order literature, data, report. *)
Theorem run_result_is_well_formed (keywords : pystr) :
  well_formed_result (fst (run keywords)) (snd (run keywords)).
Proof. exact (run_keeps_the_result_shape keywords). Qed.

(** X2 (router_chain.py, [run]).  An exception [e] raised by a stage is
    not propagated: [run] returns the "full_chain" failure whose message
    is "Agent链执行失败：" followed by [str(e)] and whose [results] are
    empty, whatever the earlier stages returned, and no later stage is
    invoked. *)
Theorem stage_exception_becomes_full_chain_failure (keywords : pystr) (e : exn) :
  let failure :=
    PDict [ (py "chain_status", PStr (py "failed"));
            (py "stage", PStr (py "full_chain"));
            (py "message", PStr (py "Agent链执行失败：" ++ str_exn e));
            (py "results", PDict []) ] in
  (literature_agent_run keywords = Raise e ->
   run keywords = (failure, [Literature]))
  /\ (forall lit lit_status,
         literature_agent_run keywords = Ok lit ->
         getitem lit (py "status") = Ok lit_status ->
         proceeds lit_status = true ->
         data_agent_run lit = Raise e ->
         run keywords = (failure, [Literature; Data]))
  /\ (forall lit lit_status dat data_status,
         literature_agent_run keywords = Ok lit ->
         getitem lit (py "status") = Ok lit_status ->
         proceeds lit_status = true ->
         data_agent_run lit = Ok dat ->
         getitem dat (py "status") = Ok data_status ->
         eq_str data_status (py "success") = true ->
         report_agent_run keywords lit dat = Raise e ->
         run keywords = (failure, [Literature; Data; Report])).
Proof.
  intros failure. unfold run. split; [|split].
  - intros H. rewrite run_unfold, H. reflexivity.
  - intros lit st H1 H2 H3 H4. rewrite run_unfold, H1, H2, H3, H4.
    reflexivity.
  - intros lit st dat dst H1 H2 H3 H4 H5 H6 H7.
    rewrite run_unfold, H1, H2, H3, H4, H5, H6, H7. reflexivity.
Qed.

(** X3 (router_chain.py, [run]).  A stage result whose ["status"] or
    ["message"] cannot be read ends the run as a "full_chain" failure
    carrying the exception of the read: a dict without "status" gives
    the message "Agent链执行失败：'status'", and any value that is not a
    dict a [TypeError]. *)
Theorem unreadable_envelope_becomes_full_chain_failure (keywords : pystr) :
  (forall lit e,
      literature_agent_run keywords = Ok lit ->
      getitem lit (py "status") = Raise e ->
      run keywords = (crashed e, [Literature]))
  /\ (forall lit lit_status e,
         literature_agent_run keywords = Ok lit ->
         getitem lit (py "status") = Ok lit_status ->
         proceeds lit_status = false ->
         getitem lit (py "message") = Raise e ->
         run keywords = (crashed e, [Literature]))
  /\ (forall lit lit_status dat e,
         literature_agent_run keywords = Ok lit ->
         getitem lit (py "status") = Ok lit_status ->
         proceeds lit_status = true ->
         data_agent_run lit = Ok dat ->
         getitem dat (py "status") = Raise e ->
         run keywords = (crashed e, [Literature; Data]))
  /\ (forall d, dict_lookup (py "status") d = None ->
                getitem (PDict d) (py "status") = Raise (KeyError (py "status"))
                /\ crashed (KeyError (py "status"))
                   = PDict [ (py "chain_status", PStr (py "failed"));
                             (py "stage", PStr (py "full_chain"));
                             (py "message",
                              PStr (py "Agent链执行失败：'status'"));
                             (py "results", PDict []) ])
  /\ (forall v, (forall d, v <> PDict d) ->
                exists msg, getitem v (py "status") = Raise (TypeError msg)).
Proof.
  unfold run. split; [|split; [|split; [|split]]].
  - intros lit e H1 H2. rewrite run_unfold, H1, H2. reflexivity.
  - intros lit st e H1 H2 H3 H4. rewrite run_unfold, H1, H2, H3.
    cbn [or_crashed]. unfold or_crashed. rewrite H4. reflexivity.
  - intros lit st dat e H1 H2 H3 H4 H5.
    rewrite run_unfold, H1, H2, H3, H4, H5. reflexivity.
  - intros d Hd. cbn [getitem]. rewrite Hd. split; reflexivity.
  - intros v Hv. destruct v; cbn [getitem]; eauto.
    exfalso. apply (Hv d). reflexivity.
Qed.
End OrchestratorInvariants.

(** A report stage that raises after two successful stages. *)
Lemma stage_exception_witness :
  run (literature_returns literature_success) (data_returns data_success)
      (raising_report connection_reset) no_list_gt (py "asthma")
  = (PDict [ (py "chain_status", PStr (py "failed"));
             (py "stage", PStr (py "full_chain"));
             (py "message",
              PStr (py "Agent链执行失败：Connection reset by peer"));
             (py "results", PDict []) ],
     [Literature; Data; Report]).
Proof.
  rewrite (proj2 (proj2 (stage_exception_becomes_full_chain_failure
             (literature_returns literature_success)
             (data_returns data_success) (raising_report connection_reset)
             no_list_gt (py "asthma") connection_reset))
             literature_success (PStr (py "success"))
             data_success (PStr (py "success"))
             eq_refl eq_refl eq_refl eq_refl eq_refl eq_refl eq_refl).
  vm_compute. reflexivity.
Defined.

(** A literature stage that returns a list. *)
Lemma unreadable_envelope_witness :
  run (literature_returns (PList [])) (data_returns data_success)
      (report_returns report_success) no_list_gt (py "asthma")
  = (PDict [ (py "chain_status", PStr (py "failed"));
             (py "stage", PStr (py "full_chain"));
             (py "message",
              PStr (py "Agent链执行失败：list indices must be integers or slices, not str"));
             (py "results", PDict []) ],
     [Literature]).
Proof.
  rewrite (proj1 (unreadable_envelope_becomes_full_chain_failure
             (literature_returns (PList [])) (data_returns data_success)
             (report_returns report_success) no_list_gt (py "asthma"))
             (PList [])
             (TypeError (py "list indices must be integers or slices, not str"))
             eq_refl eq_refl).
  vm_compute. reflexivity.
Defined.

(* ================================================================== *)
(** ** The endpoint *)
(* ================================================================== *)

Lemma get_then_getitem (v : pyval) (k : pystr) (r : pyval) :
  get v k PNone = Ok r -> truthy r = true -> getitem v k = Ok r.
Proof.
  destruct v; try discriminate. cbn [get getitem].
  destruct (dict_lookup k d); [auto|]. intros [= <-]. discriminate.
Qed.

Ltac refuse_at stage_name :=
  left; exists stage_name; eexists;
  split; [cbn; auto 6 | intros chain; reflexivity].

Lemma research_cases
        (get_json : result pyval) :
  (exists stage_name message,
      In stage_name [py "request"; py "params"; py "server"]
      /\ forall chain,
          App.research get_json chain = refusal stage_name message)
  \/ (exists request raw_keywords model_name api_key base_url max_papers
             email bound,
         get_json = Ok request
         /\ get request (py "keywords") (PStr []) = Ok (PStr raw_keywords)
         /\ strip raw_keywords <> []
         /\ truthy model_name = true
         /\ truthy api_key = true
         /\ truthy base_url = true
         /\ App.as_int max_papers = Some bound
         /\ (1 <= bound)%Z
         /\ contains_str (py "@") email = Ok true
         /\ forall chain,
             App.handle get_json chain
             = chain (chain_config model_name api_key base_url max_papers
                        email)
                     (strip raw_keywords)).
Proof.
  unfold App.research, App.handle.
  destruct get_json as [request|e]; cbn [bind]; [|refuse_at (py "server")].
  destruct (truthy request) eqn:Hreq; cbn [negb]; [|refuse_at (py "request")].
  destruct (get request (py "keywords") (PStr [])) as [kw0|e] eqn:Hkw;
    cbn [bind]; [|refuse_at (py "server")].
  destruct kw0 as [| b | z | f | raw | l | d]; cbn [strip_method bind];
    try refuse_at (py "server").
  destruct (get request (py "llm_config") (PDict [])) as [llm|e];
    cbn [bind]; [|refuse_at (py "server")].
  destruct (get request (py "agent_config") (PDict [])) as [agent|e];
    cbn [bind]; [|refuse_at (py "server")].
  destruct (get request (py "pubmed_config") (PDict [])) as [pubmed|e];
    cbn [bind]; [|refuse_at (py "server")].
  destruct (truthy (PStr (strip raw))) eqn:Hkwt; cbn [negb]; [|refuse_at (py "params")].
  destruct (get llm (py "api_key") PNone) as [ak|e] eqn:Hak;
    cbn [bind]; [|refuse_at (py "server")].
  destruct (truthy ak) eqn:Hakt; cbn [negb]; [|refuse_at (py "params")].
  destruct (get llm (py "base_url") PNone) as [bu|e] eqn:Hbu;
    cbn [bind]; [|refuse_at (py "server")].
  destruct (truthy bu) eqn:Hbut; cbn [negb]; [|refuse_at (py "params")].
  destruct (get llm (py "model_name") PNone) as [mn|e] eqn:Hmn;
    cbn [bind]; [|refuse_at (py "server")].
  destruct (truthy mn) eqn:Hmnt; cbn [negb]; [|refuse_at (py "params")].
  destruct (get agent (py "max_papers") (PInt 10)) as [mp|e] eqn:Hmp;
    cbn [bind]; [|refuse_at (py "server")].
  destruct (App.bad_max_papers mp) eqn:Hbad; [refuse_at (py "params")|].
  destruct (get pubmed (py "email") PNone) as [em|e] eqn:Hem;
    cbn [bind]; [|refuse_at (py "server")].
  destruct (truthy em) eqn:Hemt; cbn [negb bind]; [|refuse_at (py "params")].
  rewrite (get_then_getitem _ _ _ Hem Hemt). cbn [bind].
  destruct (contains_str (py "@") em) as [has_at|e] eqn:Hat;
    cbn [bind]; [|refuse_at (py "server")].
  destruct has_at; cbn [negb]; [|refuse_at (py "params")].
  unfold App.build_config.
  rewrite (get_then_getitem _ _ _ Hmn Hmnt), (get_then_getitem _ _ _ Hak Hakt),
    (get_then_getitem _ _ _ Hbu Hbut), (get_then_getitem _ _ _ Hem Hemt).
  cbn [bind].
  destruct (getitem agent (py "max_papers")) as [mp'|e] eqn:Hmp';
    cbn [bind]; [|refuse_at (py "server")].
  assert (mp' = mp).
  { destruct agent; try discriminate. cbn [get getitem] in Hmp, Hmp'.
    destruct (dict_lookup (py "max_papers") d); congruence. }
  subst mp'.
  right.
  destruct (App.as_int mp) as [z|] eqn:Hint;
    [|unfold App.bad_max_papers in Hbad; rewrite Hint in Hbad; discriminate].
  exists request, raw, mn, ak, bu, mp, em, z.
  split; [reflexivity|]. split; [exact Hkw|].
  split.
  { intros E. cbn [truthy] in Hkwt. rewrite E in Hkwt. discriminate. }
  repeat (split; [assumption|]).
  split.
  { unfold App.bad_max_papers in Hbad. rewrite Hint in Hbad.
    apply Z.ltb_ge in Hbad. exact Hbad. }
  split; [assumption|]. intros chain. reflexivity.
Qed.

(** X4 (app.py, [research]).  The endpoint either answers on its own
    with a failure at stage "request", "params" or "server", the same
    whatever the chain is, or it hands the chain the stripped, non-empty
    keywords and a configuration built from truthy model name, API key
    and base URL, an integer [max_papers] of at least 1 and an email
    address containing "@". *)
Theorem research_refuses_or_runs_a_validated_configuration
        (get_json : result pyval) :
  (exists stage_name message,
      In stage_name [py "request"; py "params"; py "server"]
      /\ forall chain,
          App.research get_json chain = refusal stage_name message)
  \/ (exists request raw_keywords model_name api_key base_url max_papers
             email bound,
         get_json = Ok request
         /\ get request (py "keywords") (PStr []) = Ok (PStr raw_keywords)
         /\ strip raw_keywords <> []
         /\ truthy model_name = true
         /\ truthy api_key = true
         /\ truthy base_url = true
         /\ App.as_int max_papers = Some bound
         /\ (1 <= bound)%Z
         /\ contains_str (py "@") email = Ok true
         /\ forall chain,
             App.handle get_json chain
             = chain (chain_config model_name api_key base_url max_papers
                        email)
                     (strip raw_keywords)).
Proof. exact (research_cases get_json). Qed.

Section EndpointEdges.
Variable chain : pyval -> pystr -> result pyval.

(** X5 (app.py, [research]).  A falsy request body is refused at stage
    "request"; a non-empty body whose keywords strip to the empty string
    is refused at stage "params"; and an exception of [get_json] is
    answered at stage "server" with its text.  The chain is not run in
    any of the three cases. *)
Theorem empty_body_and_blank_keywords_are_refused :
  (forall request,
      truthy request = false ->
      App.research (Ok request) chain
      = refusal (py "request") (py "请求参数为空，请检查输入"))
  /\ (forall (request : pydict) (raw : pystr),
         request <> [] ->
         get (PDict request) (py "keywords") (PStr []) = Ok (PStr raw) ->
         strip raw = [] ->
         App.research (Ok (PDict request)) chain
         = refusal (py "params") (py "检索关键词不能为空"))
  /\ (forall e,
         App.research (Raise e) chain
         = refusal (py "server") (py "服务器处理失败：" ++ str_exn e)).
Proof.
  split; [|split].
  - intros request H. unfold App.research, App.handle. cbn [bind].
    rewrite H. reflexivity.
  - intros request raw Hne Hkw Hblank.
    unfold App.research, App.handle. cbn [bind].
    destruct request as [|entry request]; [congruence|].
    cbn [truthy negb]. rewrite Hkw. cbn [bind strip_method].
    cbn [get]. 
    destruct (dict_lookup (py "llm_config") (entry :: request));
      destruct (dict_lookup (py "agent_config") (entry :: request));
      destruct (dict_lookup (py "pubmed_config") (entry :: request));
      cbn [bind]; rewrite Hblank; reflexivity.
  - intros e. reflexivity.
Qed.
End EndpointEdges.

(** A request whose keywords are three spaces. *)
Lemma blank_keywords_witness :
  App.research (Ok (PDict [ (py "keywords", PStr (py "   ")) ]))
    accepting_chain
  = PDict [ (py "chain_status", PStr (py "failed"));
            (py "stage", PStr (py "params"));
            (py "message", PStr (py "检索关键词不能为空")) ].
Proof.
  refine (proj1 (proj2 (empty_body_and_blank_keywords_are_refused
            accepting_chain))
            [ (py "keywords", PStr (py "   ")) ] (py "   ") _ eq_refl eq_refl).
  discriminate.
Defined.

(* ================================================================== *)
(** ** The agents *)
(* ================================================================== *)

Section LiteratureInChain.
Variable json_loads : pystr -> result pyval.
Variable agent_executor_invoke : pystr -> result pystr.
Variable data_agent_run : pyval -> result pyval.
Variable report_agent_run : pystr -> pyval -> pyval -> result pyval.
Variable list_gt : list pyval -> list pyval -> result bool.

Let chain_run :=
  ResearchRouterChain.run (LiteratureAgent.run json_loads agent_executor_invoke)
    data_agent_run report_agent_run list_gt.

Let prompt (keywords : pystr) : pystr :=
  py "检索关键词为：" ++ keywords ++ py "，严格按照要求返回结构化JSON结果".

(** X6 (literature_agent.py, [run], inside router_chain.py, [run]).  A
    completion that is no JSON stops the chain at "literature_agent" with
    a message that quotes the decoder's error and the raw completion; an
    exception of the completion call stops it there with
    "Agent执行失败：" and its text; but when that exception is itself a
    [JSONDecodeError] the handler reads the unbound [result], the agent
    raises [UnboundLocalError], and the chain fails at "full_chain". *)
Theorem literature_failures_in_the_chain (keywords : pystr) :
  (* the completion is no JSON *)
  (forall raw e,
      agent_executor_invoke (prompt keywords) = Ok raw ->
      json_loads (strip_markdown raw) = Raise e ->
      is_JSONDecodeError e = true ->
      chain_run keywords
      = (PDict [ (py "chain_status", PStr (py "failed"));
                 (py "stage", PStr (py "literature_agent"));
                 (py "message",
                  PStr (py "结果解析失败：" ++ str_exn e ++ py "，原始输出："
                          ++ raw));
                 (py "results", PDict []) ],
         [ResearchRouterChain.Literature]))
  (* the completion function raises *)
  /\ (forall e,
         agent_executor_invoke (prompt keywords) = Raise e ->
         is_JSONDecodeError e = false ->
         chain_run keywords
         = (PDict [ (py "chain_status", PStr (py "failed"));
                    (py "stage", PStr (py "literature_agent"));
                    (py "message", PStr (py "Agent执行失败：" ++ str_exn e));
                    (py "results", PDict []) ],
            [ResearchRouterChain.Literature]))
  (* the completion function raises a JSONDecodeError of its own *)
  /\ (forall e,
         agent_executor_invoke (prompt keywords) = Raise e ->
         is_JSONDecodeError e = true ->
         LiteratureAgent.run json_loads agent_executor_invoke keywords
         = Raise LiteratureAgent.unbound_result
         /\ chain_run keywords
            = (PDict [ (py "chain_status", PStr (py "failed"));
                       (py "stage", PStr (py "full_chain"));
                       (py "message",
                        PStr (py "Agent链执行失败：cannot access local variable 'result' where it is not associated with a value"));
                       (py "results", PDict []) ],
               [ResearchRouterChain.Literature])).
Proof.
  unfold chain_run, prompt. split; [|split].
  - intros raw e Hout Hbad Hjson.
    rewrite run_unfold. unfold LiteratureAgent.run.
    rewrite Hout, Hbad, Hjson. reflexivity.
  - intros e Hout Hjson.
    rewrite run_unfold. unfold LiteratureAgent.run.
    rewrite Hout, Hjson. reflexivity.
  - intros e Hout Hjson. split.
    + unfold LiteratureAgent.run. rewrite Hout, Hjson. reflexivity.
    + rewrite run_unfold. unfold LiteratureAgent.run.
      rewrite Hout, Hjson. vm_compute. reflexivity.
Qed.
End LiteratureInChain.

Section DataAgentEdges.
Variable json_loads : pystr -> result pyval.
Variable json_dumps : pyval -> pystr.
Variable agent_executor_invoke : pystr -> result pystr.

Let run := DataAgent.run json_loads json_dumps agent_executor_invoke.

(** X7 (data_agent.py, [run]).  Whatever the completion function is,
    an input that is neither a dict nor a str yields the error envelope
    "数据Agent执行失败：'T' object has no attribute 'strip'" for its type
    [T], and a str that is no JSON the envelope
    "输入数据格式错误（非有效JSON）：" with the decoder's error. *)
Theorem data_agent_refuses_bad_input_before_any_completion :
  (* neither a dict nor a str *)
  (forall papers_data,
      (forall d, papers_data <> PDict d) ->
      (forall s, papers_data <> PStr s) ->
      run papers_data
      = DataAgent.error_envelope
          (py "数据Agent执行失败：'" ++ type_name papers_data
             ++ py "' object has no attribute 'strip'"))
  (* a str that is no JSON *)
  /\ (forall s e,
         json_loads (strip_markdown s) = Raise e ->
         is_JSONDecodeError e = true ->
         run (PStr s)
         = DataAgent.error_envelope
             (py "输入数据格式错误（非有效JSON）：" ++ str_exn e)).
Proof.
  unfold run, DataAgent.run, DataAgent.process. split.
  - intros v Hd Hs.
    destruct v; cbn [strip_method bind is_JSONDecodeError no_attribute];
      try reflexivity.
    + exfalso. apply (Hs s). reflexivity.
    + exfalso. apply (Hd d). reflexivity.
  - intros s e Hbad Hjson. cbn [strip_method bind].
    fold (strip_markdown s). rewrite Hbad. cbn [bind]. rewrite Hjson.
    reflexivity.
Qed.

(** X8 (data_agent.py, [run]).  On a dict input, an exception [e] of the
    completion call yields the error envelope with empty [statistic] and
    [plot_paths]; its message starts with "数据Agent执行失败：", except
    for a [JSONDecodeError], which is reported as malformed input. *)
Theorem data_agent_completion_failures (papers : pydict) (e : exn) :
  agent_executor_invoke
    (py "处理以下论文数据：" ++ json_dumps (PDict papers)
       ++ py "，分析类型为all，生成完整的统计结果和可视化图表") = Raise e ->
  run (PDict papers)
  = DataAgent.error_envelope
      ((if is_JSONDecodeError e
        then py "输入数据格式错误（非有效JSON）："
        else py "数据Agent执行失败：") ++ str_exn e).
Proof.
  intros H. unfold run, DataAgent.run, DataAgent.process. cbn [bind].
  rewrite H. cbn [bind]. destruct (is_JSONDecodeError e); reflexivity.
Qed.
End DataAgentEdges.

Section ReportAgentFacts.
Variable json_loads : pystr -> result pyval.
Variable json_dumps_indent : pyval -> pystr.
Variable chain_run : pystr -> pystr -> pystr -> result pystr.
Variable save_path : pystr.
Variable now : ReportAgent.datetime.
Variable write_file : pystr -> pystr -> result unit.

Let run :=
  ReportAgent.run json_loads json_dumps_indent chain_run save_path now
    write_file.

(** X9 (report_agent.py, [run]).  [run] never raises and always returns
    the same five keys with string [status], [message], [report_content]
    and [report_path] and a dict [metadata]: either "success" with the
    path of the file written, or "error" with empty content, path and
    metadata. *)
Theorem report_agent_envelope_shape
        (keywords : pystr) (literature_data data_process_data : pyval) :
  exists status message content path metadata,
    run keywords literature_data data_process_data
    = PDict [ (py "status", PStr status);
              (py "message", PStr message);
              (py "report_content", PStr content);
              (py "report_path", PStr path);
              (py "metadata", PDict metadata) ]
    /\ ((status = py "success"
         /\ path = ReportAgent.report_path save_path now keywords)
        \/ (status = py "error" /\ content = [] /\ path = []
            /\ metadata = [])).
Proof.
  unfold run, ReportAgent.run.
  destruct (ReportAgent.generate json_loads json_dumps_indent chain_run
              save_path now write_file keywords literature_data
              data_process_data) as [envelope|e] eqn:Hgen.
  - unfold ReportAgent.generate in Hgen.
    destruct (ReportAgent._parse_input_data json_loads literature_data)
      as [lit|]; [|discriminate]. cbn [bind] in Hgen.
    destruct (ReportAgent._parse_input_data json_loads data_process_data)
      as [dat|]; [|discriminate]. cbn [bind] in Hgen.
    destruct (chain_run keywords (json_dumps_indent lit)
                (json_dumps_indent dat)) as [content|]; [|discriminate].
    cbn [bind] in Hgen.
    destruct (write_file (ReportAgent.report_path save_path now keywords)
                content); [|discriminate]. cbn [bind] in Hgen.
    destruct (get dat (py "statistic") (PDict [])) as [stat|]; [|discriminate].
    cbn [bind] in Hgen.
    destruct (get stat (py "total_papers") (PInt 0)) as [total|];
      [|discriminate]. cbn [bind] in Hgen.
    destruct (get dat (py "plot_paths") (PList [])) as [plots|];
      [|discriminate]. cbn [bind] in Hgen.
    destruct (len plots) as [n|]; [|discriminate]. cbn [bind] in Hgen.
    injection Hgen as <-. do 5 eexists. split; [reflexivity|]. left. auto.
  - do 5 eexists. split; [reflexivity|]. right. auto.
Qed.

(** X10 (report_agent.py, [run]).  When the report chain raises [e], or
    when it returns and writing the file raises [e], the result is the
    error envelope with the message "报告生成失败：" followed by
    [str(e)]. *)
Theorem report_agent_failures
        (keywords : pystr) (literature_data data_process_data : pydict)
        (e : exn) :
  (chain_run keywords (json_dumps_indent (PDict literature_data))
     (json_dumps_indent (PDict data_process_data)) = Raise e ->
   run keywords (PDict literature_data) (PDict data_process_data)
   = report_error_envelope e)
  /\ (forall content,
         chain_run keywords (json_dumps_indent (PDict literature_data))
           (json_dumps_indent (PDict data_process_data)) = Ok content ->
         write_file (ReportAgent.report_path save_path now keywords) content
         = Raise e ->
         run keywords (PDict literature_data) (PDict data_process_data)
         = report_error_envelope e).
Proof.
  unfold run, ReportAgent.run, ReportAgent.generate. split.
  - intros H. cbn [ReportAgent._parse_input_data bind]. rewrite H.
    reflexivity.
  - intros content H Hw. cbn [ReportAgent._parse_input_data bind].
    rewrite H. cbn [bind]. rewrite Hw. reflexivity.
Qed.


(** X12 (report_agent.py, [_parse_input_data]).  A dict is returned as
    it is; a str is stripped, unfenced and decoded; a str that does not
    decode gives the empty dict; any other value raises
    [AttributeError], which [run] turns into its error envelope. *)
Theorem report_agent_input_normalisation :
  (forall d, ReportAgent._parse_input_data json_loads (PDict d) = Ok (PDict d))
  /\ (forall s v,
         json_loads (strip_markdown s) = Ok v ->
         ReportAgent._parse_input_data json_loads (PStr s) = Ok v)
  /\ (forall s e,
         json_loads (strip_markdown s) = Raise e ->
         is_JSONDecodeError e || is_TypeError e = true ->
         ReportAgent._parse_input_data json_loads (PStr s) = Ok (PDict []))
  /\ (forall data keywords data_process_data,
         (forall d, data <> PDict d) ->
         (forall s, data <> PStr s) ->
         ReportAgent._parse_input_data json_loads data
         = Raise (no_attribute data (py "strip"))
         /\ run keywords data data_process_data
            = report_error_envelope (no_attribute data (py "strip"))).
Proof.
  split; [reflexivity|]. split; [|split].
  - intros s v H. unfold ReportAgent._parse_input_data.
    cbn [strip_method bind]. fold (strip_markdown s). rewrite H. reflexivity.
  - intros s e H He. unfold ReportAgent._parse_input_data.
    cbn [strip_method bind]. fold (strip_markdown s). rewrite H, He.
    reflexivity.
  - intros data keywords dpd Hd Hs.
    assert (Hparse : ReportAgent._parse_input_data json_loads data
                     = Raise (no_attribute data (py "strip"))).
    { destruct data; try reflexivity.
      - exfalso. apply (Hs s). reflexivity.
      - exfalso. apply (Hd d). reflexivity. }
    split; [exact Hparse|].
    unfold run, ReportAgent.run, ReportAgent.generate. rewrite Hparse.
    reflexivity.
Qed.
End ReportAgentFacts.

(** A completion call that raises a [JSONDecodeError]. *)
Lemma literature_failure_witness :
  LiteratureAgent.run Json.loads
    (raising_completion (JSONDecodeError (py "Expecting value") [] 0))
    (py "asthma")
  = Raise LiteratureAgent.unbound_result
  /\ run (LiteratureAgent.run Json.loads
            (raising_completion (JSONDecodeError (py "Expecting value") [] 0)))
         (data_returns data_success) (report_returns report_success)
         no_list_gt (py "asthma")
     = (PDict [ (py "chain_status", PStr (py "failed"));
                (py "stage", PStr (py "full_chain"));
                (py "message",
                 PStr (py "Agent链执行失败：cannot access local variable 'result' where it is not associated with a value"));
                (py "results", PDict []) ],
        [Literature]).
Proof.
  exact (proj2 (proj2 (literature_failures_in_the_chain Json.loads
           (raising_completion (JSONDecodeError (py "Expecting value") [] 0))
           (data_returns data_success) (report_returns report_success)
           no_list_gt (py "asthma")))
           (JSONDecodeError (py "Expecting value") [] 0) eq_refl eq_refl).
Defined.

(** A list handed to the data agent. *)
Lemma data_agent_bad_input_witness :
  DataAgent.run Json.loads plain_dumps (completes_with sample_object)
    (PList [])
  = DataAgent.error_envelope
      (py "数据Agent执行失败：'list' object has no attribute 'strip'").
Proof.
  rewrite (proj1 (data_agent_refuses_bad_input_before_any_completion
             Json.loads plain_dumps (completes_with sample_object))
             (PList [])
             ltac:(discriminate) ltac:(discriminate)).
  vm_compute. reflexivity.
Defined.

(** A completion call that raises on a dict input. *)
Lemma data_agent_completion_failure_witness :
  DataAgent.run Json.loads plain_dumps (raising_completion connection_reset)
    (PDict [])
  = DataAgent.error_envelope
      (py "数据Agent执行失败：Connection reset by peer").
Proof.
  rewrite (data_agent_completion_failures Json.loads plain_dumps
             (raising_completion connection_reset) [] connection_reset
             eq_refl).
  vm_compute. reflexivity.
Defined.

(** A report that cannot be written. *)
Lemma report_agent_failure_witness :
  ReportAgent.run Json.loads plain_dumps (chain_writes (py "# Report"))
    (py "./reports") new_year_2024 (unwritable disk_full) (py "asthma")
    (PDict []) (PDict [])
  = report_error_envelope disk_full.
Proof.
  exact (proj2 (report_agent_failures Json.loads plain_dumps
           (chain_writes (py "# Report")) (py "./reports") new_year_2024
           (unwritable disk_full) (py "asthma") [] [] disk_full)
           (py "# Report") eq_refl eq_refl).
Defined.


(** [None] as literature data. *)
Lemma report_agent_input_witness :
  ReportAgent._parse_input_data Json.loads PNone
  = Raise (AttributeError (py "'NoneType' object has no attribute 'strip'"))
  /\ ReportAgent.run Json.loads plain_dumps (chain_writes (py "# Report"))
       (py "./reports") new_year_2024 writable (py "asthma") PNone (PDict [])
     = report_error_envelope
         (AttributeError (py "'NoneType' object has no attribute 'strip'")).
Proof.
  destruct (proj2 (proj2 (proj2 (report_agent_input_normalisation Json.loads
             plain_dumps (chain_writes (py "# Report")) (py "./reports")
             new_year_2024 writable)))
             PNone (py "asthma") (PDict [])
             ltac:(discriminate) ltac:(discriminate)) as [H1 H2].
  rewrite H1, H2. split; vm_compute; reflexivity.
Defined.

(* ================================================================== *)
(** ** The file of a report *)
(* ================================================================== *)

Lemma pad_go_digits (w n : nat) (acc : pystr) (c : char) :
  In c (pad_go w n acc) -> In c acc \/ (48 <= c <= 57)%N.
Proof.
  revert n acc; induction w as [|w IH]; intros n acc; cbn [pad_go];
    [auto|].
  intros H. apply IH in H as [[<-|H]|H]; auto.
  right. unfold digit_char.
  pose proof (Nat.mod_upper_bound n 10 ltac:(lia)). lia.
Qed.

Lemma strftime_chars (t : datetime) (c : char) :
  In c (strftime t) -> c = 95%N \/ (48 <= c <= 57)%N.
Proof.
  unfold strftime, zero_pad. change (py "_") with [95%N].
  rewrite !in_app_iff. cbn [In].
  intros H.
  repeat match type of H with
         | _ \/ _ => destruct H as [H|H]
         | In _ (pad_go _ _ _) => apply pad_go_digits in H
         end; auto; try contradiction.
Qed.

Lemma strftime_length (t : datetime) : length (strftime t) = 15.
Proof.
  unfold strftime. rewrite !length_app, !zero_pad_length. reflexivity.
Qed.

Lemma report_filename_chars (keywords : pystr) (t : datetime) (c : char) :
  In c (report_filename keywords (strftime t)) -> c <> 47%N /\ c <> 92%N.
Proof.
  unfold report_filename. rewrite !in_app_iff.
  intros [H|[H|[H|[H|H]]]].
  - vm_compute in H.
    repeat (destruct H as [<-|H]; [split; discriminate|]). contradiction.
  - apply safe_keywords_chars in H. tauto.
  - vm_compute in H. destruct H as [<-|[]]. split; discriminate.
  - apply strftime_chars in H as [->|H]; [split; discriminate|].
    split; intros ->; lia.
  - vm_compute in H.
    repeat (destruct H as [<-|H]; [split; discriminate|]). contradiction.
Qed.

Lemma existsb_absent (c : char) (s : pystr) :
  ~ In c s -> existsb (N.eqb c) s = false.
Proof.
  intros H. destruct (existsb (N.eqb c) s) eqn:E; [|reflexivity].
  apply existsb_exists in E as (x & Hx & Heq). apply N.eqb_eq in Heq.
  subst x. contradiction.
Qed.

Section ReportFile.
Variable save_path : pystr.
Variable now : datetime.

(** X13 (report_agent.py, [run]).  The file name of a report holds
    neither "/" nor a backslash and has 35 characters plus at most 20 of
    the keywords, so the path is the save directory, a "/" unless the
    directory is empty or ends with one, and the file name: the report
    is written directly into the save directory. *)
Theorem report_file_is_a_direct_child_of_the_save_directory
        (keywords : pystr) :
  let name := report_filename keywords (strftime now) in
  contains (py "/") name = false
  /\ contains (py "\") name = false
  /\ length name = 35 + Nat.min 20 (length keywords)
  /\ report_path save_path now keywords
     = if PyStr.eqb save_path [] || startswith (py "/") (rev save_path)
       then save_path ++ name
       else save_path ++ py "/" ++ name.
Proof.
  intros name.
  assert (Hc : forall c, In c name -> c <> 47%N /\ c <> 92%N)
    by (intros c; apply report_filename_chars).
  split; [|split; [|split]].
  - change (py "/") with [47%N]. rewrite contains_single.
    apply existsb_absent. intros H. apply Hc in H. tauto.
  - change (py "\") with [92%N]. rewrite contains_single.
    apply existsb_absent. intros H. apply Hc in H. tauto.
  - unfold name, report_filename.
    rewrite !length_app, strftime_length, safe_keywords_map, length_map,
      length_firstn.
    change (length (py "research_report_")) with 16.
    change (length (py "_")) with 1. change (length (py ".md")) with 3.
    lia.
  - unfold report_path, path_join. fold name.
    assert (Hs : startswith (py "/") name = false).
    { unfold name, report_filename. reflexivity. }
    rewrite Hs. reflexivity.
Qed.

(** X14 (report_agent.py, [run]).  Two reports generated in the same
    second get the same path, the second overwriting the first, exactly
    when their keywords agree on the first 20 characters once space, "/"
    and backslash are each replaced by "_". *)
Theorem reports_of_one_second_share_a_path_iff_keywords_agree_when_cut
        (keywords1 keywords2 : pystr) :
  report_path save_path now keywords1 = report_path save_path now keywords2
  <-> map sanitize (firstn 20 keywords1) = map sanitize (firstn 20 keywords2).
Proof.
  rewrite <- !safe_keywords_map. unfold report_path. split.
  - intros H. apply path_join_inj in H; [|reflexivity|reflexivity].
    unfold report_filename in H. apply app_inv_head in H.
    rewrite !app_assoc in H. do 3 apply app_inv_tail in H. exact H.
  - intros H. unfold report_filename. rewrite H. reflexivity.
Qed.
End ReportFile.

(** Two keywords that differ by a space and a slash. *)
Lemma report_path_collision_witness :
  ReportAgent.report_path (py "./reports") new_year_2024 (py "heart failure")
  = ReportAgent.report_path (py "./reports") new_year_2024 (py "heart/failure").
Proof.
  apply (proj2 (reports_of_one_second_share_a_path_iff_keywords_agree_when_cut
           (py "./reports") new_year_2024 (py "heart failure")
           (py "heart/failure"))).
  vm_compute. reflexivity.
Defined.

(* ================================================================== *)
(** ** Configuration and categories *)
(* ================================================================== *)

Section Constructors.
Variable format_value : pyval -> pystr.
Variable construct : LiteratureAgent.llm_client -> result unit.
Variable pubmed_base_init : pyval -> result pyval.
Variable literature_init_agent :
  LiteratureAgent.llm_client -> pyval -> result unit.
Variable data_base_init : pyval -> pyval -> pyval -> result (pyval * pyval).
Variable data_init_agent : LiteratureAgent.llm_client -> result unit.
Variable report_init_chain : LiteratureAgent.llm_client -> result unit.
Variable makedirs : pyval -> result unit.

Let new_chain :=
  ResearchRouterChain.__init__ format_value construct pubmed_base_init
    literature_init_agent data_base_init data_init_agent report_init_chain
    makedirs.

(** X15 (app.py, [research]; router_chain.py, [__init__] and the
    constructors it calls).  A configuration the endpoint builds holds
    every key the constructors read: on it [ResearchRouterChain.__init__]
    comes down to the library calls, in this order: the [ChatOpenAI]
    constructor for the request's model, key and base URL at temperature
    0.1, the base constructor of the search tool on the request's
    [max_papers], the builder of the literature agent, the base
    constructor of the data tool on "png" and "./plots", [os.makedirs]
    on the plot directory as stored, the builder of the data agent, the
    builder of the report chain and [os.makedirs] on "./reports".  It
    raises exactly when one of them does, with that exception, and
    otherwise keeps the request's email and what these calls stored. *)
Theorem endpoint_configuration_has_every_key_the_constructors_read
        (llm_config agent_config pubmed_config config : pyval) :
  App.build_config llm_config agent_config pubmed_config = Ok config ->
  exists model_name api_key base_url max_papers email,
    getitem llm_config (py "model_name") = Ok model_name
    /\ getitem llm_config (py "api_key") = Ok api_key
    /\ getitem llm_config (py "base_url") = Ok base_url
    /\ getitem agent_config (py "max_papers") = Ok max_papers
    /\ getitem pubmed_config (py "email") = Ok email
    /\ new_chain config
       = (let client :=
            LiteratureAgent.ChatOpenAI
              [ (py "model", model_name);
                (py "api_key", api_key);
                (py "base_url", base_url);
                (py "temperature", PFloat LiteratureAgent.one_tenth) ] in
          _ <- construct client ;;
          stored_max_papers <- pubmed_base_init max_papers ;;
          _ <- literature_init_agent client stored_max_papers ;;
          stored <- data_base_init config (PStr (py "png"))
                      (PStr (py "./plots")) ;;
          _ <- makedirs (snd stored) ;;
          _ <- data_init_agent client ;;
          _ <- report_init_chain client ;;
          _ <- makedirs (PStr (py "./reports")) ;;
          Ok {| ResearchRouterChain.llm := client;
                ResearchRouterChain.entrez_email := email;
                ResearchRouterChain.max_papers := stored_max_papers;
                ResearchRouterChain.plot_format := fst stored;
                ResearchRouterChain.plot_dir := snd stored;
                ResearchRouterChain.report_dir := PStr (py "./reports") |}).
Proof.
  unfold App.build_config. intros H.
  destruct (getitem llm_config (py "model_name")) as [model_name|];
    [|discriminate]. cbn [bind] in H.
  destruct (getitem llm_config (py "api_key")) as [api_key|];
    [|discriminate]. cbn [bind] in H.
  destruct (getitem llm_config (py "base_url")) as [base_url|];
    [|discriminate]. cbn [bind] in H.
  destruct (getitem agent_config (py "max_papers")) as [max_papers|];
    [|discriminate]. cbn [bind] in H.
  destruct (getitem pubmed_config (py "email")) as [email|];
    [|discriminate]. cbn [bind] in H.
  injection H as <-.
  exists model_name, api_key, base_url, max_papers, email.
  repeat (split; [reflexivity|]).
  unfold new_chain. vm_compute.
  destruct (construct _) as [[]|]; [|reflexivity].
  destruct (pubmed_base_init _) as [stored_max_papers|]; [|reflexivity].
  destruct (literature_init_agent _ _) as [[]|]; [|reflexivity].
  destruct (data_base_init _ _ _) as [[stored_format stored_dir]|];
    [|reflexivity].
  destruct (makedirs stored_dir) as [[]|]; [|reflexivity].
  destruct (data_init_agent _) as [[]|]; [|reflexivity].
  destruct (report_init_chain _) as [[]|]; [|reflexivity].
  destruct (makedirs _) as [[]|]; reflexivity.
Qed.
End Constructors.

Section ClosedCategories.
Variable unicode_lower : pystr -> nat -> pystr.

(** X16 (literature_agent.py, [_classify_research_method];
    pubmed_tool.py, [RESEARCH_METHOD_TYPES]).  The classifier only
    returns categories of the declared list, and never the category
    "综述" of that list. *)
Theorem classification_stays_within_the_declared_categories
        (method_text : pystr) :
  In (LiteratureAgent._classify_research_method unicode_lower method_text)
     PubMedSearchTool.RESEARCH_METHOD_TYPES
  /\ LiteratureAgent._classify_research_method unicode_lower method_text
     <> py "综述".
Proof.
  unfold LiteratureAgent._classify_research_method.
  repeat match goal with
         | |- context [if ?b then _ else _] => destruct b
         end;
    (split; [vm_compute; tauto | vm_compute; discriminate]).
Qed.
End ClosedCategories.

(** The configuration of a sample request with library calls that
    accept it, and the configuration of a request whose base URL is a
    list, which passes the endpoint's checks, with a client constructor
    that refuses it. *)
Lemma endpoint_configuration_witness :
  ResearchRouterChain.__init__ format_str client_accepted stored_as_given
    literature_agent_built fields_as_given agent_built agent_built
    makedirs_succeeds
    (chain_config (PStr (py "qwen-plus")) (PStr (py "sk-test"))
       (PStr (py "https://llm.example/v1")) (PInt 5) (PStr (py "a@b.org")))
  = Ok {| llm :=
            LiteratureAgent.ChatOpenAI
              [ (py "model", PStr (py "qwen-plus"));
                (py "api_key", PStr (py "sk-test"));
                (py "base_url", PStr (py "https://llm.example/v1"));
                (py "temperature", PFloat LiteratureAgent.one_tenth) ];
          entrez_email := PStr (py "a@b.org");
          max_papers := PInt 5;
          plot_format := PStr (py "png");
          plot_dir := PStr (py "./plots");
          report_dir := PStr (py "./reports") |}
  /\ ResearchRouterChain.__init__ format_str
       (client_refused (KeyError (py "base_url"))) stored_as_given
       literature_agent_built fields_as_given agent_built agent_built
       makedirs_succeeds
       (chain_config (PStr (py "qwen-plus")) (PStr (py "sk-test"))
          (PList [PStr (py "https://llm.example/v1")]) (PInt 5)
          (PStr (py "a@b.org")))
     = Raise (KeyError (py "base_url")).
Proof.
  split.
  - destruct (endpoint_configuration_has_every_key_the_constructors_read
                format_str client_accepted stored_as_given
                literature_agent_built fields_as_given agent_built agent_built
                makedirs_succeeds
                (PDict [ (py "api_key", PStr (py "sk-test"));
                         (py "base_url", PStr (py "https://llm.example/v1"));
                         (py "model_name", PStr (py "qwen-plus")) ])
                (PDict [ (py "max_papers", PInt 5) ])
                (PDict [ (py "email", PStr (py "a@b.org")) ])
                (chain_config (PStr (py "qwen-plus")) (PStr (py "sk-test"))
                   (PStr (py "https://llm.example/v1")) (PInt 5)
                   (PStr (py "a@b.org")))
                eq_refl)
      as (model_name & api_key & base_url & max_papers & email
          & H1 & H2 & H3 & H4 & H5 & H).
    vm_compute in H1, H2, H3, H4, H5.
    injection H1 as <-. injection H2 as <-. injection H3 as <-.
    injection H4 as <-. injection H5 as <-.
    rewrite H. vm_compute. reflexivity.
  - destruct (endpoint_configuration_has_every_key_the_constructors_read
                format_str (client_refused (KeyError (py "base_url")))
                stored_as_given
                literature_agent_built fields_as_given agent_built agent_built
                makedirs_succeeds
                (PDict [ (py "api_key", PStr (py "sk-test"));
                         (py "base_url",
                          PList [PStr (py "https://llm.example/v1")]);
                         (py "model_name", PStr (py "qwen-plus")) ])
                (PDict [ (py "max_papers", PInt 5) ])
                (PDict [ (py "email", PStr (py "a@b.org")) ])
                (chain_config (PStr (py "qwen-plus")) (PStr (py "sk-test"))
                   (PList [PStr (py "https://llm.example/v1")]) (PInt 5)
                   (PStr (py "a@b.org")))
                eq_refl)
      as (model_name & api_key & base_url & max_papers & email
          & H1 & H2 & H3 & H4 & H5 & H).
    rewrite H. vm_compute. reflexivity.
Defined.

(* ================================================================== *)
(** ** The fence of a completion *)
(* ================================================================== *)

Lemma split_without_fence (acc s : pystr) :
  existsb (N.eqb 96) s = false ->
  split_go fence 0 acc s = [rev acc ++ s].
Proof.
  revert acc; induction s as [|c s IH]; intros acc.
  - intros _. cbn. rewrite app_nil_r. reflexivity.
  - cbn [existsb]. rewrite orb_false_iff. intros [Hc Hs].
    cbn [split_go].
    assert (Hno : startswith fence (c :: s) = false).
    { change fence with [96%N; 96%N; 96%N]. cbn [startswith].
      rewrite Hc. reflexivity. }
    rewrite Hno, IH by exact Hs. cbn [rev]. rewrite <- app_assoc.
    reflexivity.
Qed.

Lemma split_after_fence (rest : pystr) :
  split fence (fence ++ rest) = [] :: split_go fence 0 [] rest.
Proof.
  unfold split. change fence with [96%N; 96%N; 96%N].
  cbn [app split_go startswith length Nat.sub rev N.eqb Pos.eqb andb].
  reflexivity.
Qed.

(** X17 (literature_agent.py, data_agent.py and report_agent.py, the
    clean-up of a completion).  For a text that starts with a fence and
    whose body holds no back-quote, the clean-up keeps the body up to
    the second fence, with every "json" deleted and then stripped:
    whatever follows the closing fence is dropped, and a missing closing
    fence changes nothing. *)
Theorem fenced_text_is_cut_at_the_second_fence (x tail : pystr) :
  existsb (N.eqb 96) x = false ->
  unwrap_fence (fence ++ x ++ fence ++ tail)
  = strip (replace (py "json") [] x)
  /\ unwrap_fence (fence ++ x) = strip (replace (py "json") [] x).
Proof.
  intros Hx. unfold unwrap_fence. rewrite !startswith_app.
  rewrite !split_after_fence. split.
  - cbn [nth].
    pose proof (split_fence_first [] x tail Hx) as H. cbn [rev app] in H.
    destruct (split_go fence 0 [] (x ++ fence ++ tail)) as [|seg segs];
      cbn [hd] in H; [subst x; reflexivity|].
    cbn [nth]. subst seg. reflexivity.
  - rewrite (split_without_fence [] x Hx). reflexivity.
Qed.

(** A fenced object followed by a remark. *)
Lemma cut_fence_witness :
  unwrap_fence (fence ++ py "json{}" ++ fence ++ py " Here is the result.")
  = py "{}".
Proof.
  rewrite (proj1 (fenced_text_is_cut_at_the_second_fence (py "json{}")
                    (py " Here is the result.") eq_refl)).
  vm_compute. reflexivity.
Defined.

(* ================================================================== *)
(** ** The log of the callbacks *)
(* ================================================================== *)

Import AgentLogHandler.

Section LogFacts.
Variable clock : nat -> pyfloat.
Variable float_sub : pyfloat -> pyfloat -> pyfloat.

Let handle := handle_event clock float_sub.
Let replay := replay_events clock float_sub.

(** X18 (log_handler.py, the five callbacks).  A callback never touches
    the entries already logged: when it returns it has appended exactly
    one entry, whose "type" names the callback and whose "timestamp" is
    the last reading of the clock that the callback made; when it raises
    it has appended none. *)
Theorem each_callback_appends_at_most_one_entry (ev : event) (st : state) :
  match fst (handle ev st) with
  | Ok _ =>
      exists entry reading,
        get_logs (fst (snd (handle ev st))) = get_logs (fst st) ++ [entry]
        /\ getitem entry (py "type") = Ok (PStr (kind ev))
        /\ getitem entry (py "timestamp") = Ok (PFloat (clock reading))
        /\ snd st <= reading
        /\ snd (snd (handle ev st)) = S reading
  | Raise _ => get_logs (fst (snd (handle ev st))) = get_logs (fst st)
  end.
Proof.
  destruct st as [self n].
  destruct ev as [serialized inputs | outputs | serialized input_str
                 | output_str | error];
    unfold handle, handle_event, on_chain_start, on_chain_end,
      on_tool_start, on_tool_end, on_error, get_logs.
  - destruct (get serialized (py "name") (PStr (py "unknown")));
      cbn [fst snd logs append]; [|reflexivity].
    eexists. exists (S n). split; [reflexivity|].
    split; [vm_compute; reflexivity|]. split; [vm_compute; reflexivity|].
    split; [lia|reflexivity].
  - destruct (start_time self); cbn [fst snd logs append]; [|reflexivity].
    eexists. exists (S n). split; [reflexivity|].
    split; [vm_compute; reflexivity|]. split; [vm_compute; reflexivity|].
    split; [lia|reflexivity].
  - destruct (get serialized (py "name") (PStr (py "unknown")));
      cbn [fst snd logs append]; [|reflexivity].
    eexists. exists n. split; [reflexivity|].
    split; [vm_compute; reflexivity|]. split; [vm_compute; reflexivity|].
    split; [lia|reflexivity].
  - cbn [fst snd logs append].
    eexists. exists n. split; [reflexivity|].
    split; [vm_compute; reflexivity|]. split; [vm_compute; reflexivity|].
    split; [lia|reflexivity].
  - cbn [fst snd logs append].
    eexists. exists n. split; [reflexivity|].
    split; [vm_compute; reflexivity|]. split; [vm_compute; reflexivity|].
    split; [lia|reflexivity].
Qed.

Lemma other_calls_keep_start_time (ev : event) (st : state) :
  is_chain_start ev = false ->
  start_time (fst (snd (handle ev st))) = start_time (fst st).
Proof.
  destruct st as [self n].
  destruct ev as [serialized inputs | outputs | serialized input_str
                 | output_str | error]; [discriminate| | | |]; intros _;
    unfold handle, handle_event, on_chain_end,
      on_tool_start, on_tool_end, on_error.
  - destruct (start_time self); reflexivity.
  - destruct (get serialized (py "name") (PStr (py "unknown"))); reflexivity.
  - reflexivity.
  - reflexivity.
Qed.

Lemma replay_keeps_start_time (events : list event) (st : state) :
  forallb (fun ev => negb (is_chain_start ev)) events = true ->
  start_time (fst (replay events st)) = start_time (fst st).
Proof.
  revert st; induction events as [|ev events IH]; intros st;
    [reflexivity|].
  cbn [forallb]. rewrite andb_true_iff, negb_true_iff. intros [Hev Hrest].
  unfold replay, replay_events. cbn [fold_left].
  fold (replay_events clock float_sub events). fold replay.
  rewrite (IH _ Hrest). apply other_calls_keep_start_time, Hev.
Qed.

(** X19 (log_handler.py, [on_chain_start] and [on_chain_end]).  The
    "elapsed_time" logged at the end of a chain is counted from the first
    clock reading of the latest [on_chain_start], whether that call
    returned or raised, and whatever tool, error and chain-end callbacks
    came in between: with nested chains the outer chain is timed from
    the start of the inner one. *)
Theorem elapsed_time_counts_from_the_latest_chain_start
        (serialized inputs outputs : pyval) (events : list event)
        (st : state) :
  forallb (fun ev => negb (is_chain_start ev)) events = true ->
  let st1 := replay events (snd (on_chain_start clock serialized inputs st)) in
  on_chain_end clock float_sub outputs st1
  = (Ok tt,
     (append
        (PDict [ (py "type", PStr (py "chain_end"));
                 (py "outputs", outputs);
                 (py "elapsed_time",
                  PFloat (float_sub (clock (snd st1)) (clock (snd st))));
                 (py "timestamp", PFloat (clock (S (snd st1)))) ])
        (fst st1),
      S (S (snd st1)))).
Proof.
  intros Hev st1.
  assert (Hs : start_time (fst st1) = Some (clock (snd st))).
  { unfold st1. rewrite (replay_keeps_start_time _ _ Hev).
    destruct st as [self n]. unfold on_chain_start.
    destruct (get serialized (py "name") (PStr (py "unknown")));
      reflexivity. }
  destruct st1 as [self1 n1]. cbn [fst snd] in *.
  unfold on_chain_end. rewrite Hs. reflexivity.
Qed.

(** X20 (log_handler.py, [on_chain_end]).  On a handler that has seen
    no [on_chain_start], whatever else it has seen, [on_chain_end] raises
    the [TypeError] of [float - None] after reading the clock once, and
    logs nothing. *)
Theorem chain_end_before_any_chain_start_raises
        (outputs : pyval) (events : list event) (n : nat) :
  forallb (fun ev => negb (is_chain_start ev)) events = true ->
  let st := replay events (__init__, n) in
  on_chain_end clock float_sub outputs st
  = (Raise (TypeError
              (py "unsupported operand type(s) for -: 'float' and 'NoneType'")),
     (fst st, S (snd st))).
Proof.
  intros Hev st.
  assert (Hs : start_time (fst st) = None).
  { unfold st. rewrite (replay_keeps_start_time _ _ Hev). reflexivity. }
  destruct st as [self1 n1]. cbn [fst snd] in *.
  unfold on_chain_end. rewrite Hs. reflexivity.
Qed.
End LogFacts.

(** An inner chain starts and ends inside an outer one: the outer chain
    ends at the seventh reading of the clock and is logged with the four
    seconds since the inner chain started, not the six since its own
    start. *)
Lemma nested_chains_witness :
  let outer_started :=
    snd (on_chain_start ticking (named "outer") (PDict []) (__init__, 0)) in
  let inner_done :=
    replay_events ticking seconds_between [ChainEnd (PStr (py "inner done"))]
      (snd (on_chain_start ticking (named "inner") (PDict []) outer_started)) in
  exists self,
    on_chain_end ticking seconds_between (PStr (py "outer done")) inner_done
    = (Ok tt, (self, 8))
    /\ nth 3 (get_logs self) PNone
       = PDict [ (py "type", PStr (py "chain_end"));
                 (py "outputs", PStr (py "outer done"));
                 (py "elapsed_time", PFloat (FFin false 4 0));
                 (py "timestamp", PFloat (FFin false 7 0)) ].
Proof.
  intros outer_started inner_done. unfold inner_done.
  rewrite (elapsed_time_counts_from_the_latest_chain_start ticking
             seconds_between (named "inner") (PDict [])
             (PStr (py "outer done")) [ChainEnd (PStr (py "inner done"))]
             outer_started eq_refl).
  eexists. split; [reflexivity|]. vm_compute. reflexivity.
Defined.

(** A tool runs before any chain has started. *)
Lemma chain_end_without_start_witness :
  exists self,
    on_chain_end ticking seconds_between (PDict [])
      (replay_events ticking seconds_between
         [ToolStart (named "pubmed_search") (PStr (py "asthma"));
          ToolEnd (PStr (py "{}"))]
         (__init__, 0))
    = (Raise (TypeError
                (py "unsupported operand type(s) for -: 'float' and 'NoneType'")),
       (self, 3))
    /\ length (get_logs self) = 2.
Proof.
  rewrite (chain_end_before_any_chain_start_raises ticking seconds_between
             (PDict [])
             [ToolStart (named "pubmed_search") (PStr (py "asthma"));
              ToolEnd (PStr (py "{}"))] 0 eq_refl).
  eexists. split; [reflexivity|]. vm_compute. reflexivity.
Defined.

(* ================================================================== *)
(** ** The records extracted from PubMed *)
(* ================================================================== *)

Import ElementTree.

Section ExtractionFacts.
Variable unicode_upper : char -> pystr.

Let record_section := PubMedSearchTool.record_section unicode_upper.
Let _extract_abstract_sections :=
  PubMedSearchTool._extract_abstract_sections unicode_upper.

Lemma key_mm : PyStr.eqb (py "methods") (py "methods") = true.
Proof. vm_compute. reflexivity. Qed.
Lemma key_mc : PyStr.eqb (py "methods") (py "conclusion") = false.
Proof. vm_compute. reflexivity. Qed.
Lemma key_cm : PyStr.eqb (py "conclusion") (py "methods") = false.
Proof. vm_compute. reflexivity. Qed.
Lemma key_cc : PyStr.eqb (py "conclusion") (py "conclusion") = true.
Proof. vm_compute. reflexivity. Qed.

Lemma labels_differ : PyStr.eqb (py "METHODS") (py "CONCLUSION") = false.
Proof. vm_compute. reflexivity. Qed.

(** The dicts the loop builds. *)
Inductive sections_shape : pydict -> Prop :=
| shape_empty : sections_shape []
| shape_m m : sections_shape [((py "methods"), PStr m)]
| shape_c c : sections_shape [((py "conclusion"), PStr c)]
| shape_mc m c :
    sections_shape [((py "methods"), PStr m); ((py "conclusion"), PStr c)]
| shape_cm m c :
    sections_shape [((py "conclusion"), PStr c); ((py "methods"), PStr m)].

Lemma set_methods_shape (d : pydict) (m : pystr) :
  sections_shape d -> sections_shape (Json.dict_set (py "methods") (PStr m) d).
Proof.
  intros H; destruct H; cbn [Json.dict_set];
    rewrite ?key_mm, ?key_mc; cbn [Json.dict_set];
    rewrite ?key_mm, ?key_mc; constructor.
Qed.

Lemma set_conclusion_shape (d : pydict) (c : pystr) :
  sections_shape d -> sections_shape (Json.dict_set (py "conclusion") (PStr c) d).
Proof.
  intros H; destruct H; cbn [Json.dict_set];
    rewrite ?key_cc, ?key_cm; cbn [Json.dict_set];
    rewrite ?key_cc, ?key_cm; constructor.
Qed.

Lemma record_section_shape (d : pydict) (section : element) :
  sections_shape d -> sections_shape (record_section d section).
Proof.
  intros H. unfold record_section, PubMedSearchTool.record_section.
  destruct (PyStr.eqb _ (py "METHODS")); [apply set_methods_shape, H|].
  destruct (PyStr.eqb _ (py "CONCLUSION")); [apply set_conclusion_shape, H|].
  exact H.
Qed.

Lemma loop_shape (sections : list element) (d : pydict) :
  sections_shape d -> sections_shape (fold_left record_section sections d).
Proof.
  revert d; induction sections as [|s l IH]; intros d H; cbn [fold_left];
    [exact H|].
  apply IH, record_section_shape, H.
Qed.

Lemma lookup_set_same (k : pystr) (v : pyval) (d : pydict) :
  dict_lookup k (Json.dict_set k v d) = Some v.
Proof.
  induction d as [|[k' v'] d IH]; cbn [Json.dict_set dict_lookup].
  - rewrite pystr_eqb_refl. reflexivity.
  - destruct (PyStr.eqb k k') eqn:E; cbn [dict_lookup].
    + rewrite pystr_eqb_refl. reflexivity.
    + rewrite E. exact IH.
Qed.

Lemma lookup_set_other (k k' : pystr) (v : pyval) (d : pydict) :
  PyStr.eqb k' k = false ->
  dict_lookup k' (Json.dict_set k v d) = dict_lookup k' d.
Proof.
  intros Hne. induction d as [|[k0 v0] d IH]; cbn [Json.dict_set dict_lookup].
  - rewrite Hne. reflexivity.
  - destruct (PyStr.eqb k k0) eqn:E; cbn [dict_lookup].
    + apply pystr_eqb_eq in E. subst k0. rewrite Hne. reflexivity.
    + rewrite IH. reflexivity.
Qed.

(** What the loop leaves under each key. *)
Lemma loop_lookup (sections : list element) :
  dict_lookup (py "methods") (fold_left record_section sections [])
  = match rev (filter (labelled unicode_upper (py "METHODS")) sections) with
    | s :: _ => Some (PStr (PubMedSearchTool.section_text s))
    | [] => None
    end
  /\ dict_lookup (py "conclusion") (fold_left record_section sections [])
     = match rev (filter (labelled unicode_upper (py "CONCLUSION")) sections)
       with
       | s :: _ => Some (PStr (PubMedSearchTool.section_text s))
       | [] => None
       end.
Proof.
  induction sections as [|s l IH] using rev_ind; [split; reflexivity|].
  rewrite fold_left_app, !filter_app, !rev_app_distr. cbn [fold_left filter].
  destruct IH as [IHm IHc].
  unfold record_section at 1 3, PubMedSearchTool.record_section.
  unfold labelled at 1 3.
  destruct (PyStr.eqb (upper unicode_upper (get s (py "Label") []))
              (py "METHODS")) eqn:Em.
  - apply pystr_eqb_eq in Em. rewrite Em, labels_differ. cbn [rev app].
    split; [apply lookup_set_same|].
    rewrite lookup_set_other by apply key_cm. exact IHc.
  - destruct (PyStr.eqb (upper unicode_upper (get s (py "Label") []))
                (py "CONCLUSION")) eqn:Ec; cbn [rev app].
    + split; [|apply lookup_set_same].
      rewrite lookup_set_other by apply key_mc. exact IHm.
    + split; assumption.
Qed.

Lemma not_mentioned_nonempty : (py "未提及") <> [].
Proof. vm_compute. discriminate. Qed.

Lemma or_else_nonempty (s default : pystr) :
  default <> [] -> or_else s default <> [].
Proof. destruct s; cbn; [auto|discriminate]. Qed.

Lemma truthy_str (s : pystr) :
  PyVal.truthy (PStr s) = match s with [] => false | _ :: _ => true end.
Proof. destruct s; reflexivity. Qed.

Lemma abstract_sections_shape (article : element) :
  exists methods conclusion,
    (_extract_abstract_sections article
     = [ (py "methods", PStr methods); (py "conclusion", PStr conclusion) ]
     \/ _extract_abstract_sections article
        = [ (py "conclusion", PStr conclusion); (py "methods", PStr methods) ])
    /\ methods <> [] /\ conclusion <> [].
Proof.
  unfold _extract_abstract_sections,
    PubMedSearchTool._extract_abstract_sections.
  fold record_section.
  set (sections := findall _ article).
  pose proof (loop_shape sections [] shape_empty) as Hshape.
  set (full := join (py " ") _).
  assert (Hfull : match full with
                  | [] => (py "未提及")
                  | _ :: _ => full
                  end <> []).
  { destruct full; [apply not_mentioned_nonempty|discriminate]. }
  set (filled := match full with [] => _ | _ :: _ => _ end) in *.
  pose proof not_mentioned_nonempty as Hnm.
  destruct Hshape as [|m|c|m c|m c];
    unfold PubMedSearchTool.missing_or_empty;
    cbn [dict_lookup Json.dict_set];
    rewrite ?key_mm, ?key_mc, ?key_cm, ?key_cc;
    cbn [dict_lookup Json.dict_set];
    rewrite ?key_mm, ?key_mc, ?key_cm, ?key_cc;
    cbn [negb];
    repeat match goal with
           | |- context [PyVal.truthy (PStr ?s)] =>
               rewrite (truthy_str s); destruct s; cbn [negb]
           end;
    cbn [dict_lookup Json.dict_set];
    rewrite ?key_mm, ?key_mc, ?key_cm, ?key_cc;
    cbn [dict_lookup Json.dict_set negb];
    rewrite ?key_mm, ?key_mc, ?key_cm, ?key_cc;
    repeat match goal with
           | |- context [PyVal.truthy (PStr ?s)] =>
               rewrite (truthy_str s); destruct s; cbn [negb]
           end;
    cbn [dict_lookup Json.dict_set negb];
    rewrite ?key_mm, ?key_mc, ?key_cm, ?key_cc;
    cbn [dict_lookup Json.dict_set negb];
    do 2 eexists;
    (split; [first [left; reflexivity | right; reflexivity]
            | split; first [assumption | discriminate]]).
Qed.

(** X21 (pubmed_tool.py, [_extract_abstract_sections]).  The dict
    returned for an article always holds exactly the two keys "methods"
    and "conclusion", in either order, each with a non-empty string. *)
Theorem abstract_sections_are_always_complete (article : element) :
  exists methods conclusion,
    (_extract_abstract_sections article
     = [ (py "methods", PStr methods); (py "conclusion", PStr conclusion) ]
     \/ _extract_abstract_sections article
        = [ (py "conclusion", PStr conclusion); (py "methods", PStr methods) ])
    /\ methods <> [] /\ conclusion <> [].
Proof. exact (abstract_sections_shape article). Qed.

Lemma fill_lookup (key k' : pystr) (default : pystr) (d : pydict) :
  dict_lookup k'
    (if PubMedSearchTool.missing_or_empty key d
     then Json.dict_set key (PStr default) d else d)
  = if PyStr.eqb k' key
    then (if PubMedSearchTool.missing_or_empty key d
          then Some (PStr default) else dict_lookup key d)
    else dict_lookup k' d.
Proof.
  destruct (PyStr.eqb k' key) eqn:E.
  - apply pystr_eqb_eq in E. subst k'.
    destruct (PubMedSearchTool.missing_or_empty key d);
      [apply lookup_set_same|reflexivity].
  - destruct (PubMedSearchTool.missing_or_empty key d);
      [apply lookup_set_other, E|reflexivity].
Qed.

Lemma missing_after_fill (key k' : pystr) (default : pystr) (d : pydict) :
  PyStr.eqb k' key = false ->
  PubMedSearchTool.missing_or_empty k'
    (if PubMedSearchTool.missing_or_empty key d
     then Json.dict_set key (PStr default) d else d)
  = PubMedSearchTool.missing_or_empty k' d.
Proof.
  intros H. unfold PubMedSearchTool.missing_or_empty at 1 3.
  rewrite fill_lookup, H. reflexivity.
Qed.

(** X22 (pubmed_tool.py, [_extract_abstract_sections]).  "methods" is
    the stripped text of the last section whose upper-cased label is
    "METHODS"; when there is none or it is empty, the non-empty section
    texts joined by spaces, and "未提及" when that is empty too.
    "conclusion" is the stripped text of the last section labelled
    "CONCLUSION", and "未提及" when there is none or it is empty. *)
Theorem abstract_sections_take_the_last_labelled_section
        (article : element) :
  let sections := findall (path ".//Abstract/AbstractText") article in
  let full_abstract :=
    join (py " ")
      (map PubMedSearchTool.section_text
         (filter PubMedSearchTool.has_text sections)) in
  getitem (PDict (_extract_abstract_sections article)) (py "methods")
  = Ok (PStr (or_else (last_labelled unicode_upper (py "METHODS") sections)
                (or_else full_abstract (py "未提及"))))
  /\ getitem (PDict (_extract_abstract_sections article)) (py "conclusion")
     = Ok (PStr (or_else
                   (last_labelled unicode_upper (py "CONCLUSION") sections)
                   (py "未提及"))).
Proof.
  intros sections full_abstract.
  unfold _extract_abstract_sections,
    PubMedSearchTool._extract_abstract_sections.
  cbv zeta. fold record_section. fold sections. fold full_abstract.
  destruct (loop_lookup sections) as [Hm Hc].
  set (d0 := fold_left record_section sections []) in *.
  change (match full_abstract with
          | [] => py "未提及"
          | _ :: _ => full_abstract
          end) with (or_else full_abstract (py "未提及")).
  set (filled := or_else full_abstract (py "未提及")).
  cbn [getitem]. rewrite !fill_lookup.
  rewrite key_mc, key_cm, key_mm, key_cc.
  rewrite (missing_after_fill _ _ _ _ key_cm).
  unfold PubMedSearchTool.missing_or_empty. rewrite Hm, Hc. unfold last_labelled.
  split.
  - destruct (rev (filter (labelled unicode_upper (py "METHODS")) sections))
      as [|s l]; [reflexivity|].
    rewrite truthy_str.
    destruct (PubMedSearchTool.section_text s); reflexivity.
  - destruct (rev (filter (labelled unicode_upper (py "CONCLUSION")) sections))
      as [|s l]; [reflexivity|].
    rewrite truthy_str.
    destruct (PubMedSearchTool.section_text s); reflexivity.
Qed.
End ExtractionFacts.

Lemma find_child (t : string) (e : element) :
  steps (split (py "/") (py t)) = [Child (py t)] ->
  find (path t) e = hd_error (filter (has_tag (py t)) (children e)).
Proof.
  intros H. unfold find, findall, path. rewrite H.
  cbn [fold_left select flat_map]. rewrite app_nil_r. reflexivity.
Qed.

Lemma find_child_children (t : string) (e x : element) :
  steps (split (py "/") (py t)) = [Child (py t)] ->
  find (path t) e = Some x -> children e <> [].
Proof.
  intros H Hx. rewrite (find_child t e H) in Hx.
  destruct (children e); [discriminate|discriminate].
Qed.

Lemma truthy_children (e : element) :
  truthy e = true <-> children e <> [].
Proof.
  unfold truthy. destruct (children e); split; congruence.
Qed.

Lemma truthy_no_children (e : element) :
  children e = [] -> truthy e = false.
Proof. unfold truthy. intros ->. reflexivity. Qed.

Section DateFacts.

Let _extract_publish_date := PubMedSearchTool._extract_publish_date.

Lemma selected_date (article d : element) :
  (find (path ".//Journal/JournalIssue/PubDate") article = Some d
   \/ ((find (path ".//Journal/JournalIssue/PubDate") article = None
        \/ exists i, find (path ".//Journal/JournalIssue/PubDate") article
                     = Some i /\ children i = [])
       /\ find (path ".//ArticleDate") article = Some d)) ->
  children d <> [] ->
  _extract_publish_date article = date_parts d.
Proof.
  intros Hsel Hd. apply truthy_children in Hd.
  unfold _extract_publish_date, PubMedSearchTool._extract_publish_date,
    date_parts.
  cbv zeta.
  destruct Hsel as [Hi | [[Hi | (i & Hi & Hc)] He]].
  - rewrite Hi, Hd, Hd. destruct (_ ++ _); reflexivity.
  - rewrite Hi, He, Hd. destruct (_ ++ _); reflexivity.
  - rewrite Hi, (truthy_no_children i Hc), He, Hd.
    destruct (_ ++ _); reflexivity.
Qed.

(** X23 (pubmed_tool.py, [_extract_publish_date]).  When the journal
    issue's [PubDate] has children, the date is made of its [Year],
    [Month] and [Day] texts and [ArticleDate] is not read, so a
    [PubDate] without any of the three gives "未知" even beside a
    complete [ArticleDate]; the [ArticleDate] is read only when that
    [PubDate] is absent or childless, and "未知" is returned when it is
    absent or childless too. *)
Theorem publish_date_prefers_the_journal_issue (article : element) :
  let issue := find (path ".//Journal/JournalIssue/PubDate") article in
  let electronic := find (path ".//ArticleDate") article in
  let no_issue :=
    issue = None \/ exists i, issue = Some i /\ children i = [] in
  (forall d, issue = Some d -> children d <> [] ->
             _extract_publish_date article = date_parts d)
  /\ (forall d, issue = Some d -> children d <> [] ->
                find (path "Year") d = None ->
                find (path "Month") d = None ->
                find (path "Day") d = None ->
                _extract_publish_date article = Ok (py "未知"))
  /\ (forall d, no_issue -> electronic = Some d -> children d <> [] ->
                _extract_publish_date article = date_parts d)
  /\ (no_issue ->
      (electronic = None \/ exists a, electronic = Some a /\ children a = []) ->
      _extract_publish_date article = Ok (py "未知")).
Proof.
  intros issue electronic no_issue. split; [|split; [|split]].
  - intros d Hi Hd. apply selected_date; auto.
  - intros d Hi Hd Hy Hm Hday.
    rewrite (selected_date article d) by auto.
    unfold date_parts. rewrite Hy, Hm, Hday. reflexivity.
  - intros d Hno He Hd. apply selected_date; auto.
  - intros Hno He.
    unfold _extract_publish_date, PubMedSearchTool._extract_publish_date.
    cbv zeta. fold issue. fold electronic.
    destruct Hno as [Hi | (i & Hi & Hc)];
      destruct He as [He | (a & He & Ha)]; rewrite Hi;
      rewrite ?(truthy_no_children i Hc), He;
      rewrite ?(truthy_no_children a Ha); reflexivity.
Qed.

Variable unicode_isdigit : char -> bool.

Lemma ascii_digits (y : pystr) :
  forallb ascii_isdigit y = true ->
  forallb (char_isdigit unicode_isdigit) y = true.
Proof.
  induction y as [|c y IH]; cbn [forallb]; [reflexivity|].
  rewrite !andb_true_iff. intros [Hc Hy]. split; [|apply IH, Hy].
  unfold char_isdigit, is_ascii. unfold ascii_isdigit in Hc.
  apply andb_true_iff in Hc as [H1 H2]. apply N.leb_le in H1, H2.
  replace (c <? 128)%N with true by (symmetry; apply N.ltb_lt; lia).
  unfold ascii_isdigit. apply andb_true_iff. split; apply N.leb_le; lia.
Qed.

Lemma digit_string_is_a_year_text (y rest : pystr) :
  forallb ascii_isdigit y = true -> length y = 4 ->
  negb (PyVal.truthy (PStr (y ++ rest)))
  || eq_str (PStr (y ++ rest)) DataProcessTool.unknown = false.
Proof.
  intros Hd Hl. destruct y as [|c y]; [discriminate|].
  cbn [forallb] in Hd. apply andb_true_iff in Hd as [Hc _].
  unfold ascii_isdigit in Hc. apply andb_true_iff in Hc as [H1 H2].
  apply N.leb_le in H1, H2.
  unfold eq_str, DataProcessTool.unknown.
  change (py "未知") with [26410%N; 30693%N].
  cbn [app PyVal.truthy PyStr.eqb negb orb].
  replace (c =? 26410)%N with false by (symmetry; apply N.eqb_neq; lia).
  reflexivity.
Qed.

Lemma year_of_prefixed_date (y rest : pystr) :
  forallb ascii_isdigit y = true -> length y = 4 ->
  DataProcessTool._parse_publish_year unicode_isdigit
    (PStr (y ++ py "-" ++ rest)) = y.
Proof.
  intros Hd Hl.
  pose proof (digits_have_no_hyphen unicode_isdigit y (ascii_digits y Hd))
    as Hno.
  pose proof (digit_string_is_a_year_text y (py "-" ++ rest) Hd Hl) as Hgo.
  assert (Hc : contains (py "-") (y ++ py "-" ++ rest) = true).
  { change (py "-") with [45%N]. rewrite contains_single, existsb_app.
    cbn [existsb app]. rewrite N.eqb_refl, orb_true_r. reflexivity. }
  assert (Hsplit : hd [] (split (py "-") (y ++ py "-" ++ rest)) = y).
  { change (py "-") with [45%N] in *. rewrite contains_single in Hno.
    unfold split. cbn [app].
    exact (split_char_first 45%N [] y rest Hno). }
  unfold DataProcessTool._parse_publish_year, DataProcessTool.parse_year.
  rewrite Hgo. cbn [contains_str bind]. rewrite Hc. exact Hsplit.
Qed.

Lemma year_of_bare_date (y : pystr) :
  forallb ascii_isdigit y = true -> length y = 4 ->
  DataProcessTool._parse_publish_year unicode_isdigit (PStr y) = y.
Proof.
  intros Hd Hl.
  pose proof (digits_have_no_hyphen unicode_isdigit y (ascii_digits y Hd))
    as Hno.
  pose proof (ascii_digits y Hd) as Hd'.
  pose proof (digit_string_is_a_year_text y [] Hd Hl) as Hgo.
  rewrite app_nil_r in Hgo.
  unfold DataProcessTool._parse_publish_year, DataProcessTool.parse_year.
  rewrite Hgo. cbn [contains_str bind]. rewrite Hno.
  unfold isdigit. destruct y as [|c y]; [discriminate|].
  rewrite Hd', Hl. reflexivity.
Qed.

(** X24 (pubmed_tool.py, [_extract_publish_date]; data_process_tool.py,
    [_parse_publish_year]).  For an article whose journal issue is dated
    with a [Year] of four ASCII digits, and whose [Month] and [Day], if
    present, have a text, the date is extracted and the data tool derives
    exactly that year from it. *)
Theorem publish_year_of_an_extracted_date
        (article d year : element) (y : pystr) :
  find (path ".//Journal/JournalIssue/PubDate") article = Some d ->
  find (path "Year") d = Some year ->
  text year = Some y ->
  forallb ascii_isdigit y = true ->
  length y = 4 ->
  (forall m, find (path "Month") d = Some m -> text m <> None) ->
  (forall m, find (path "Day") d = Some m -> text m <> None) ->
  exists date,
    _extract_publish_date article = Ok date
    /\ DataProcessTool._parse_publish_year unicode_isdigit (PStr date) = y.
Proof.
  intros Hi Hy Ht Hd Hl Hm Hday.
  assert (Hc : children d <> []).
  { apply (find_child_children "Year" d year); [reflexivity|exact Hy]. }
  rewrite (selected_date article d) by auto.
  unfold date_parts. rewrite Hy.
  cbn [PubMedSearchTool.text_if_found app]. rewrite Ht.
  destruct (find (path "Month") d) as [m|] eqn:Em;
    destruct (find (path "Day") d) as [dd|] eqn:Ed;
    cbn [PubMedSearchTool.text_if_found app].
  - destruct (text m) as [tm|] eqn:Etm; [|exfalso; eapply Hm; eauto].
    destruct (text dd) as [td|] eqn:Etd; [|exfalso; eapply Hday; eauto].
    eexists. split; [reflexivity|].
    cbn [join]. apply year_of_prefixed_date; assumption.
  - destruct (text m) as [tm|] eqn:Etm; [|exfalso; eapply Hm; eauto].
    eexists. split; [reflexivity|].
    cbn [join]. apply year_of_prefixed_date; assumption.
  - destruct (text dd) as [td|] eqn:Etd; [|exfalso; eapply Hday; eauto].
    eexists. split; [reflexivity|].
    cbn [join]. apply year_of_prefixed_date; assumption.
  - eexists. split; [reflexivity|].
    cbn [join]. apply year_of_bare_date; assumption.
Qed.
End DateFacts.

(** The journal issue of the sample article is dated, so its electronic
    publication date is not read. *)
Lemma publish_date_witness :
  PubMedSearchTool._extract_publish_date sample_article = Ok (py "2021-Mar").
Proof.
  rewrite (proj1 (publish_date_prefers_the_journal_issue sample_article)
             sample_date eq_refl ltac:(discriminate)).
  vm_compute. reflexivity.
Defined.

(** The year of the sample article. *)
Lemma extracted_year_witness :
  exists date,
    PubMedSearchTool._extract_publish_date sample_article = Ok date
    /\ DataProcessTool._parse_publish_year no_unicode_digit (PStr date)
       = py "2021".
Proof.
  refine (publish_year_of_an_extracted_date no_unicode_digit sample_article
            sample_date (leaf "Year" "2021") (py "2021")
            eq_refl eq_refl eq_refl eq_refl eq_refl _ _).
  - intros m H. vm_compute in H. injection H as <-. discriminate.
  - intros m H. vm_compute in H. discriminate.
Defined.

Lemma comprehension_ok {A B} (f : A -> result B) (l : list A) (r : list B) :
  PubMedSearchTool.comprehension f l = Ok r ->
  length r = length l /\ Forall (fun y => exists x, In x l /\ f x = Ok y) r.
Proof.
  revert r; induction l as [|x l IH]; intros r; cbn [PubMedSearchTool.comprehension].
  - intros [= <-]. split; [reflexivity|constructor].
  - destruct (f x) as [y|e] eqn:Ex; [|discriminate]. cbn [bind].
    destruct (PubMedSearchTool.comprehension f l) as [ys|e]; [|discriminate].
    cbn [bind]. intros [= <-]. destruct (IH ys eq_refl) as [Hl Hall].
    split; [cbn [length]; congruence|].
    constructor; [exists x; cbn [In]; auto|].
    eapply Forall_impl; [|exact Hall].
    intros b (a & Ha & Hb). exists a. cbn [In]. auto.
Qed.

Lemma comprehension_raises {A B} (f : A -> result B) (l : list A) (x : A) :
  In x l -> (exists e, f x = Raise e) ->
  exists e, PubMedSearchTool.comprehension f l = Raise e.
Proof.
  intros Hin (e & He). induction l as [|a l IH]; [contradiction|].
  cbn [PubMedSearchTool.comprehension].
  destruct (f a) as [y|e'] eqn:Ea; [|eexists; reflexivity]. cbn [bind].
  destruct Hin as [->|Hin]; [congruence|].
  destruct (IH Hin) as (e'' & ->). eexists; reflexivity.
Qed.

Section PaperFacts.
Variable unicode_upper : char -> pystr.

Let paper := PubMedSearchTool.paper unicode_upper.
Let papers := PubMedSearchTool.papers unicode_upper.

Lemma paper_is_a_record (article : element) (p : pyval) :
  paper article = Ok p -> paper_record p.
Proof.
  unfold paper, PubMedSearchTool.paper. cbv zeta.
  destruct (abstract_sections_shape unicode_upper article)
    as (methods & conclusion & Hshape & Hm & Hc).
  assert (Hgm : getitem (PDict (PubMedSearchTool._extract_abstract_sections
                                  unicode_upper article)) (py "methods")
                = Ok (PStr methods)).
  { destruct Hshape as [-> | ->]; vm_compute; reflexivity. }
  assert (Hgc : getitem (PDict (PubMedSearchTool._extract_abstract_sections
                                  unicode_upper article)) (py "conclusion")
                = Ok (PStr conclusion)).
  { destruct Hshape as [-> | ->]; vm_compute; reflexivity. }
  rewrite Hgm, Hgc.
  match goal with
  | |- bind ?t _ = _ -> _ => destruct t as [title|e]; [|discriminate]
  end.
  cbn [bind].
  destruct (PubMedSearchTool._extract_publish_date article) as [date|e];
    [|discriminate].
  cbn [bind].
  destruct (PubMedSearchTool.comprehension _ _) as [authors|e]; [|discriminate].
  cbn [bind]. intros [= <-].
  assert (Hj : PubMedSearchTool._extract_journal_name article = PNone
               \/ exists name,
                   PubMedSearchTool._extract_journal_name article = PStr name).
  { unfold PubMedSearchTool._extract_journal_name.
    destruct (find _ article) as [j|]; [|eauto].
    destruct (text j); eauto. }
  destruct authors as [|a authors].
  - exists title, date, (PubMedSearchTool._extract_journal_name article),
      methods, conclusion, [py "未知作者"].
    repeat split; auto. discriminate.
  - exists title, date, (PubMedSearchTool._extract_journal_name article),
      methods, conclusion, (a :: authors).
    repeat split; auto. discriminate.
Qed.

Lemma incomplete_author_raises (author : element) :
  find (path "LastName") author <> None ->
  find (path "Initials") author = None ->
  PubMedSearchTool.has_last_name author = true
  /\ PubMedSearchTool.author_name author
     = Raise (PubMedSearchTool.none_has_no "text").
Proof.
  intros Hl Hi.
  unfold PubMedSearchTool.has_last_name, PubMedSearchTool.author_name.
  destruct (find (path "LastName") author); [|congruence].
  rewrite Hi. split; reflexivity.
Qed.

Lemma incomplete_article_raises (article : element) :
  (exists author,
      In author (findall (path "AuthorList/Author") article)
      /\ find (path "LastName") author <> None
      /\ find (path "Initials") author = None)
  \/ (exists title,
         find (path "ArticleTitle") article = Some title
         /\ text title = None) ->
  exists e, paper article = Raise e.
Proof.
  unfold paper, PubMedSearchTool.paper. cbv zeta.
  intros [(author & Hin & Hl & Hi) | (title & Ht & Hn)].
  - match goal with
    | |- exists e, bind ?t _ = _ =>
        destruct t as [title|e]; [|eexists; reflexivity]
    end.
    cbn [bind].
    destruct (PubMedSearchTool._extract_publish_date article) as [date|e];
      [|eexists; reflexivity].
    cbn [bind].
    destruct (getitem _ (py "methods")) as [m|e]; [|eexists; reflexivity].
    cbn [bind].
    destruct (getitem _ (py "conclusion")) as [c|e]; [|eexists; reflexivity].
    cbn [bind].
    destruct (incomplete_author_raises author Hl Hi) as [Hf Hr].
    destruct (comprehension_raises PubMedSearchTool.author_name
                (filter PubMedSearchTool.has_last_name
                   (findall (path "AuthorList/Author") article)) author)
      as (e & ->).
    + apply filter_In. auto.
    + eexists; exact Hr.
    + eexists; reflexivity.
  - rewrite Ht, Hn. eexists; reflexivity.
Qed.

Variable max_papers : Z.
Variable esearch : pystr -> Z -> result (list pystr).
Variable efetch : pystr -> result pystr.
Variable fromstring : pystr -> result element.

Let _run :=
  PubMedSearchTool._run max_papers esearch efetch
    (PubMedSearchTool.read_articles unicode_upper fromstring).

(** X25 (pubmed_tool.py, [_run]).  When the search, the fetch, the
    parser and the extraction of every article go through, [_run]
    returns the "success" envelope whose message counts the [Article]
    elements of the document and whose data are the records, each with
    the six keys in order, a string title and date, a journal name that
    is a string or [None], non-empty methods and conclusion and a
    non-empty list of author names. *)
Theorem successful_search_lists_one_record_per_article
        (keywords : pystr) (ids : list pystr) (xml : pystr) (root : element)
        (records : list pyval) :
  esearch keywords max_papers = Ok ids ->
  efetch (join (py ",") ids) = Ok xml ->
  fromstring xml = Ok root ->
  papers root = Ok records ->
  _run keywords
  = PDict [ (py "status", PStr (py "success"));
            (py "message",
             PStr (py "成功检索到"
                     ++ str_of_nat
                          (length
                             (findall
                                (path ".//PubmedArticle/MedlineCitation/Article")
                                root))
                     ++ py "篇论文"));
            (py "data", PList records) ]
  /\ Forall paper_record records.
Proof.
  intros Hs Hf Hx Hp.
  unfold papers, PubMedSearchTool.papers in Hp.
  destruct (comprehension_ok _ _ _ Hp) as [Hlen Hall].
  split.
  - unfold _run, PubMedSearchTool._run, PubMedSearchTool.search.
    rewrite Hs. cbn [bind]. rewrite Hf. cbn [bind].
    unfold PubMedSearchTool.read_articles. rewrite Hx. cbn [bind].
    unfold PubMedSearchTool.papers. rewrite Hp. cbn [bind].
    rewrite Hlen. reflexivity.
  - eapply Forall_impl; [|exact Hall].
    intros p (article & _ & Hpaper). apply (paper_is_a_record article).
    exact Hpaper.
Qed.

(** X26 (pubmed_tool.py, [_run]).  If one article of the fetched
    document has an author with a [LastName] and no [Initials], or an
    [ArticleTitle] without text, then [_run] returns the "error"
    envelope with the simulated papers: the records of all the other
    articles are lost. *)
Theorem one_incomplete_article_discards_every_paper
        (keywords : pystr) (ids : list pystr) (xml : pystr)
        (root article : element) :
  esearch keywords max_papers = Ok ids ->
  efetch (join (py ",") ids) = Ok xml ->
  fromstring xml = Ok root ->
  In article (findall (path ".//PubmedArticle/MedlineCitation/Article") root) ->
  (exists author,
      In author (findall (path "AuthorList/Author") article)
      /\ find (path "LastName") author <> None
      /\ find (path "Initials") author = None)
  \/ (exists title,
         find (path "ArticleTitle") article = Some title
         /\ text title = None) ->
  exists e,
    _run keywords
    = PDict [ (py "status", PStr (py "error"));
              (py "message",
               PStr (py "PubMed检索失败：" ++ str_exn e
                       ++ py "，使用模拟数据"));
              (py "data", PList PubMedSearchTool.mock_papers) ].
Proof.
  intros Hs Hf Hx Hin Hbad.
  destruct (comprehension_raises paper _ article Hin
              (incomplete_article_raises article Hbad)) as (e & He).
  exists e.
  unfold _run, PubMedSearchTool._run.
  rewrite (search_raises max_papers esearch efetch
             (PubMedSearchTool.read_articles unicode_upper fromstring)
             keywords e); [reflexivity|].
  right. exists ids. split; [exact Hs|]. right. exists xml.
  split; [exact Hf|].
  unfold PubMedSearchTool.read_articles. rewrite Hx. cbn [bind].
  exact He.
Qed.
End PaperFacts.

(** A search that returns the sample article. *)
Lemma successful_search_witness :
  PubMedSearchTool._run 10 (finds [py "33186500"]) idle_efetch
    (PubMedSearchTool.read_articles caseless_upper
       (parses_to (document [sample_article])))
    (py "aspirin")
  = PDict [ (py "status", PStr (py "success"));
            (py "message", PStr (py "成功检索到1篇论文"));
            (py "data", PList [sample_record]) ]
  /\ Forall paper_record [sample_record].
Proof.
  destruct (successful_search_lists_one_record_per_article caseless_upper 10
              (finds [py "33186500"]) idle_efetch
              (parses_to (document [sample_article]))
              (py "aspirin") [py "33186500"] [] (document [sample_article])
              [sample_record] eq_refl eq_refl eq_refl
              ltac:(vm_compute; reflexivity)) as [Hrun Hall].
  split; [|exact Hall]. rewrite Hrun. vm_compute. reflexivity.
Defined.

(** A search whose second article has an author without initials. *)
Lemma incomplete_article_witness :
  exists e,
    PubMedSearchTool._run 10 (finds [py "33186500"; py "33186501"])
      idle_efetch
      (PubMedSearchTool.read_articles caseless_upper
         (parses_to (document [sample_article; incomplete_article])))
      (py "aspirin")
    = PDict [ (py "status", PStr (py "error"));
              (py "message",
               PStr (py "PubMed检索失败：" ++ str_exn e
                       ++ py "，使用模拟数据"));
              (py "data", PList PubMedSearchTool.mock_papers) ].
Proof.
  refine (one_incomplete_article_discards_every_paper caseless_upper 10
            (finds [py "33186500"; py "33186501"]) idle_efetch
            (parses_to (document [sample_article; incomplete_article]))
            (py "aspirin") [py "33186500"; py "33186501"] []
            (document [sample_article; incomplete_article])
            incomplete_article eq_refl eq_refl eq_refl _ _).
  - vm_compute. right. left. reflexivity.
  - left. exists (node "Author" [ leaf "LastName" "Madonna" ]).
    split; [vm_compute; right; left; reflexivity|].
    split; [vm_compute; discriminate | vm_compute; reflexivity].
Defined.

(* ================================================================== *)
(** ** The endpoint and the chain together *)
(* ================================================================== *)

Section EndToEnd.
Variable chain : Type.
Variable new_chain : pyval -> result chain.
Variable literature_agent_run : chain -> pystr -> result pyval.
Variable data_agent_run : chain -> pyval -> result pyval.
Variable report_agent_run : chain -> pystr -> pyval -> pyval -> result pyval.
Variable list_gt : list pyval -> list pyval -> result bool.

Lemma refusal_shape (stage_name message : pystr) :
  In stage_name [py "request"; py "params"; py "server"] ->
  response_shape (refusal stage_name message).
Proof.
  intros Hin. exists (py "failed"), stage_name, (PStr message).
  split; [reflexivity|]. split; [reflexivity|]. split; [reflexivity|].
  split.
  - unfold stage_names. cbn [In] in *. tauto.
  - right. split; [reflexivity|].
    cbn [In] in Hin. destruct Hin as [<-|[<-|[<-|[]]]]; vm_compute;
      discriminate.
Qed.

Lemma well_formed_response (result : pyval)
      (invoked : list ResearchRouterChain.stage) :
  well_formed_result result invoked -> response_shape result.
Proof.
  intros (status & stage_name & message & results & Hs & Hst & Hm & _ & H).
  exists status, stage_name, message.
  repeat (split; [assumption|]).
  destruct H as [(-> & -> & _) | (-> & H)].
  - split; [vm_compute; tauto | left; auto].
  - destruct H as [(-> & _) | [(-> & _) | [(-> & _) | (-> & _)]]];
      (split; [vm_compute; tauto | right; split; [reflexivity|];
                                   vm_compute; discriminate]).
Qed.

(** X27 (app.py, [research]; router_chain.py, [__init__] and [run]).
    Whatever the request is and whatever the constructor of the chain
    and the agents do, the endpoint answers with a dict that holds a string
    "chain_status", a string "stage" out of the eight stage names and a
    "message"; the status is "success" with the stage "completed", and
    "failed" with any other stage. *)
Theorem endpoint_response_always_names_a_status_and_a_stage
        (get_json : result pyval) :
  response_shape
    (App.research get_json
       (run_chain new_chain literature_agent_run data_agent_run
          report_agent_run list_gt)).
Proof.
  destruct (research_cases get_json)
    as [(stage_name & message & Hin & H)
       | (request & raw & model_name & api_key & base_url & max_papers
          & email & bound & _ & _ & _ & _ & _ & _ & _ & _ & _ & H)].
  - rewrite H. apply refusal_shape, Hin.
  - unfold App.research. rewrite H. unfold run_chain.
    destruct (new_chain _) as [self|e]; cbn [bind].
    + eapply well_formed_response. apply run_keeps_the_result_shape.
    + apply (refusal_shape (py "server")). cbn [In]. auto.
Qed.
End EndToEnd.

(* ================================================================== *)
(** ** A report written and reported as failed *)
(* ================================================================== *)

Section ReportAfterWriting.
Variable json_loads : pystr -> result pyval.
Variable json_dumps_indent : pyval -> pystr.
Variable chain_run : pystr -> pystr -> pystr -> result pystr.
Variable save_path : pystr.
Variable now : ReportAgent.datetime.
Variable write_file : pystr -> pystr -> result unit.

(** X28 (report_agent.py, [run]).  After the report has been generated
    and written to its file, a "statistic" of the data that is not a
    dict, or "plot_paths" without a length, still turns the result into
    the error envelope, with an empty [report_path]: the file is on disk
    and the report is answered as failed. *)
Theorem written_report_is_reported_as_failed_on_unreadable_statistics
        (keywords : pystr) (literature_data data_process_data : pydict)
        (content : pystr) :
  chain_run keywords (json_dumps_indent (PDict literature_data))
    (json_dumps_indent (PDict data_process_data)) = Ok content ->
  write_file (ReportAgent.report_path save_path now keywords) content
  = Ok tt ->
  (forall statistic,
      dict_lookup (py "statistic") data_process_data = Some statistic ->
      (forall d, statistic <> PDict d) ->
      ReportAgent.run json_loads json_dumps_indent chain_run save_path now
        write_file keywords (PDict literature_data) (PDict data_process_data)
      = report_error_envelope (no_attribute statistic (py "get")))
  /\ (forall plot_paths e,
         dict_lookup (py "statistic") data_process_data = None ->
         dict_lookup (py "plot_paths") data_process_data = Some plot_paths ->
         len plot_paths = Raise e ->
         ReportAgent.run json_loads json_dumps_indent chain_run save_path now
           write_file keywords (PDict literature_data)
           (PDict data_process_data)
         = report_error_envelope e).
Proof.
  intros Hc Hw. split.
  - intros statistic Hs Hnd.
    unfold ReportAgent.run, ReportAgent.generate.
    cbn [ReportAgent._parse_input_data bind]. rewrite Hc. cbn [bind].
    rewrite Hw. cbn [bind PyVal.get]. rewrite Hs. cbn [bind].
    destruct statistic; try reflexivity.
    exfalso. apply (Hnd d). reflexivity.
  - intros plot_paths e Hs Hp Hl.
    unfold ReportAgent.run, ReportAgent.generate.
    cbn [ReportAgent._parse_input_data bind]. rewrite Hc. cbn [bind].
    rewrite Hw. cbn [bind PyVal.get]. rewrite Hs. cbn [bind PyVal.get dict_lookup].
    rewrite Hp. cbn [bind]. rewrite Hl. reflexivity.
Qed.
End ReportAfterWriting.

(** A data result whose statistics are [None]. *)
Lemma written_report_witness :
  ReportAgent.run Json.loads plain_dumps (chain_writes (py "# Report"))
    (py "./reports") new_year_2024 writable (py "asthma") (PDict [])
    (PDict [ (py "status", PStr (py "success"));
             (py "statistic", PNone) ])
  = report_error_envelope
      (AttributeError (py "'NoneType' object has no attribute 'get'")).
Proof.
  rewrite (proj1 (written_report_is_reported_as_failed_on_unreadable_statistics
                    Json.loads plain_dumps (chain_writes (py "# Report"))
                    (py "./reports") new_year_2024 writable (py "asthma") []
                    [ (py "status", PStr (py "success"));
                      (py "statistic", PNone) ]
                    (py "# Report") eq_refl eq_refl)
             PNone eq_refl ltac:(discriminate)).
  vm_compute. reflexivity.
Defined.
